(** * Umbra: permission resolution and key custody

    A shallow embedding of the authorization core of the backend
    ([app/utils/permissions.py], [app/routers/organizations.py],
    [app/routers/invitations.py], [app/routers/accounts.py], [app/schemas.py],
    [app/models.py]) and the properties of it that the specification states.

    Tables are lists of rows in storage order; [Query.first()] is the first row
    of the table that passes the filter.  UUIDs are only ever compared for
    equality and are numbers here; a timestamp is a number of microseconds. *)

From Stdlib Require Import String Ascii List ZArith NArith Bool Lia.
From Stdlib.Strings Require Import Byte.
Import ListNotations.
Local Open Scope Z_scope.
Local Open Scope string_scope.

(** ** Basic types *)

Abbreviation UUID := N (only parsing).
Abbreviation datetime := Z (only parsing).

(** [timedelta(days=7)] in microseconds. *)
Definition timedelta_days (d : Z) : Z := d * 86400 * 1000000.

(** Python's [x is None] / truthiness of a nullable column holding a UUID or a
    datetime: such objects are always truthy, so only [None] is falsy. *)
Definition is_none {A} (o : option A) : bool :=
  match o with None => true | Some _ => false end.

Definition is_set {A} (o : option A) : bool := negb (is_none o).

(** Truthiness of a [str]: the empty string is falsy. *)
Definition str_truthy (s : string) : bool := negb (s =? "").

(** [d.get(k, default)] on a dict literal, kept as its list of items. *)
Fixpoint dict_get (d : list (string * Z)) (k : string) (default : Z) : Z :=
  match d with
  | [] => default
  | (k', v) :: d' => if k' =? k then v else dict_get d' k default
  end.

(** [x in [a, b, ...]] for strings. *)
Definition str_in (x : string) (l : list string) : bool :=
  existsb (String.eqb x) l.

(** ** [secrets.token_urlsafe]

    The standard library's [token_urlsafe(nbytes)] draws [nbytes] random bytes
    and returns [base64.urlsafe_b64encode(tok).rstrip(b'=')]: base64 over the
    alphabet with [-] and [_] in place of [+] and [/], padding stripped.  The
    bytes drawn are an input here. *)

Definition b64_alphabet : list ascii :=
  list_ascii_of_string
    "ABCDEFGHIJKLMNOPQRSTUVWXYZabcdefghijklmnopqrstuvwxyz0123456789+/".

Definition sextet (n : N) : ascii := nth (N.to_nat n) b64_alphabet "A"%char.

Fixpoint b64encode (s : list byte) : list ascii :=
  match s with
  | [] => []
  | [a] =>
    let a := Byte.to_N a in
    [sextet (N.shiftr a 2); sextet (N.shiftl (N.land a 3) 4); "="%char; "="%char]
  | [a; b] =>
    let a := Byte.to_N a in
    let b := Byte.to_N b in
    [sextet (N.shiftr a 2);
     sextet (N.lor (N.shiftl (N.land a 3) 4) (N.shiftr b 4));
     sextet (N.shiftl (N.land b 15) 2); "="%char]
  | a :: b :: c :: rest =>
    let a := Byte.to_N a in
    let b := Byte.to_N b in
    let c := Byte.to_N c in
    sextet (N.shiftr a 2)
    :: sextet (N.lor (N.shiftl (N.land a 3) 4) (N.shiftr b 4))
    :: sextet (N.lor (N.shiftl (N.land b 15) 2) (N.shiftr c 6))
    :: sextet (N.land c 63)
    :: b64encode rest
  end.

Definition urlsafe_translation (c : ascii) : ascii :=
  if (c =? "+")%char then "-"%char
  else if (c =? "/")%char then "_"%char
  else c.

Definition urlsafe_b64encode (s : list byte) : list ascii :=
  map urlsafe_translation (b64encode s).

(** [bytes.rstrip(c)] *)
Fixpoint rstrip (c : ascii) (s : list ascii) : list ascii :=
  match s with
  | [] => []
  | x :: s' =>
    match rstrip c s' with
    | [] => if (x =? c)%char then [] else [x]
    | r => x :: r
    end
  end.

Definition token_urlsafe (tok : list byte) : string :=
  string_of_list_ascii (rstrip "="%char (urlsafe_b64encode tok)).

(** ** Models ([app/models.py]); only the columns the modelled code reads or
    writes are kept. *)

Module User.
Record t := mk { id : UUID; email : string }.
End User.

Module Organization.
Record t := mk { id : UUID; name : string; deleted_at : option datetime }.
End Organization.

Module OrganizationMember.
Record t := mk {
  organization_id : UUID;
  user_id : UUID;
  role : string;
  wrapped_org_key : string }.

Definition set_role (r : string) (m : t) : t :=
  mk (organization_id m) (user_id m) r (wrapped_org_key m).

Definition set_wrapped_org_key (k : string) (m : t) : t :=
  mk (organization_id m) (user_id m) (role m) k.
End OrganizationMember.

Module Account.
Record t := mk {
  id : UUID;
  user_id : UUID;
  organization_id : option UUID;
  default_permission : string;
  encrypted_dek : option string;
  deleted_at : option datetime }.

Definition set_encrypted_dek (k : string) (a : t) : t :=
  mk (id a) (user_id a) (organization_id a) (default_permission a) (Some k)
     (deleted_at a).
End Account.

Module AccountPermission.
Record t := mk { account_id : UUID; user_id : UUID; permission : string }.
End AccountPermission.

Module OrganizationInvitation.
Record t := mk {
  organization_id : UUID;
  email : string;
  role : string;
  wrapped_org_key : string;
  invited_by : UUID;
  token : string;
  expires_at : datetime;
  accepted_at : option datetime;
  rejected_at : option datetime }.

Definition set_accepted_at (d : datetime) (i : t) : t :=
  mk (organization_id i) (email i) (role i) (wrapped_org_key i) (invited_by i)
     (token i) (expires_at i) (Some d) (rejected_at i).

Definition set_rejected_at (d : datetime) (i : t) : t :=
  mk (organization_id i) (email i) (role i) (wrapped_org_key i) (invited_by i)
     (token i) (expires_at i) (accepted_at i) (Some d).
End OrganizationInvitation.

(** Values of the [details] JSON column. *)
Inductive json := JStr (s : string) | JInt (n : Z).

Module AuditLog.
Record t := mk {
  organization_id : UUID;
  user_id : UUID;
  action : string;
  resource_type : option string;
  details : list (string * json) }.
End AuditLog.

(** The database: one list of rows per table. *)
Record DB := mkDB {
  users : list User.t;
  organizations : list Organization.t;
  organization_members : list OrganizationMember.t;
  accounts : list Account.t;
  account_permissions : list AccountPermission.t;
  organization_invitations : list OrganizationInvitation.t;
  audit_logs : list AuditLog.t }.

Definition empty_db : DB := mkDB [] [] [] [] [] [] [].

(** ** Exceptions and results *)

Inductive Exception :=
| HTTPException (status_code : Z) (detail : string)
| ValidationError (msg : string)
| ValueError (msg : string)
| AttributeError
| StorageError.

(** [class PermissionError(HTTPException)]: always a 403. *)
Definition PermissionError (detail : string) : Exception :=
  HTTPException 403 detail.

Inductive result (A : Type) :=
| Return (a : A)
| Raise (e : Exception).
Arguments Return {A} a.
Arguments Raise {A} e.

Definition raised {A} (r : result A) : bool :=
  match r with Return _ => false | Raise _ => true end.

(** ** [app/utils/permissions.py] *)

Definition ROLE_HIERARCHY : list (string * Z) :=
  [("owner", 4); ("admin", 3); ("member", 2); ("viewer", 1)].

Definition PERMISSION_HIERARCHY : list (string * Z) :=
  [("full", 3); ("edit", 2); ("view", 1)].

(** The comparison of [check_org_permission], lines 197-204: the check raises
    when [user_level < required_level]. *)
Definition role_at_least (actual required : string) : bool :=
  negb (dict_get ROLE_HIERARCHY actual 0 <? dict_get ROLE_HIERARCHY required 0)%Z.

Definition find_organization (db : DB) (org_id : UUID) : option Organization.t :=
  find (fun o => (Organization.id o =? org_id)%N && is_none (Organization.deleted_at o))
       (organizations db).

(** The filter of a membership query: [organization_id == org_id] and
    [user_id == user_id]. *)
Definition is_member_row (org_id user_id : UUID) (m : OrganizationMember.t) : bool :=
  (OrganizationMember.organization_id m =? org_id)%N
  && (OrganizationMember.user_id m =? user_id)%N.

Definition find_member (db : DB) (org_id user_id : UUID) : option OrganizationMember.t :=
  find (is_member_row org_id user_id) (organization_members db).

Definition check_org_permission (db : DB) (user : User.t) (org_id : UUID)
    (required_role : option string) : result OrganizationMember.t :=
  match find_organization db org_id with
  | None => Raise (HTTPException 404 "Organization not found")
  | Some _ =>
    match find_member db org_id (User.id user) with
    | None => Raise (PermissionError "You are not a member of this organization")
    | Some member =>
      match required_role with
      | Some required =>
        if str_truthy required then
          let user_level := dict_get ROLE_HIERARCHY (OrganizationMember.role member) 0 in
          let required_level := dict_get ROLE_HIERARCHY required 0 in
          if (user_level <? required_level)%Z then
            Raise (PermissionError
                     ("Insufficient permissions. Required role: " ++ required))
          else Return member
        else Return member
      | None => Return member
      end
    end
  end.

Definition check_org_owner (db : DB) (user : User.t) (org_id : UUID) :=
  check_org_permission db user org_id (Some "owner").

Definition check_org_admin (db : DB) (user : User.t) (org_id : UUID) :=
  check_org_permission db user org_id (Some "admin").

Definition find_account (db : DB) (account_id : UUID) : option Account.t :=
  find (fun a => (Account.id a =? account_id)%N && is_none (Account.deleted_at a))
       (accounts db).

Definition find_account_permission (db : DB) (account_id user_id : UUID)
    : option AccountPermission.t :=
  find (fun p => (AccountPermission.account_id p =? account_id)%N
                 && (AccountPermission.user_id p =? user_id)%N)
       (account_permissions db).

(** The two candidate grants of [check_account_permission]: an explicit
    permission row, then the account's default. *)
Definition explicit_grants (account_perm : option AccountPermission.t)
    (required_permission : string) : bool :=
  match account_perm with
  | Some p =>
    let user_level := dict_get PERMISSION_HIERARCHY (AccountPermission.permission p) 0 in
    let required_level := dict_get PERMISSION_HIERARCHY required_permission 0 in
    (user_level >=? required_level)%Z
  | None => false
  end.

Definition default_grants (account : Account.t) (required_permission : string) : bool :=
  if str_truthy (Account.default_permission account) then
    let default_level := dict_get PERMISSION_HIERARCHY (Account.default_permission account) 0 in
    let required_level := dict_get PERMISSION_HIERARCHY required_permission 0 in
    (default_level >=? required_level)%Z
  else false.

Definition check_account_permission (db : DB) (user : User.t) (account_id : UUID)
    (required_permission : string) : result bool :=
  match find_account db account_id with
  | None => Raise (HTTPException 404 "Account not found")
  | Some account =>
    match Account.organization_id account with
    | None =>
      if negb (Account.user_id account =? User.id user)%N then
        Raise (PermissionError "Access denied to this account")
      else Return true
    | Some organization_id =>
      match find_member db organization_id (User.id user) with
      | None => Raise (PermissionError
                         "You are not a member of this account's organization")
      | Some member =>
        if str_in (OrganizationMember.role member) ["owner"; "admin"] then Return true
        else if explicit_grants (find_account_permission db account_id (User.id user))
                                required_permission then Return true
        else if default_grants account required_permission then Return true
        else if (OrganizationMember.role member =? "viewer")
                && (required_permission =? "view") then Return true
        else Raise (PermissionError
                      ("Insufficient account permissions. Required: "
                       ++ required_permission))
      end
    end
  end.

Definition can_manage_member (manager target : OrganizationMember.t) : result bool :=
  if OrganizationMember.role manager =? "owner" then
    if (OrganizationMember.role target =? "owner")
       && negb (OrganizationMember.user_id manager =? OrganizationMember.user_id target)%N
    then Raise (PermissionError "Cannot modify another owner")
    else Return true
  else if OrganizationMember.role manager =? "admin" then
    if str_in (OrganizationMember.role target) ["owner"; "admin"] then
      Raise (PermissionError "Admins cannot modify owners or other admins")
    else Return true
  else Raise (PermissionError "Insufficient permissions to manage members").

Definition validate_role_transition (current_role new_role actor_role : string)
    : result bool :=
  if new_role =? "owner" then
    Raise (ValueError "Use transfer ownership endpoint to make someone owner")
  else if (current_role =? "owner") && negb (actor_role =? "owner") then
    Raise (ValueError "Only owners can modify owner roles")
  else Return true.

Definition find_invitation (db : DB) (token : string) : option OrganizationInvitation.t :=
  find (fun i => OrganizationInvitation.token i =? token) (organization_invitations db).

(** [now] is the value of [datetime.now(timezone.utc)] at the call. *)
Definition verify_invitation_token (db : DB) (token : string) (now : datetime)
    : result OrganizationInvitation.t :=
  match find_invitation db token with
  | None => Raise (HTTPException 404 "Invitation not found")
  | Some invitation =>
    if is_set (OrganizationInvitation.accepted_at invitation) then
      Raise (HTTPException 400 "Invitation already accepted")
    else if is_set (OrganizationInvitation.rejected_at invitation) then
      Raise (HTTPException 400 "Invitation was rejected")
    else if (OrganizationInvitation.expires_at invitation <? now)%Z then
      Raise (HTTPException 400 "Invitation has expired")
    else Return invitation
  end.

(** [func.count(...)] over the membership rows of the organization; a count
    is never [None], so [or 0] changes nothing. *)
Definition get_org_member_count (db : DB) (org_id : UUID) : Z :=
  Z.of_nat (length (filter (fun m => (OrganizationMember.organization_id m =? org_id)%N)
                           (organization_members db))).

(** The filter [Account.organization_id == org_id, Account.deleted_at.is_(None)]. *)
Definition is_live_account_of (org_id : UUID) (a : Account.t) : bool :=
  match Account.organization_id a with
  | Some o => (o =? org_id)%N
  | None => false
  end
  && is_none (Account.deleted_at a).

Definition get_org_account_count (db : DB) (org_id : UUID) : Z :=
  Z.of_nat (length (filter (is_live_account_of org_id) (accounts db))).

(** ** The session ([app/database.py])

    A request works on a [Session]: it reads and changes its own view of the
    database and makes it durable with [commit].  A write to storage ([flush],
    [commit]) may be refused: by a fault of the storage layer (a lost
    connection, a rule of the deployed schema that the models do not
    declare), drawn from [faults] (one flag per write, [true] is a fault, no
    flag is no fault), or by a constraint the models declare on a column kept
    here: the primary key of [organizations], the unique [token] of
    [organization_invitations], and the foreign key of
    [accounts.organization_id], whose value comes from a request body as it
    is.  (The primary keys of the other tables are fresh [uuid4] values and
    are not kept; the other foreign keys are written from rows the request
    has read: the caller of [get_current_user], the organization, account or
    invitation the handler has looked up.)  A refused write raises and leaves
    the session rolled back.  Reads do not fail, one apart: the query of the
    key rotation that compares [Account.id] with a string of the request. *)

Record World := mkWorld {
  committed : DB;
  session : DB;
  faults : list bool }.

(** A handler: from the world before to its result, a value or an exception
    raised, and the world after. *)
Definition M (A : Type) : Type := World -> result A * World.

Definition ret {A} (a : A) : M A := fun w => (Return a, w).

Definition bind {A B} (m : M A) (k : A -> M B) : M B :=
  fun w =>
    match m w with
    | (Return a, w') => k a w'
    | (Raise e, w') => (Raise e, w')
    end.

Definition raise {A} (e : Exception) : M A := fun w => (Raise e, w).

(** [try: body  except Exception as e: handler(e)] *)
Definition try_except {A} (body : M A) (handler : Exception -> M A) : M A :=
  fun w =>
    match body w with
    | (Return a, w') => (Return a, w')
    | (Raise e, w') => handler e w'
    end.

Notation "x <- m ;; k" := (bind m (fun x => k))
  (at level 61, m at next level, right associativity).
Notation "m ;; k" := (bind m (fun _ => k))
  (at level 61, right associativity).

(** A read-only function of the database, run on the session's view. *)
Definition call {A} (f : DB -> result A) : M A := fun w => (f (session w), w).

Definition query {A} (f : DB -> A) : M A := fun w => (Return (f (session w)), w).

(** A change of the session's view (an attribute assignment on a loaded row,
    [db.add], [db.delete]); nothing is durable before [commit]. *)
Definition modify (f : DB -> DB) : M unit :=
  fun w => (Return tt, mkWorld (committed w) (f (session w)) (faults w)).

(** No value occurs twice in [l]. *)
Fixpoint nodupb {A} (eqb : A -> A -> bool) (l : list A) : bool :=
  match l with
  | [] => true
  | x :: l' => negb (existsb (eqb x) l') && nodupb eqb l'
  end.

(** [ForeignKey("organizations.id")] on [Account.organization_id]: an account
    of an organization references an organization row (deleted or not). *)
Definition references_organization (organization_ids : list UUID) (a : Account.t) : bool :=
  match Account.organization_id a with
  | Some o => existsb (N.eqb o) organization_ids
  | None => true
  end.

(** The declared constraints on the columns kept: [Organization.id] is a
    primary key, [OrganizationInvitation.token] is [unique=True],
    [Account.organization_id] is a foreign key. *)
Definition constraints_ok (db : DB) : bool :=
  nodupb N.eqb (map Organization.id (organizations db))
  && nodupb String.eqb (map OrganizationInvitation.token (organization_invitations db))
  && forallb (references_organization (map Organization.id (organizations db)))
             (accounts db).

(** One write: the pending changes are sent to storage, which takes them or
    refuses them; [commit] makes them durable as well, [flush] does not. *)
Definition storage_write (durable : bool) : M unit :=
  fun w =>
    match faults w with
    | true :: fs => (Raise StorageError, mkWorld (committed w) (committed w) fs)
    | _ =>
      if constraints_ok (session w) then
        (Return tt,
         mkWorld (if durable then session w else committed w) (session w) (tl (faults w)))
      else (Raise StorageError, mkWorld (committed w) (committed w) (tl (faults w)))
    end.

Definition db_flush : M unit := storage_write false.
Definition db_commit : M unit := storage_write true.

Definition db_rollback : M unit :=
  fun w => (Return tt, mkWorld (committed w) (committed w) (faults w)).

(** One request: [get_db] opens a session on the committed database and closes
    it when the handler is done, whatever it left uncommitted. *)
Definition run {A} (handler : M A) (db : DB) (fs : list bool) : result A * DB :=
  let (r, w) := handler (mkWorld db db fs) in (r, committed w).

(** Changes of one table of the session. *)
Definition with_organizations (f : list Organization.t -> list Organization.t) (db : DB) : DB :=
  mkDB (users db) (f (organizations db)) (organization_members db) (accounts db)
       (account_permissions db) (organization_invitations db) (audit_logs db).

Definition with_members (f : list OrganizationMember.t -> list OrganizationMember.t)
    (db : DB) : DB :=
  mkDB (users db) (organizations db) (f (organization_members db)) (accounts db)
       (account_permissions db) (organization_invitations db) (audit_logs db).

Definition with_accounts (f : list Account.t -> list Account.t) (db : DB) : DB :=
  mkDB (users db) (organizations db) (organization_members db) (f (accounts db))
       (account_permissions db) (organization_invitations db) (audit_logs db).

Definition with_invitations
    (f : list OrganizationInvitation.t -> list OrganizationInvitation.t) (db : DB) : DB :=
  mkDB (users db) (organizations db) (organization_members db) (accounts db)
       (account_permissions db) (f (organization_invitations db)) (audit_logs db).

Definition with_audit_logs (f : list AuditLog.t -> list AuditLog.t) (db : DB) : DB :=
  mkDB (users db) (organizations db) (organization_members db) (accounts db)
       (account_permissions db) (organization_invitations db) (f (audit_logs db)).

Definition with_account_permissions
    (f : list AccountPermission.t -> list AccountPermission.t) (db : DB) : DB :=
  mkDB (users db) (organizations db) (organization_members db) (accounts db)
       (f (account_permissions db)) (organization_invitations db) (audit_logs db).

(** [order_by(created_at.desc())]: [created_at] is the instant the row was
    inserted and a table is kept in insertion order, so newest first is the
    table read backwards. *)
Definition order_by_created_at_desc {A} (rows : list A) : list A := rev rows.

(** [limit(n)] and [offset(n)] of a query. *)
Definition limit {A} (n : Z) (rows : list A) : list A := firstn (Z.to_nat n) rows.
Definition offset {A} (n : Z) (rows : list A) : list A := skipn (Z.to_nat n) rows.

(** [db.add(row)]: the row is appended to its table. *)
Definition add {A} (row : A) (l : list A) : list A := l ++ [row].

(** An assignment to attributes of the object a [first()] returned: the first
    row that passes the filter is the one that changes. *)
Fixpoint update_first {A} (p : A -> bool) (f : A -> A) (l : list A) : list A :=
  match l with
  | [] => []
  | x :: l' => if p x then f x :: l' else x :: update_first p f l'
  end.

(** [db.delete(obj)] for the object a [first()] returned. *)
Fixpoint remove_first {A} (p : A -> bool) (l : list A) : list A :=
  match l with
  | [] => []
  | x :: l' => if p x then l' else x :: remove_first p l'
  end.

Definition find_user (db : DB) (user_id : UUID) : option User.t :=
  find (fun u => (User.id u =? user_id)%N) (users db).

(** [db.query(Organization).filter(Organization.id == org_id).first()], deleted
    or not. *)
Definition get_organization (db : DB) (org_id : UUID) : option Organization.t :=
  find (fun o => (Organization.id o =? org_id)%N) (organizations db).

(** [obj.attr] on the result of a [first()]: [None] has no attributes. *)
Definition attr {A B} (o : option A) (f : A -> B) : M B :=
  match o with
  | Some a => ret (f a)
  | None => raise AttributeError
  end.

(** The request's address and user agent are not kept; [db.refresh] re-reads
    the row it is given and changes nothing. *)
Definition log_audit (user_id organization_id : UUID) (action : string)
    (resource_type : option string) (details : list (string * json)) : M AuditLog.t :=
  let audit := AuditLog.mk organization_id user_id action resource_type details in
  modify (with_audit_logs (add audit)) ;;
  db_commit ;;
  ret audit.

(** ** [app/schemas.py] *)

Inductive RoleEnum := OWNER | ADMIN | MEMBER | VIEWER.

Definition RoleEnum_value (r : RoleEnum) : string :=
  match r with
  | OWNER => "owner"
  | ADMIN => "admin"
  | MEMBER => "member"
  | VIEWER => "viewer"
  end.

(** [RoleEnum(s)]: the member with that value, [ValueError] when there is none. *)
Definition RoleEnum_of (s : string) : result RoleEnum :=
  if s =? "owner" then Return OWNER
  else if s =? "admin" then Return ADMIN
  else if s =? "member" then Return MEMBER
  else if s =? "viewer" then Return VIEWER
  else Raise (ValueError "not a valid RoleEnum").

(** A [field_validator] that raises [ValueError] makes the request fail
    validation before the handler runs. *)
Definition field_validator {A} (r : result A) : result A :=
  match r with
  | Raise (ValueError msg) => Raise (ValidationError msg)
  | _ => r
  end.

Module OrganizationCreate.
Record t := mk { name : string; wrapped_org_key : string }.
End OrganizationCreate.

(** A request body whose fields have their declared types and lengths; the
    validator of the class is applied by [validate]. *)
Module InvitationCreate.
Record t := mk { email : string; role : RoleEnum; wrapped_org_key : string }.

Definition role_not_owner (v : RoleEnum) : result RoleEnum :=
  match v with
  | OWNER => Raise (ValueError "Cannot invite as owner. Use transfer ownership instead.")
  | _ => Return v
  end.

Definition validate (data : t) : result t :=
  match field_validator (role_not_owner (role data)) with
  | Return v => Return (mk (email data) v (wrapped_org_key data))
  | Raise e => Raise e
  end.
End InvitationCreate.

Module InvitationAccept.
Record t := mk { wrapped_org_key : string }.
End InvitationAccept.

Module MemberRoleUpdate.
Record t := mk { role : RoleEnum }.

Definition role_not_owner (v : RoleEnum) : result RoleEnum :=
  match v with
  | OWNER => Raise (ValueError "Use transfer ownership endpoint to make someone owner.")
  | _ => Return v
  end.

Definition validate (data : t) : result t :=
  match field_validator (role_not_owner (role data)) with
  | Return v => Return (mk v)
  | Raise e => Raise e
  end.
End MemberRoleUpdate.

Module TransferOwnership.
Record t := mk { new_owner_id : UUID }.
End TransferOwnership.

Module MemberKeyRotation.
Record t := mk { user_id : UUID; wrapped_org_key : string }.
End MemberKeyRotation.

(** A key of the [account_deks] dict.  The schema declares a plain [dict],
    so validation leaves the keys as the strings the JSON body has; the
    handler compares a key with the UUID column [Account.id], and for that it
    is the text of a UUID or it is some other string. *)
Inductive account_key :=
| uuid_str (account_id : UUID)
| other_str (s : string).

Module KeyRotationRequest.
(** [account_deks] is a dict, kept as its items in iteration order.  Its
    values go to the text column [encrypted_dek] as they are, and are kept as
    the strings stored there. *)
Record t := mk {
  member_keys : list MemberKeyRotation.t;
  account_deks : list (account_key * string) }.
End KeyRotationRequest.

Module KeyRotationResponse.
Record t := mk {
  status : string;
  accounts_updated : Z;
  members_updated : Z;
  timestamp : datetime }.
End KeyRotationResponse.

Module OrganizationResponse.
Record t := mk {
  id : UUID;
  role : RoleEnum;
  member_count : Z;
  account_count : Z;
  wrapped_org_key : string }.
End OrganizationResponse.

Module OrganizationMemberResponse.
Record t := mk { user_id : UUID; email : string; role : RoleEnum }.
End OrganizationMemberResponse.

Module InvitationResponse.
Record t := mk {
  organization_id : UUID;
  organization_name : string;
  email : string;
  role : RoleEnum;
  invited_by_email : string;
  token : string;
  wrapped_org_key : string;
  expires_at : datetime;
  accepted_at : option datetime;
  rejected_at : option datetime }.
End InvitationResponse.

(** [description] and [settings] go to columns that are not kept, and are
    left out with them. *)
Module OrganizationUpdate.
Record t := mk { name : option string }.
End OrganizationUpdate.

Module AuditLogResponse.
Record t := mk {
  user_email : option string;
  action : string;
  resource_type : option string;
  details : list (string * json) }.
End AuditLogResponse.

Module AuditLogList.
Record t := mk {
  logs : list AuditLogResponse.t;
  total : Z;
  page : Z;
  page_size : Z }.
End AuditLogList.

(** [encrypted_data], [currency] and [encryption_version] go to columns that
    are not kept. *)
Module AccountCreate.
Record t := mk { encrypted_dek : string; organization_id : option UUID }.
End AccountCreate.

(** [encrypted_data] and [migrated] likewise. *)
Module AccountUpdate.
Record t := mk { organization_id : option UUID; wrapped_dek : option string }.
End AccountUpdate.

(** ** [app/routers/organizations.py]

    [new_id] is the [uuid.uuid4()] the new row gets as its primary key; [now]
    is the clock of the request. *)

Definition create_organization (org_data : OrganizationCreate.t) (new_id : UUID)
    (current_user : User.t) : M OrganizationResponse.t :=
  let new_org := Organization.mk new_id (OrganizationCreate.name org_data) None in
  modify (with_organizations (add new_org)) ;;
  db_flush ;;
  let creator_member :=
    OrganizationMember.mk (Organization.id new_org) (User.id current_user) "owner"
                          (OrganizationCreate.wrapped_org_key org_data) in
  modify (with_members (add creator_member)) ;;
  db_commit ;;
  log_audit (User.id current_user) (Organization.id new_org) "org_created"
            (Some "organization") [("name", JStr (Organization.name new_org))] ;;
  ret (OrganizationResponse.mk (Organization.id new_org) OWNER 1 0
                               (OrganizationCreate.wrapped_org_key org_data)).

Definition update_member_role (org_id user_id : UUID) (role_data : MemberRoleUpdate.t)
    (current_user : User.t) : M OrganizationMemberResponse.t :=
  manager <- call (fun db => check_org_admin db current_user org_id) ;;
  target <- query (fun db => find_member db org_id user_id) ;;
  match target with
  | None => raise (HTTPException 404 "Member not found")
  | Some target =>
    call (fun _ => can_manage_member manager target) ;;
    call (fun _ => validate_role_transition (OrganizationMember.role target)
                     (RoleEnum_value (MemberRoleUpdate.role role_data))
                     (OrganizationMember.role manager)) ;;
    let old_role := OrganizationMember.role target in
    modify (with_members
              (update_first (is_member_row org_id user_id)
                 (OrganizationMember.set_role
                    (RoleEnum_value (MemberRoleUpdate.role role_data))))) ;;
    db_commit ;;
    user <- query (fun db => find_user db user_id) ;;
    user_email <- attr user User.email ;;
    log_audit (User.id current_user) org_id "member_role_changed"
              (Some "organization_member")
              [("target_user", JStr user_email); ("old_role", JStr old_role);
               ("new_role", JStr (RoleEnum_value (MemberRoleUpdate.role role_data)))] ;;
    user_id' <- attr user User.id ;;
    role <- call (fun _ => RoleEnum_of (RoleEnum_value (MemberRoleUpdate.role role_data))) ;;
    ret (OrganizationMemberResponse.mk user_id' user_email role)
  end.

Definition remove_member (org_id user_id : UUID) (current_user : User.t) : M unit :=
  manager <- call (fun db => check_org_admin db current_user org_id) ;;
  target <- query (fun db => find_member db org_id user_id) ;;
  match target with
  | None => raise (HTTPException 404 "Member not found")
  | Some target =>
    if OrganizationMember.role target =? "owner" then
      raise (HTTPException 400 "Cannot remove owner. Transfer ownership first.")
    else
      call (fun _ => can_manage_member manager target) ;;
      user <- query (fun db => find_user db user_id) ;;
      modify (with_members (remove_first (is_member_row org_id user_id))) ;;
      db_commit ;;
      user_email <- attr user User.email ;;
      log_audit (User.id current_user) org_id "member_removed"
                (Some "organization_member")
                [("removed_user", JStr user_email);
                 ("removed_role", JStr (OrganizationMember.role target))] ;;
      ret tt
  end.

Definition transfer_ownership (org_id : UUID) (transfer_data : TransferOwnership.t)
    (current_user : User.t) : M OrganizationMemberResponse.t :=
  current_owner <- call (fun db => check_org_owner db current_user org_id) ;;
  new_owner <- query (fun db =>
                 find_member db org_id (TransferOwnership.new_owner_id transfer_data)) ;;
  match new_owner with
  | None => raise (HTTPException 404 "New owner must be an existing member")
  | Some new_owner =>
    if (OrganizationMember.user_id new_owner =? User.id current_user)%N then
      raise (HTTPException 400 "You are already the owner")
    else
      modify (with_members
                (update_first (is_member_row org_id (User.id current_user))
                   (OrganizationMember.set_role "admin"))) ;;
      modify (with_members
                (update_first
                   (is_member_row org_id (TransferOwnership.new_owner_id transfer_data))
                   (OrganizationMember.set_role "owner"))) ;;
      db_commit ;;
      new_owner_user <- query (fun db =>
                          find_user db (TransferOwnership.new_owner_id transfer_data)) ;;
      new_owner_email <- attr new_owner_user User.email ;;
      log_audit (User.id current_user) org_id "ownership_transferred"
                (Some "organization")
                [("previous_owner", JStr (User.email current_user));
                 ("new_owner", JStr new_owner_email)] ;;
      new_owner_user_id <- attr new_owner_user User.id ;;
      ret (OrganizationMemberResponse.mk new_owner_user_id new_owner_email OWNER)
  end.

(** The two loops of [rotate_organization_keys]; the counter is threaded. *)
Fixpoint rotate_member_keys (org_id : UUID) (member_keys : list MemberKeyRotation.t)
    (members_updated : Z) : M Z :=
  match member_keys with
  | [] => ret members_updated
  | member_key_data :: rest =>
    member <- query (fun db =>
                find_member db org_id (MemberKeyRotation.user_id member_key_data)) ;;
    match member with
    | Some _ =>
      modify (with_members
                (update_first
                   (is_member_row org_id (MemberKeyRotation.user_id member_key_data))
                   (OrganizationMember.set_wrapped_org_key
                      (MemberKeyRotation.wrapped_org_key member_key_data)))) ;;
      rotate_member_keys org_id rest (members_updated + 1)
    | None => rotate_member_keys org_id rest members_updated
    end
  end.

Definition is_org_account_row (org_id account_id : UUID) (a : Account.t) : bool :=
  (Account.id a =? account_id)%N
  && match Account.organization_id a with
     | Some o => (o =? org_id)%N
     | None => false
     end
  && is_none (Account.deleted_at a).

(** The second loop of the rotation.  Its query filters on
    [Account.id == account_id_str]: a key that is not the text of a UUID
    cannot be compared with the UUID column, and the query raises. *)
Fixpoint rotate_account_deks (org_id : UUID) (account_deks : list (account_key * string))
    (accounts_updated : Z) : M Z :=
  match account_deks with
  | [] => ret accounts_updated
  | (account_id_str, new_wrapped_dek) :: rest =>
    match account_id_str with
    | other_str _ => raise StorageError
    | uuid_str account_id =>
      account <- query (fun db =>
                   find (is_org_account_row org_id account_id) (accounts db)) ;;
      match account with
      | Some _ =>
        modify (with_accounts
                  (update_first (is_org_account_row org_id account_id)
                     (Account.set_encrypted_dek new_wrapped_dek))) ;;
        rotate_account_deks org_id rest (accounts_updated + 1)
      | None => rotate_account_deks org_id rest accounts_updated
      end
    end
  end.

(** [str(e)] in the detail of the 500; the text of a storage error is the
    driver's and is not kept. *)
Definition exception_str (e : Exception) : string :=
  match e with
  | HTTPException _ detail => detail
  | ValidationError msg => msg
  | ValueError msg => msg
  | AttributeError => "'NoneType' object has no attribute"
  | StorageError => "storage error"
  end.

Definition rotate_organization_keys (org_id : UUID) (rotation_data : KeyRotationRequest.t)
    (now : datetime) (current_user : User.t) : M KeyRotationResponse.t :=
  call (fun db => check_org_owner db current_user org_id) ;;
  org <- query (fun db => find_organization db org_id) ;;
  match org with
  | None => raise (HTTPException 404 "Organization not found")
  | Some _ =>
    try_except
      (members_updated <-
         rotate_member_keys org_id (KeyRotationRequest.member_keys rotation_data) 0 ;;
       accounts_updated <-
         rotate_account_deks org_id (KeyRotationRequest.account_deks rotation_data) 0 ;;
       db_commit ;;
       log_audit (User.id current_user) org_id "keys_rotated" (Some "organization")
                 [("accounts_updated", JInt accounts_updated);
                  ("members_updated", JInt members_updated)] ;;
       ret (KeyRotationResponse.mk "success" accounts_updated members_updated now))
      (fun e =>
         db_rollback ;;
         raise (HTTPException 500 ("Key rotation failed: " ++ exception_str e)))
  end.

(** The filter [Organization.id == org_id, Organization.deleted_at.is_(None)]. *)
Definition is_live_organization (org_id : UUID) (o : Organization.t) : bool :=
  (Organization.id o =? org_id)%N && is_none (Organization.deleted_at o).

Definition set_organization_name (n : string) (o : Organization.t) : Organization.t :=
  Organization.mk (Organization.id o) n (Organization.deleted_at o).

Definition set_organization_deleted_at (d : datetime) (o : Organization.t)
    : Organization.t :=
  Organization.mk (Organization.id o) (Organization.name o) (Some d).

(** [account.deleted_at = ...]; [deleted_by], set with it, is not kept. *)
Definition set_account_deleted_at (d : datetime) (a : Account.t) : Account.t :=
  Account.mk (Account.id a) (Account.user_id a) (Account.organization_id a)
             (Account.default_permission a) (Account.encrypted_dek a) (Some d).

(** [changes] is the dict of the audit entry; it is empty, hence falsy, when
    no name is given.  Before the commit the handler also assigns
    [org.description] and [org.settings], if given, and [org.updated_at] in
    every case: columns that are not kept here, so the rows of the model do
    not show these writes, and nothing is stated about them. *)
Definition update_organization (org_id : UUID) (org_data : OrganizationUpdate.t)
    (current_user : User.t) : M OrganizationResponse.t :=
  member <- call (fun db => check_org_admin db current_user org_id) ;;
  org <- query (fun db => find_organization db org_id) ;;
  match org with
  | None => raise (HTTPException 404 "Organization not found")
  | Some org =>
    let changes :=
      match OrganizationUpdate.name org_data with
      | Some name => [("name_old", JStr (Organization.name org)); ("name_new", JStr name)]
      | None => []
      end in
    match OrganizationUpdate.name org_data with
    | Some name =>
      modify (with_organizations
                (update_first (is_live_organization org_id) (set_organization_name name)))
    | None => ret tt
    end ;;
    db_commit ;;
    match changes with
    | [] => ret tt
    | _ =>
      log_audit (User.id current_user) (Organization.id org) "org_updated"
                (Some "organization") changes ;;
      ret tt
    end ;;
    member_count <- query (fun db => get_org_member_count db org_id) ;;
    account_count <- query (fun db => get_org_account_count db org_id) ;;
    role <- call (fun _ => RoleEnum_of (OrganizationMember.role member)) ;;
    ret (OrganizationResponse.mk (Organization.id org) role member_count account_count
                                 (OrganizationMember.wrapped_org_key member))
  end.

(** The soft delete: [log_audit] is called before the handler's own
    [db.commit()], so its commit is the one that makes the deletion durable. *)
Definition delete_organization (org_id : UUID) (now : datetime) (current_user : User.t)
    : M unit :=
  call (fun db => check_org_owner db current_user org_id) ;;
  org <- query (fun db => find_organization db org_id) ;;
  match org with
  | None => raise (HTTPException 404 "Organization not found")
  | Some org =>
    modify (with_organizations
              (update_first (is_live_organization org_id)
                 (set_organization_deleted_at now))) ;;
    org_accounts <- query (fun db => filter (is_live_account_of org_id) (accounts db)) ;;
    modify (with_accounts
              (map (fun account =>
                      if is_live_account_of org_id account
                      then set_account_deleted_at now account
                      else account))) ;;
    log_audit (User.id current_user) (Organization.id org) "org_deleted"
              (Some "organization")
              [("name", JStr (Organization.name org));
               ("accounts_deleted", JInt (Z.of_nat (length org_accounts)))] ;;
    db_commit ;;
    ret tt
  end.

(** [outerjoin(User, User.id == AuditLog.user_id)]: an entry with each user
    row of that id, or with [None] when there is none. *)
Definition outerjoin_user (db : DB) (log : AuditLog.t) : list (AuditLog.t * option User.t) :=
  match filter (fun u => (User.id u =? AuditLog.user_id log)%N) (users db) with
  | [] => [(log, None)]
  | matching => map (fun u => (log, Some u)) matching
  end.

Definition audit_log_response (row : AuditLog.t * option User.t) : AuditLogResponse.t :=
  AuditLogResponse.mk
    (match snd row with
     | Some user => Some (User.email user)
     | None => None
     end)
    (AuditLog.action (fst row))
    (AuditLog.resource_type (fst row))
    (AuditLog.details (fst row)).

Definition get_audit_logs (org_id : UUID) (page page_size : Z) (current_user : User.t)
    : M AuditLogList.t :=
  call (fun db => check_org_admin db current_user org_id) ;;
  let page := if (page <? 1)%Z then 1 else page in
  let page_size :=
    if (page_size <? 1)%Z || (page_size >? 100)%Z then 50 else page_size in
  total <- query (fun db =>
             Z.of_nat (length (filter (fun l => (AuditLog.organization_id l =? org_id)%N)
                                      (audit_logs db)))) ;;
  logs <- query (fun db =>
            limit page_size
              (offset ((page - 1) * page_size)
                 (flat_map (outerjoin_user db)
                    (order_by_created_at_desc
                       (filter (fun l => (AuditLog.organization_id l =? org_id)%N)
                               (audit_logs db)))))) ;;
  ret (AuditLogList.mk (map audit_log_response logs) total page page_size).

(** ** [app/routers/invitations.py]

    [entropy] is the 32 bytes [secrets.token_urlsafe(32)] drew.  The
    notification mail ([send_invitation_email]) reads no table, returns a flag
    that is dropped and catches its own errors; it is left out. *)

(** The membership of the user whose email is [email]: the filter compares
    [user_id] with the scalar subquery on [users]. *)
Definition find_member_by_email (db : DB) (org_id : UUID) (email : string)
    : option OrganizationMember.t :=
  match find (fun u => User.email u =? email) (users db) with
  | Some u => find_member db org_id (User.id u)
  | None => None
  end.

Definition is_active_invitation (org_id : UUID) (email : string) (now : datetime)
    (i : OrganizationInvitation.t) : bool :=
  (OrganizationInvitation.organization_id i =? org_id)%N
  && (OrganizationInvitation.email i =? email)
  && is_none (OrganizationInvitation.accepted_at i)
  && is_none (OrganizationInvitation.rejected_at i)
  && (OrganizationInvitation.expires_at i >? now)%Z.

Definition invitation_response (invitation : OrganizationInvitation.t)
    (organization_name invited_by_email : string) (role : RoleEnum) : InvitationResponse.t :=
  InvitationResponse.mk
    (OrganizationInvitation.organization_id invitation)
    organization_name
    (OrganizationInvitation.email invitation)
    role
    invited_by_email
    (OrganizationInvitation.token invitation)
    (OrganizationInvitation.wrapped_org_key invitation)
    (OrganizationInvitation.expires_at invitation)
    (OrganizationInvitation.accepted_at invitation)
    (OrganizationInvitation.rejected_at invitation).

Definition create_invitation (org_id : UUID) (invitation_data : InvitationCreate.t)
    (entropy : list byte) (now : datetime) (current_user : User.t)
    : M InvitationResponse.t :=
  member <- call (fun db => check_org_admin db current_user org_id) ;;
  org <- query (fun db => find_organization db org_id) ;;
  match org with
  | None => raise (HTTPException 404 "Organization not found")
  | Some org =>
    existing_member <- query (fun db =>
      find_member_by_email db org_id (InvitationCreate.email invitation_data)) ;;
    if is_set existing_member then
      raise (HTTPException 400 "User is already a member of this organization")
    else
      existing_invitation <- query (fun db =>
        find (is_active_invitation org_id (InvitationCreate.email invitation_data) now)
             (organization_invitations db)) ;;
      if is_set existing_invitation then
        raise (HTTPException 400 "Active invitation already exists for this email")
      else
        let token := token_urlsafe entropy in
        let expires_at := now + timedelta_days 7 in
        let new_invitation :=
          OrganizationInvitation.mk org_id
            (InvitationCreate.email invitation_data)
            (RoleEnum_value (InvitationCreate.role invitation_data))
            (InvitationCreate.wrapped_org_key invitation_data)
            (User.id current_user) token expires_at None None in
        modify (with_invitations (add new_invitation)) ;;
        db_commit ;;
        log_audit (User.id current_user) org_id "member_invited"
                  (Some "organization_invitation")
                  [("invitee_email", JStr (InvitationCreate.email invitation_data));
                   ("role", JStr (RoleEnum_value (InvitationCreate.role invitation_data)))] ;;
        role <- call (fun _ => RoleEnum_of (OrganizationInvitation.role new_invitation)) ;;
        ret (invitation_response new_invitation (Organization.name org)
                                 (User.email current_user) role)
  end.

(** The request as the framework serves it: the body is validated, then the
    handler runs. *)
Definition post_invitation (org_id : UUID) (body : InvitationCreate.t)
    (entropy : list byte) (now : datetime) (current_user : User.t)
    : M InvitationResponse.t :=
  invitation_data <- call (fun _ => InvitationCreate.validate body) ;;
  create_invitation org_id invitation_data entropy now current_user.

Definition is_token_row (token : string) (i : OrganizationInvitation.t) : bool :=
  OrganizationInvitation.token i =? token.

Definition accept_invitation (token : string) (accept_data : InvitationAccept.t)
    (now : datetime) (current_user : User.t) : M InvitationResponse.t :=
  invitation <- call (fun db => verify_invitation_token db token now) ;;
  if negb (OrganizationInvitation.email invitation =? User.email current_user) then
    raise (HTTPException 403 "This invitation is for a different email address")
  else
    existing_member <- query (fun db =>
      find_member db (OrganizationInvitation.organization_id invitation)
                  (User.id current_user)) ;;
    if is_set existing_member then
      raise (HTTPException 400 "You are already a member of this organization")
    else
      let new_member :=
        OrganizationMember.mk (OrganizationInvitation.organization_id invitation)
          (User.id current_user) (OrganizationInvitation.role invitation)
          (InvitationAccept.wrapped_org_key accept_data) in
      modify (with_members (add new_member)) ;;
      modify (with_invitations
                (update_first (is_token_row token)
                   (OrganizationInvitation.set_accepted_at now))) ;;
      db_commit ;;
      let invitation := OrganizationInvitation.set_accepted_at now invitation in
      org <- query (fun db =>
               get_organization db (OrganizationInvitation.organization_id invitation)) ;;
      inviter <- query (fun db =>
                   find_user db (OrganizationInvitation.invited_by invitation)) ;;
      log_audit (User.id current_user) (OrganizationInvitation.organization_id invitation)
                "member_joined" (Some "organization_member")
                [("email", JStr (User.email current_user));
                 ("role", JStr (OrganizationInvitation.role invitation))] ;;
      organization_name <- attr org Organization.name ;;
      role <- call (fun _ => RoleEnum_of (OrganizationInvitation.role invitation)) ;;
      invited_by_email <- attr inviter User.email ;;
      ret (invitation_response invitation organization_name invited_by_email role).

Definition reject_invitation (token : string) (now : datetime) (current_user : User.t)
    : M InvitationResponse.t :=
  invitation <- call (fun db => verify_invitation_token db token now) ;;
  if negb (OrganizationInvitation.email invitation =? User.email current_user) then
    raise (HTTPException 403 "This invitation is for a different email address")
  else
    modify (with_invitations
              (update_first (is_token_row token)
                 (OrganizationInvitation.set_rejected_at now))) ;;
    db_commit ;;
    let invitation := OrganizationInvitation.set_rejected_at now invitation in
    org <- query (fun db =>
             get_organization db (OrganizationInvitation.organization_id invitation)) ;;
    inviter <- query (fun db =>
                 find_user db (OrganizationInvitation.invited_by invitation)) ;;
    log_audit (User.id current_user) (OrganizationInvitation.organization_id invitation)
              "invitation_rejected" (Some "organization_invitation")
              [("email", JStr (User.email current_user));
               ("role", JStr (OrganizationInvitation.role invitation))] ;;
    organization_name <- attr org Organization.name ;;
    role <- call (fun _ => RoleEnum_of (OrganizationInvitation.role invitation)) ;;
    invited_by_email <- attr inviter User.email ;;
    ret (invitation_response invitation organization_name invited_by_email role).

(** The filter of [list_my_invitations]: addressed to [email], neither
    accepted nor rejected, [expires_at > now]. *)
Definition is_pending_for (email : string) (now : datetime)
    (i : OrganizationInvitation.t) : bool :=
  (OrganizationInvitation.email i =? email)
  && is_none (OrganizationInvitation.accepted_at i)
  && is_none (OrganizationInvitation.rejected_at i)
  && (OrganizationInvitation.expires_at i >? now)%Z.

(** The two inner joins of [list_my_invitations]: an invitation with each
    organization row of its [organization_id] and each user row of its
    [invited_by]. *)
Definition join_organization_inviter (db : DB) (i : OrganizationInvitation.t)
    : list (OrganizationInvitation.t * Organization.t * User.t) :=
  flat_map
    (fun o =>
       map (fun u => (i, o, u))
           (filter (fun u => (User.id u =? OrganizationInvitation.invited_by i)%N)
                   (users db)))
    (filter (fun o => (Organization.id o =? OrganizationInvitation.organization_id i)%N)
            (organizations db)).

(** The loop that builds the responses; [RoleEnum(invitation.role)] may raise. *)
Fixpoint my_invitation_responses
    (rows : list (OrganizationInvitation.t * Organization.t * User.t))
    : result (list InvitationResponse.t) :=
  match rows with
  | [] => Return []
  | (invitation, org, inviter) :: rest =>
    match RoleEnum_of (OrganizationInvitation.role invitation) with
    | Raise e => Raise e
    | Return role =>
      match my_invitation_responses rest with
      | Raise e => Raise e
      | Return result =>
        Return
          (InvitationResponse.mk (Organization.id org) (Organization.name org)
             (OrganizationInvitation.email invitation) role (User.email inviter)
             (OrganizationInvitation.token invitation)
             (OrganizationInvitation.wrapped_org_key invitation)
             (OrganizationInvitation.expires_at invitation)
             (OrganizationInvitation.accepted_at invitation)
             (OrganizationInvitation.rejected_at invitation)
           :: result)
      end
    end
  end.

Definition list_my_invitations (now : datetime) (current_user : User.t)
    : M (list InvitationResponse.t) :=
  invitations <- query (fun db =>
    flat_map (join_organization_inviter db)
      (order_by_created_at_desc
         (filter (is_pending_for (User.email current_user) now)
                 (organization_invitations db)))) ;;
  call (fun _ => my_invitation_responses invitations).

Definition get_invitation_by_token (token : string) (now : datetime)
    (current_user : User.t) : M InvitationResponse.t :=
  invitation <- call (fun db => verify_invitation_token db token now) ;;
  if negb (OrganizationInvitation.email invitation =? User.email current_user) then
    raise (HTTPException 403 "This invitation is for a different email address")
  else
    org <- query (fun db =>
             get_organization db (OrganizationInvitation.organization_id invitation)) ;;
    inviter <- query (fun db =>
                 find_user db (OrganizationInvitation.invited_by invitation)) ;;
    organization_name <- attr org Organization.name ;;
    role <- call (fun _ => RoleEnum_of (OrganizationInvitation.role invitation)) ;;
    invited_by_email <- attr inviter User.email ;;
    ret (invitation_response invitation organization_name invited_by_email role).

(** ** [app/routers/accounts.py]

    [new_id] is the [uuid.uuid4()] of the new account row.  The transactions
    of an account are in a table that is not kept. *)

Definition create_account (account_data : AccountCreate.t) (new_id : UUID)
    (current_user : User.t) : M Account.t :=
  let new_account :=
    Account.mk new_id (User.id current_user) (AccountCreate.organization_id account_data)
               "view" (Some (AccountCreate.encrypted_dek account_data)) None in
  modify (with_accounts (add new_account)) ;;
  db_commit ;;
  ret new_account.

Definition get_account (account_id : UUID) (current_user : User.t) : M Account.t :=
  account <- query (fun db => find_account db account_id) ;;
  match account with
  | None => raise (HTTPException 404 "Account not found")
  | Some account =>
    match Account.organization_id account with
    | Some organization_id =>
      membership <- query (fun db => find_member db organization_id (User.id current_user)) ;;
      if is_none membership then
        raise (HTTPException 403
                 "Access denied: You are not a member of this organization")
      else ret account
    | None =>
      if negb (Account.user_id account =? User.id current_user)%N then
        raise (HTTPException 403 "Access denied: This is not your account")
      else ret account
    end
  end.

(** The filter of [update_account]: the id, [user_id == current_user.id], not
    deleted. *)
Definition is_own_account_row (account_id user_id : UUID) (a : Account.t) : bool :=
  (Account.id a =? account_id)%N
  && (Account.user_id a =? user_id)%N
  && is_none (Account.deleted_at a).

Definition set_account_organization_id (o : UUID) (a : Account.t) : Account.t :=
  Account.mk (Account.id a) (Account.user_id a) (Some o) (Account.default_permission a)
             (Account.encrypted_dek a) (Account.deleted_at a).

(** The assignments of [update_account] to the row it loaded; what is absent
    from the body ([None]) is left as it is. *)
Definition apply_account_update (account_data : AccountUpdate.t) (account : Account.t)
    : Account.t :=
  let account :=
    match AccountUpdate.organization_id account_data with
    | Some organization_id => set_account_organization_id organization_id account
    | None => account
    end in
  match AccountUpdate.wrapped_dek account_data with
  | Some wrapped_dek => Account.set_encrypted_dek wrapped_dek account
  | None => account
  end.

Definition update_account (account_id : UUID) (account_data : AccountUpdate.t)
    (current_user : User.t) : M Account.t :=
  account <- query (fun db =>
               find (is_own_account_row account_id (User.id current_user)) (accounts db)) ;;
  match account with
  | None => raise (HTTPException 404 "Account not found")
  | Some account =>
    modify (with_accounts
              (update_first (is_own_account_row account_id (User.id current_user))
                 (apply_account_update account_data))) ;;
    db_commit ;;
    ret (apply_account_update account_data account)
  end.

(** [OrganizationMember.left_at]: the model declares no such column, so
    reading the attribute off the class raises before the query is built. *)
Definition OrganizationMember_left_at : M unit := raise AttributeError.

(** The filter [Account.id == account_id, Account.deleted_at.is_(None)]. *)
Definition is_live_account (account_id : UUID) (a : Account.t) : bool :=
  (Account.id a =? account_id)%N && is_none (Account.deleted_at a).

(** The hard delete; the relationship [Account.permissions] cascades, so the
    permission rows of the account go with it.  The details of the audit
    entry hold the account's currency, a column that is not kept. *)
Definition delete_account (account_id : UUID) (current_user : User.t) : M unit :=
  account <- query (fun db => find_account db account_id) ;;
  match account with
  | None => raise (HTTPException 404 "Account not found")
  | Some account =>
    match Account.organization_id account with
    | Some organization_id =>
      OrganizationMember_left_at ;;
      membership <- query (fun db => find_member db organization_id (User.id current_user)) ;;
      match membership with
      | None => raise (HTTPException 403 "You are not a member of this organization")
      | Some membership =>
        if negb (str_in (OrganizationMember.role membership) ["owner"; "admin"]) then
          raise (HTTPException 403
                   "Only organization owners and admins can delete accounts")
        else ret tt
      end
    | None =>
      if negb (Account.user_id account =? User.id current_user)%N then
        raise (HTTPException 403 "You can only delete your own personal accounts")
      else ret tt
    end ;;
    match Account.organization_id account with
    | Some organization_id =>
      modify (with_audit_logs
                (add (AuditLog.mk organization_id (User.id current_user) "account.deleted"
                        (Some "account") [])))
    | None => ret tt
    end ;;
    modify (with_account_permissions
              (filter (fun p => negb (AccountPermission.account_id p =? account_id)%N))) ;;
    modify (with_accounts (remove_first (is_live_account account_id))) ;;
    db_commit ;;
    ret tt
  end.

(** The filter of a permission query: the account and the user. *)
Definition is_permission_row (account_id user_id : UUID) (p : AccountPermission.t) : bool :=
  (AccountPermission.account_id p =? account_id)%N
  && (AccountPermission.user_id p =? user_id)%N.

Definition set_permission (permission : string) (p : AccountPermission.t)
    : AccountPermission.t :=
  AccountPermission.mk (AccountPermission.account_id p) (AccountPermission.user_id p)
                       permission.

(** The response is the dict [{"status": "updated", "permission": permission}]. *)
Definition set_account_permission (account_id user_id : UUID) (permission : string)
    (current_user : User.t) : M (list (string * json)) :=
  call (fun db => check_account_permission db current_user account_id "full") ;;
  if negb (str_in permission ["full"; "edit"; "view"]) then
    raise (HTTPException 400 "Permission must be: full, edit, or view")
  else
    account <- query (fun db => find_account db account_id) ;;
    match account with
    | None =>
      raise (HTTPException 404 "Account not found or not part of an organization")
    | Some account =>
      match Account.organization_id account with
      | None =>
        raise (HTTPException 404 "Account not found or not part of an organization")
      | Some organization_id =>
        target_user <- query (fun db => find_user db user_id) ;;
        if is_none target_user then raise (HTTPException 404 "User not found")
        else
          target_member <- query (fun db => find_member db organization_id user_id) ;;
          if is_none target_member then
            raise (HTTPException 400 "User is not a member of this organization")
          else
            existing_perm <- query (fun db =>
                               find_account_permission db account_id user_id) ;;
            match existing_perm with
            | Some _ =>
              modify (with_account_permissions
                        (update_first (is_permission_row account_id user_id)
                           (set_permission permission)))
            | None =>
              modify (with_account_permissions
                        (add (AccountPermission.mk account_id user_id permission)))
            end ;;
            db_commit ;;
            ret [("status", JStr "updated"); ("permission", JStr permission)]
      end
    end.

Definition remove_account_permission (account_id user_id : UUID) (current_user : User.t)
    : M unit :=
  call (fun db => check_account_permission db current_user account_id "full") ;;
  account <- query (fun db => find_account db account_id) ;;
  match account with
  | None =>
    raise (HTTPException 404 "Account not found or not part of an organization")
  | Some account =>
    match Account.organization_id account with
    | None =>
      raise (HTTPException 404 "Account not found or not part of an organization")
    | Some _ =>
      perm <- query (fun db => find_account_permission db account_id user_id) ;;
      match perm with
      | Some _ =>
        modify (with_account_permissions
                  (remove_first (is_permission_row account_id user_id))) ;;
        db_commit ;;
        ret tt
      | None => ret tt
      end
    end
  end.

(** ** Vocabulary of the properties *)

Definition role_level (r : string) : Z := dict_get ROLE_HIERARCHY r 0.
Definition permission_level (p : string) : Z := dict_get PERMISSION_HIERARCHY p 0.

Definition known_role (r : string) : bool :=
  str_in r ["owner"; "admin"; "member"; "viewer"].

Definition known_permission (p : string) : bool :=
  str_in p ["full"; "edit"; "view"].



(** An explicit [AccountPermission] row of (account, user) meets the bar. *)
Definition explicit_meets (db : DB) (account_id user_id : UUID) (required : string) : Prop :=
  exists p, find_account_permission db account_id user_id = Some p
            /\ permission_level required <= permission_level (AccountPermission.permission p).

(** The account's [default_permission] meets the bar. *)
Definition default_meets (account : Account.t) (required : string) : Prop :=
  permission_level required <= permission_level (Account.default_permission account).

(** An invitation in a terminal state: the row a token designates carries
    [accepted_at] or [rejected_at]. *)
Definition terminal (db : DB) (token : string) : Prop :=
  exists invitation,
    find_invitation db token = Some invitation
    /\ (OrganizationInvitation.accepted_at invitation <> None
        \/ OrganizationInvitation.rejected_at invitation <> None).

(** The requests of the two routers that write membership rows, keys or
    invitation markers, each with what the environment supplies (fresh ids,
    random bytes, the clock). *)
Inductive Request :=
| CreateOrganization (org_data : OrganizationCreate.t) (new_id : UUID)
    (current_user : User.t)
| UpdateMemberRole (org_id user_id : UUID) (body : MemberRoleUpdate.t)
    (current_user : User.t)
| RemoveMember (org_id user_id : UUID) (current_user : User.t)
| TransferOwnershipTo (org_id : UUID) (transfer_data : TransferOwnership.t)
    (current_user : User.t)
| RotateKeys (org_id : UUID) (rotation_data : KeyRotationRequest.t) (now : datetime)
    (current_user : User.t)
| CreateInvitation (org_id : UUID) (body : InvitationCreate.t) (entropy : list byte)
    (now : datetime) (current_user : User.t)
| AcceptInvitation (token : string) (accept_data : InvitationAccept.t) (now : datetime)
    (current_user : User.t)
| RejectInvitation (token : string) (now : datetime) (current_user : User.t).

(** The role update as the framework serves it: validation, then the handler. *)
Definition put_member_role (org_id user_id : UUID) (body : MemberRoleUpdate.t)
    (current_user : User.t) : M OrganizationMemberResponse.t :=
  role_data <- call (fun _ => MemberRoleUpdate.validate body) ;;
  update_member_role org_id user_id role_data current_user.

(** The committed database after a request is served under the storage faults
    [fs]. *)
Definition serve (r : Request) (fs : list bool) (db : DB) : DB :=
  match r with
  | CreateOrganization org_data new_id u =>
      snd (run (create_organization org_data new_id u) db fs)
  | UpdateMemberRole org_id user_id body u =>
      snd (run (put_member_role org_id user_id body u) db fs)
  | RemoveMember org_id user_id u =>
      snd (run (remove_member org_id user_id u) db fs)
  | TransferOwnershipTo org_id transfer_data u =>
      snd (run (transfer_ownership org_id transfer_data u) db fs)
  | RotateKeys org_id rotation_data now u =>
      snd (run (rotate_organization_keys org_id rotation_data now u) db fs)
  | CreateInvitation org_id body entropy now u =>
      snd (run (post_invitation org_id body entropy now u) db fs)
  | AcceptInvitation token accept_data now u =>
      snd (run (accept_invitation token accept_data now u) db fs)
  | RejectInvitation token now u =>
      snd (run (reject_invitation token now u) db fs)
  end.

(** A history: requests served one after the other, each under its own faults. *)
Definition serve_all (history : list (Request * list bool)) (db : DB) : DB :=
  fold_left (fun db rf => serve (fst rf) (snd rf) db) history db.

(** The operations of the single-owner property. *)
Definition ownership_request (r : Request) : bool :=
  match r with
  | CreateOrganization _ _ _ | TransferOwnershipTo _ _ _ | RemoveMember _ _ _ => true
  | _ => false
  end.

Definition is_owner_of (org_id : UUID) (m : OrganizationMember.t) : bool :=
  (OrganizationMember.organization_id m =? org_id)%N
  && (OrganizationMember.role m =? "owner").

Definition owner_count (db : DB) (org_id : UUID) : nat :=
  length (filter (is_owner_of org_id) (organization_members db)).

Definition single_owner (db : DB) : Prop :=
  forall o, In o (organizations db) -> owner_count db (Organization.id o) = 1%nat.

(** What the foreign key of [organization_members] guarantees: a membership
    row references an organization row. *)
Definition members_reference_organizations (db : DB) : Prop :=
  forall m, In m (organization_members db) ->
            exists o, In o (organizations db)
                      /\ Organization.id o = OrganizationMember.organization_id m.

(** The outcome of the two loops of the key rotation on a table, as a fold, and
    the number of supplied updates that find their row. *)
Definition rotated_members (org_id : UUID) (member_keys : list MemberKeyRotation.t)
    (members : list OrganizationMember.t) : list OrganizationMember.t :=
  fold_left
    (fun ms d =>
       update_first (is_member_row org_id (MemberKeyRotation.user_id d))
         (OrganizationMember.set_wrapped_org_key (MemberKeyRotation.wrapped_org_key d)) ms)
    member_keys members.

Definition member_hits (db : DB) (org_id : UUID) (member_keys : list MemberKeyRotation.t)
    : Z :=
  Z.of_nat
    (length (filter (fun d => is_set (find_member db org_id (MemberKeyRotation.user_id d)))
                    member_keys)).

Definition rotated_accounts (org_id : UUID) (account_deks : list (UUID * string))
    (accounts : list Account.t) : list Account.t :=
  fold_left
    (fun acs d =>
       update_first (is_org_account_row org_id (fst d))
         (Account.set_encrypted_dek (snd d)) acs)
    account_deks accounts.

Definition account_hits (db : DB) (org_id : UUID) (account_deks : list (UUID * string))
    : Z :=
  Z.of_nat
    (length (filter (fun d => is_set (find (is_org_account_row org_id (fst d)) (accounts db)))
                    account_deks)).

(** The items of [account_deks] the second loop of the rotation gets to: those
    before the first key that is not the text of a UUID, with their UUIDs. *)
Fixpoint uuid_items (account_deks : list (account_key * string)) : list (UUID * string) :=
  match account_deks with
  | (uuid_str account_id, new_wrapped_dek) :: rest =>
    (account_id, new_wrapped_dek) :: uuid_items rest
  | _ => []
  end.

(** Every key of [account_deks] is the text of a UUID. *)
Definition uuid_keys (account_deks : list (account_key * string)) : bool :=
  forallb (fun d => match fst d with uuid_str _ => true | other_str _ => false end)
          account_deks.

(** A membership row after the rotation: untouched, or a row of this
    organization carrying the key of one of the supplied updates for its user. *)
Definition member_rotation (org_id : UUID) (member_keys : list MemberKeyRotation.t)
    (m m' : OrganizationMember.t) : Prop :=
  m' = m
  \/ (OrganizationMember.organization_id m = org_id
      /\ exists d, In d member_keys
                   /\ MemberKeyRotation.user_id d = OrganizationMember.user_id m
                   /\ m' = OrganizationMember.set_wrapped_org_key
                             (MemberKeyRotation.wrapped_org_key d) m).

(** An account row after the rotation: untouched, or a live account of this
    organization carrying the DEK supplied under its id. *)
Definition account_rotation (org_id : UUID) (account_deks : list (UUID * string))
    (a a' : Account.t) : Prop :=
  a' = a
  \/ (Account.organization_id a = Some org_id
      /\ Account.deleted_at a = None
      /\ exists k, In (Account.id a, k) account_deks
                   /\ a' = Account.set_encrypted_dek k a).


(** A handler keeps [P] when [P] holds of the committed database and of the
    session's view after it, whenever it held of both before. *)
Definition preserves {A} (P : DB -> Prop) (m : M A) : Prop :=
  forall w, P (committed w) -> P (session w) ->
            P (committed (snd (m w))) /\ P (session (snd (m w))).

(** The entries of an organization's audit log as [get_audit_logs] orders
    and joins them, before the page is cut out. *)
Definition audit_entries (db : DB) (org_id : UUID) : list (AuditLog.t * option User.t) :=
  flat_map (outerjoin_user db)
    (order_by_created_at_desc
       (filter (fun l => (AuditLog.organization_id l =? org_id)%N) (audit_logs db))).

(** The entries [get_audit_logs] returns for one page; none when it raises. *)
Definition audit_page (db : DB) (org_id : UUID) (current_user : User.t)
    (page_size page : Z) : list AuditLogResponse.t :=
  match fst (run (get_audit_logs org_id page page_size current_user) db []) with
  | Return response => AuditLogList.logs response
  | Raise _ => []
  end.

(** No invitation carries both markers. *)
Definition exclusive (db : DB) : Prop :=
  forall i, In i (organization_invitations db) ->
            OrganizationInvitation.accepted_at i = None
            \/ OrganizationInvitation.rejected_at i = None.

(** The audit trail of [db] is [base] followed by further entries. *)
Definition extends (base : list AuditLog.t) (db : DB) : Prop :=
  exists suffix, audit_logs db = (base ++ suffix)%list.

(** No organization id has two owner rows. *)
Definition at_most_one_owner (db : DB) : Prop :=
  forall o, (owner_count db o <= 1)%nat.

(** An owner row references an organization row. *)
Definition owners_reference_organizations (db : DB) : Prop :=
  forall m, In m (organization_members db) ->
            OrganizationMember.role m = "owner" ->
            exists o, In o (organizations db)
                      /\ Organization.id o = OrganizationMember.organization_id m.

(** No invitation invites as owner. *)
Definition no_owner_invitation (db : DB) : Prop :=
  forall i, In i (organization_invitations db) -> OrganizationInvitation.role i <> "owner".

(** What the requests keep about owners. *)
Definition owner_discipline (db : DB) : Prop :=
  owners_reference_organizations db /\ at_most_one_owner db /\ no_owner_invitation db.

(** ** A small database for the examples: alice owns the organization 10, bob
    is a member of it with an explicit grant on its account, carol holds an
    invitation that was accepted and has since passed its expiry. *)

Module Sample.
Definition alice : User.t := User.mk 1 "alice@example.org".
Definition bob : User.t := User.mk 2 "bob@example.org".
Definition carol : User.t := User.mk 3 "carol@example.org".

Definition family : Organization.t := Organization.mk 10 "Family" None.

Definition ledger : Account.t := Account.mk 100 1 (Some 10%N) "view" (Some "dek-0") None.

Definition used_invitation : OrganizationInvitation.t :=
  OrganizationInvitation.mk 10 "carol@example.org" "viewer" "rsa-wrapped" 1
    "tok-used" 500 (Some 400) None.

Definition open_invitation : OrganizationInvitation.t :=
  OrganizationInvitation.mk 10 "carol@example.org" "viewer" "rsa-wrapped" 1
    "tok-open" 5000 None None.

Definition db : DB :=
  mkDB [alice; bob; carol] [family]
       [OrganizationMember.mk 10 1 "owner" "key-alice";
        OrganizationMember.mk 10 2 "member" "key-bob"]
       [ledger]
       [AccountPermission.mk 100 2 "full"]
       [used_invitation; open_invitation]
       [].

Definition rotation : KeyRotationRequest.t :=
  KeyRotationRequest.mk
    [MemberKeyRotation.mk 1 "key-alice-2"; MemberKeyRotation.mk 9 "key-nobody"]
    [(uuid_str 100, "dek-1"); (uuid_str 777, "dek-lost")].

(** The same request with a key that is no UUID after the first item. *)
Definition bad_rotation : KeyRotationRequest.t :=
  KeyRotationRequest.mk
    [MemberKeyRotation.mk 1 "key-alice-2"]
    [(uuid_str 100, "dek-1"); (other_str "ledger", "dek-2")].
End Sample.

(** * Properties *)

(** ** Strings *)

Lemma eqb_true (a b : string) : (a =? b) = true <-> a = b.
Proof. apply String.eqb_eq. Qed.

Lemma eqb_false (a b : string) : (a =? b) = false <-> a <> b.
Proof. apply String.eqb_neq. Qed.

Lemma known_role_cases (r : string) :
  known_role r = true ->
  r = "owner" \/ r = "admin" \/ r = "member" \/ r = "viewer".
Proof.
  unfold known_role, str_in. cbn [existsb].
  rewrite !orb_true_iff, !eqb_true. intuition congruence.
Qed.

Lemma known_role_level (r : string) :
  known_role r = true -> 1 <= role_level r <= 4.
Proof.
  intros H. destruct (known_role_cases r H) as [-> | [-> | [-> | ->]]];
    vm_compute; split; discriminate.
Qed.

Lemma unknown_role_level (r : string) :
  known_role r = false -> role_level r = 0.
Proof.
  unfold known_role, str_in, role_level, ROLE_HIERARCHY. cbn [existsb dict_get].
  rewrite !orb_false_iff. intros (H1 & H2 & H3 & H4 & _).
  rewrite (String.eqb_sym "owner"), H1, (String.eqb_sym "admin"), H2,
    (String.eqb_sym "member"), H3, (String.eqb_sym "viewer"), H4.
  reflexivity.
Qed.

Lemma known_permission_cases (p : string) :
  known_permission p = true -> p = "full" \/ p = "edit" \/ p = "view".
Proof.
  unfold known_permission, str_in. cbn [existsb].
  rewrite !orb_true_iff, !eqb_true. intuition congruence.
Qed.

Lemma known_permission_level (p : string) :
  known_permission p = true -> 1 <= permission_level p <= 3.
Proof.
  intros H. destruct (known_permission_cases p H) as [-> | [-> | ->]];
    vm_compute; split; discriminate.
Qed.

Lemma role_level_nonneg (r : string) : 0 <= role_level r.
Proof.
  unfold role_level, ROLE_HIERARCHY. cbn [dict_get].
  destruct ("owner" =? r), ("admin" =? r), ("member" =? r), ("viewer" =? r); lia.
Qed.

Lemma role_at_least_level (actual required : string) :
  role_at_least actual required = (role_level actual >=? role_level required)%Z.
Proof.
  unfold role_at_least, role_level.
  rewrite Z.geb_leb, Z.ltb_antisym, negb_involutive. reflexivity.
Qed.

(** C8, as the code has it: the comparison made by the membership check is
    [hierarchy[actual] >= hierarchy[required]] with viewer 1, member 2, admin 3,
    owner 4; a role outside these four has level 0, so it is insufficient for
    every one of the four, and it is sufficient, as every role is, for a
    required role that is itself outside the four; the comparison is
    reflexive and transitive, over all strings. *)
Theorem role_comparison :
  (forall db user org_id required org member,
      find_organization db org_id = Some org ->
      find_member db org_id (User.id user) = Some member ->
      str_truthy required = true ->
      check_org_permission db user org_id (Some required) =
        if role_at_least (OrganizationMember.role member) required
        then Return member
        else Raise (PermissionError
                      ("Insufficient permissions. Required role: " ++ required)))
  /\ (forall actual required,
         role_at_least actual required = (role_level actual >=? role_level required)%Z)
  /\ (role_level "viewer" = 1 /\ role_level "member" = 2
      /\ role_level "admin" = 3 /\ role_level "owner" = 4)
  /\ (forall r, known_role r = false -> role_level r = 0)
  /\ (forall r required,
         known_role r = false -> known_role required = true ->
         role_at_least r required = false)
  /\ (forall r required, known_role required = false -> role_at_least r required = true)
  /\ (forall r, role_at_least r r = true)
  /\ (forall a b c,
         role_at_least a b = true -> role_at_least b c = true ->
         role_at_least a c = true).
Proof.
  repeat split.
  - intros db user org_id required org member Ho Hm Ht.
    unfold check_org_permission. rewrite Ho, Hm, Ht.
    unfold role_at_least.
    destruct (dict_get ROLE_HIERARCHY (OrganizationMember.role member) 0
              <? dict_get ROLE_HIERARCHY required 0)%Z; reflexivity.
  - apply role_at_least_level.
  - apply unknown_role_level.
  - intros r required Hr Hq. rewrite role_at_least_level, (unknown_role_level r Hr).
    pose proof (known_role_level required Hq).
    rewrite Z.geb_leb. apply Z.leb_gt. lia.
  - intros r required Hq. rewrite role_at_least_level, (unknown_role_level _ Hq).
    rewrite Z.geb_leb. apply Z.leb_le. apply role_level_nonneg.
  - intros r. rewrite role_at_least_level, Z.geb_leb. apply Z.leb_refl.
  - intros a b c. rewrite !role_at_least_level, !Z.geb_leb, !Z.leb_le. lia.
Qed.

Lemma role_comparison_witness :
  role_at_least "superuser" "viewer" = false.
Proof.
  apply (proj1 (proj2 (proj2 (proj2 (proj2 role_comparison))))); reflexivity.
Defined.

(** C8, against "always insufficient": a member whose role is outside the
    four passes the check when the required role is outside the four as
    well, here the owner role misspelt with a capital. *)
Lemma unknown_role_sufficient :
  let member := OrganizationMember.mk 10 2 "superuser" "key-bob" in
  let db := mkDB [Sample.bob] [Sample.family] [member] [] [] [] [] in
  known_role "superuser" = false
  /\ role_level "superuser" = 0
  /\ role_at_least "superuser" "Owner" = true
  /\ check_org_permission db Sample.bob 10 (Some "Owner") = Return member.
Proof. repeat split. Qed.

(** ** Queries *)

Lemma find_none_iff {A} (p : A -> bool) (l : list A) :
  find p l = None <-> forall x, In x l -> p x = false.
Proof.
  split.
  - intros H x Hx. exact (find_none p l H x Hx).
  - induction l as [|a l IH]; intros H; [reflexivity|].
    cbn. rewrite (H a (or_introl eq_refl)). apply IH.
    intros x Hx. apply H. now right.
Qed.

Lemma find_app_none {A} (p : A -> bool) (l : list A) (x : A) :
  find p l = None -> find p (l ++ [x]) = if p x then Some x else None.
Proof.
  induction l as [|y l IH]; cbn; [reflexivity|].
  destruct (p y); [discriminate | exact IH].
Qed.

Lemma find_organization_none (db : DB) (org_id : UUID) :
  find_organization db org_id = None <->
  (forall o, In o (organizations db) -> Organization.id o = org_id ->
             Organization.deleted_at o <> None).
Proof.
  unfold find_organization. rewrite find_none_iff. split.
  - intros H o Ho Hid Hdel. specialize (H o Ho).
    rewrite Hid, N.eqb_refl, Hdel in H. discriminate.
  - intros H o Ho. destruct (N.eqb_spec (Organization.id o) org_id) as [Hid|]; [|reflexivity].
    specialize (H o Ho Hid). destruct (Organization.deleted_at o); [reflexivity|].
    now elim H.
Qed.

(** C9: the organization is looked up before anything else: when it is absent
    or soft-deleted the result is the 404 whatever the membership rows are;
    when it exists a missing membership is the next failure, and only then the
    minimum role. *)
Theorem check_org_permission_order (db : DB) (user : User.t) (org_id : UUID)
    (required_role : option string) :
  ((forall o, In o (organizations db) -> Organization.id o = org_id ->
              Organization.deleted_at o <> None) ->
   check_org_permission db user org_id required_role =
     Raise (HTTPException 404 "Organization not found"))
  /\ (forall org,
         find_organization db org_id = Some org ->
         find_member db org_id (User.id user) = None ->
         check_org_permission db user org_id required_role =
           Raise (PermissionError "You are not a member of this organization"))
  /\ (forall org member,
         find_organization db org_id = Some org ->
         find_member db org_id (User.id user) = Some member ->
         check_org_permission db user org_id required_role =
           match required_role with
           | Some required =>
             if str_truthy required
                && negb (role_at_least (OrganizationMember.role member) required)
             then Raise (PermissionError
                           ("Insufficient permissions. Required role: " ++ required))
             else Return member
           | None => Return member
           end).
Proof.
  repeat split.
  - intros H. apply find_organization_none in H.
    unfold check_org_permission. now rewrite H.
  - intros org Ho Hm. unfold check_org_permission. now rewrite Ho, Hm.
  - intros org member Ho Hm. unfold check_org_permission. rewrite Ho, Hm.
    destruct required_role as [required|]; [|reflexivity].
    unfold role_at_least. rewrite negb_involutive.
    destruct (str_truthy required); reflexivity.
Qed.

Lemma check_org_permission_order_witness :
  check_org_permission
    (mkDB [] [Organization.mk 1 "Home" (Some 5)]
          [OrganizationMember.mk 1 7 "owner" "k"] [] [] [] [])
    (User.mk 7 "a@x.org") 1 None
  = Raise (HTTPException 404 "Organization not found").
Proof.
  apply (proj1 (check_org_permission_order _ _ _ _)).
  intros o [<- | []] _. discriminate.
Defined.

(** C10: an owner manages everyone but another owner (and always themself); an
    admin fails exactly on owners and admins, themself included; anyone else
    always fails. *)
Theorem can_manage_member_rules (manager target : OrganizationMember.t) :
  (OrganizationMember.role manager = "owner" ->
   can_manage_member manager target =
     if (OrganizationMember.role target =? "owner")
        && negb (OrganizationMember.user_id manager =? OrganizationMember.user_id target)%N
     then Raise (PermissionError "Cannot modify another owner")
     else Return true)
  /\ (OrganizationMember.role manager = "owner" ->
      OrganizationMember.user_id manager = OrganizationMember.user_id target ->
      can_manage_member manager target = Return true)
  /\ (OrganizationMember.role manager = "admin" ->
      can_manage_member manager target =
        if (OrganizationMember.role target =? "owner")
           || (OrganizationMember.role target =? "admin")
        then Raise (PermissionError "Admins cannot modify owners or other admins")
        else Return true)
  /\ (OrganizationMember.role manager = "admin" ->
      can_manage_member manager manager =
        Raise (PermissionError "Admins cannot modify owners or other admins"))
  /\ (OrganizationMember.role manager <> "owner" ->
      OrganizationMember.role manager <> "admin" ->
      can_manage_member manager target =
        Raise (PermissionError "Insufficient permissions to manage members")).
Proof.
  unfold can_manage_member, str_in. cbn [existsb]. repeat split.
  - intros ->. reflexivity.
  - intros -> ->. rewrite N.eqb_refl, andb_false_r. reflexivity.
  - intros ->. cbn. rewrite orb_false_r. reflexivity.
  - intros ->. reflexivity.
  - intros Ho Ha. apply eqb_false in Ho, Ha. now rewrite Ho, Ha.
Qed.

Lemma can_manage_member_rules_witness :
  can_manage_member (OrganizationMember.mk 1 7 "admin" "k")
                    (OrganizationMember.mk 1 8 "admin" "k'")
  = Raise (PermissionError "Admins cannot modify owners or other admins").
Proof.
  exact (proj1 (proj2 (proj2 (can_manage_member_rules
                                (OrganizationMember.mk 1 7 "admin" "k")
                                (OrganizationMember.mk 1 8 "admin" "k'"))))
               eq_refl).
Defined.

(** ** The account access resolver *)

Lemma explicit_grants_meets (db : DB) (account_id user_id : UUID) (required : string) :
  explicit_grants (find_account_permission db account_id user_id) required = true
  <-> explicit_meets db account_id user_id required.
Proof.
  unfold explicit_grants, explicit_meets, permission_level.
  destruct (find_account_permission db account_id user_id) as [p|].
  - rewrite Z.geb_leb, Z.leb_le. split.
    + intros H. now exists p.
    + intros (p' & [= <-] & H). exact H.
  - split; [discriminate | intros (p & [=] & _)].
Qed.

Lemma default_grants_meets (account : Account.t) (required : string) :
  known_permission required = true ->
  default_grants account required = true <-> default_meets account required.
Proof.
  intros Hk. pose proof (known_permission_level required Hk) as Hl.
  unfold default_grants, default_meets, str_truthy.
  destruct (String.eqb_spec (Account.default_permission account) "") as [-> | _]; cbn [negb].
  - change (permission_level "") with 0. split; [discriminate | lia].
  - fold (permission_level (Account.default_permission account)).
    fold (permission_level required).
    now rewrite Z.geb_leb, Z.leb_le.
Qed.

(** C1: on a live organizational account, for a member of its organization:
    owner and admin are granted any permission; member and viewer are granted
    exactly when the explicit permission meets the bar, or the account default
    does, or a viewer asks for view; otherwise the 403 for insufficient
    permission is raised. *)
Theorem check_account_permission_org (db : DB) (user : User.t) (account_id : UUID)
    (required_permission : string) (account : Account.t) (organization_id : UUID)
    (member : OrganizationMember.t) :
  find_account db account_id = Some account ->
  Account.organization_id account = Some organization_id ->
  find_member db organization_id (User.id user) = Some member ->
  (OrganizationMember.role member = "owner" \/ OrganizationMember.role member = "admin" ->
   check_account_permission db user account_id required_permission = Return true)
  /\ (OrganizationMember.role member = "member" \/ OrganizationMember.role member = "viewer" ->
      known_permission required_permission = true ->
      (check_account_permission db user account_id required_permission = Return true
       <-> (explicit_meets db account_id (User.id user) required_permission
            \/ default_meets account required_permission
            \/ (OrganizationMember.role member = "viewer" /\ required_permission = "view")))
      /\ (check_account_permission db user account_id required_permission = Return true
          \/ check_account_permission db user account_id required_permission =
               Raise (PermissionError
                        ("Insufficient account permissions. Required: "
                         ++ required_permission)))).
Proof.
  intros Ha Ho Hm. unfold check_account_permission. rewrite Ha, Ho, Hm. split.
  - intros [-> | ->]; reflexivity.
  - intros Hr Hk.
    assert (Hin : str_in (OrganizationMember.role member) ["owner"; "admin"] = false)
      by (destruct Hr as [-> | ->]; reflexivity).
    rewrite Hin.
    pose proof (explicit_grants_meets db account_id (User.id user) required_permission) as He.
    pose proof (default_grants_meets account required_permission Hk) as Hd.
    destruct (explicit_grants _ _).
    { split; [|now left]. split; [intros _; left; now apply He | reflexivity]. }
    destruct (default_grants _ _).
    { split; [|now left]. split; [intros _; right; left; now apply Hd | reflexivity]. }
    destruct (String.eqb_spec (OrganizationMember.role member) "viewer") as [Hv|Hv];
      destruct (String.eqb_spec required_permission "view") as [Hq|Hq]; cbn [andb].
    { split; [|now left]. split; [intros _; right; right; now split | reflexivity]. }
    all: split; [|now right]; split; [discriminate|];
      intros [H | [H | [H1 H2]]];
      [ apply He in H; discriminate | apply Hd in H; discriminate | congruence ].
Qed.

Lemma check_account_permission_org_witness :
  check_account_permission Sample.db Sample.bob 100 "edit" = Return true.
Proof.
  apply (proj1 (proj2 (check_account_permission_org Sample.db Sample.bob 100 "edit"
                         Sample.ledger 10 (OrganizationMember.mk 10 2 "member" "key-bob")
                         eq_refl eq_refl eq_refl)
                  (or_introl eq_refl) eq_refl)).
  left. exists (AccountPermission.mk 100 2 "full"). split; [reflexivity | discriminate].
Defined.

(** ** Properties kept by every handler *)

Section Preservation.
Variable P : DB -> Prop.

Lemma preserves_ret {A} (a : A) : preserves P (ret a).
Proof. intros w Hc Hs. now split. Qed.

Lemma preserves_raise {A} (e : Exception) : preserves P (@raise A e).
Proof. intros w Hc Hs. now split. Qed.

Lemma preserves_call {A} (f : DB -> result A) : preserves P (call f).
Proof. intros w Hc Hs. now split. Qed.

Lemma preserves_query {A} (f : DB -> A) : preserves P (query f).
Proof. intros w Hc Hs. now split. Qed.

Lemma preserves_attr {A B} (o : option A) (f : A -> B) : preserves P (attr o f).
Proof. destruct o; intros w Hc Hs; now split. Qed.

Lemma preserves_modify (f : DB -> DB) :
  (forall db, P db -> P (f db)) -> preserves P (modify f).
Proof. intros Hf w Hc Hs. split; [exact Hc | now apply Hf]. Qed.

Lemma preserves_storage_write (durable : bool) : preserves P (storage_write durable).
Proof.
  intros w Hc Hs. unfold storage_write.
  destruct (faults w) as [|[] fs]; try destruct (constraints_ok (session w));
    destruct durable; now split.
Qed.

Lemma preserves_rollback : preserves P db_rollback.
Proof. intros w Hc Hs. now split. Qed.

Lemma preserves_bind {A B} (m : M A) (k : A -> M B) :
  preserves P m -> (forall a, preserves P (k a)) -> preserves P (bind m k).
Proof.
  intros Hm Hk w Hc Hs. unfold bind. specialize (Hm w Hc Hs).
  destruct (m w) as [[a|e] w']; cbn [snd] in *.
  - now apply Hk.
  - exact Hm.
Qed.

Lemma preserves_try_except {A} (body : M A) (handler : Exception -> M A) :
  preserves P body -> (forall e, preserves P (handler e)) ->
  preserves P (try_except body handler).
Proof.
  intros Hm Hk w Hc Hs. unfold try_except. specialize (Hm w Hc Hs).
  destruct (body w) as [[a|e] w']; cbn [snd] in *.
  - exact Hm.
  - now apply Hk.
Qed.

Lemma preserves_run {A} (m : M A) (db : DB) (fs : list bool) :
  preserves P m -> P db -> P (snd (run m db fs)).
Proof.
  intros Hm Hdb. unfold run. specialize (Hm (mkWorld db db fs) Hdb Hdb).
  destruct (m (mkWorld db db fs)) as [r w]. exact (proj1 Hm).
Qed.

Hypothesis P_audit : forall f db, P db -> P (with_audit_logs f db).

Lemma preserves_log_audit (user_id organization_id : UUID) (action : string)
    (resource_type : option string) (details : list (string * json)) :
  preserves P (log_audit user_id organization_id action resource_type details).
Proof.
  unfold log_audit.
  apply preserves_bind; [apply preserves_modify; intros; now apply P_audit | intros _].
  apply preserves_bind; [apply preserves_storage_write | intros _].
  apply preserves_ret.
Qed.

End Preservation.

(** One step of a proof that a handler keeps a property. *)
Ltac preserve_step :=
  lazymatch goal with
  | |- preserves _ (bind _ _) => apply preserves_bind; [|intros ?]
  | |- preserves _ (try_except _ _) => apply preserves_try_except; [|intros ?]
  | |- preserves _ (ret _) => apply preserves_ret
  | |- preserves _ (raise _) => apply preserves_raise
  | |- preserves _ (call _) => apply preserves_call
  | |- preserves _ (query _) => apply preserves_query
  | |- preserves _ (attr _ _) => apply preserves_attr
  | |- preserves _ db_commit => apply preserves_storage_write
  | |- preserves _ db_flush => apply preserves_storage_write
  | |- preserves _ db_rollback => apply preserves_rollback
  | |- preserves _ (modify _) => apply preserves_modify
  | |- preserves _ (match ?x with _ => _ end) => destruct x
  end.

(** ** The invitation token gate *)

Lemma find_app_some {A} (p : A -> bool) (l l' : list A) (x : A) :
  find p l = Some x -> find p (l ++ l') = Some x.
Proof.
  induction l as [|a l IH]; cbn; [discriminate|].
  destruct (p a); [trivial | exact IH].
Qed.

Lemma terminal_same_invitations (db db' : DB) (token : string) :
  organization_invitations db' = organization_invitations db ->
  terminal db token -> terminal db' token.
Proof.
  unfold terminal, find_invitation. intros ->. trivial.
Qed.

Lemma terminal_add (db : DB) (token : string) (i : OrganizationInvitation.t) :
  terminal db token -> terminal (with_invitations (add i) db) token.
Proof.
  intros (inv & Hf & Ht). exists inv. split; [|exact Ht].
  unfold find_invitation, with_invitations, add in *. cbn.
  now apply find_app_some.
Qed.

Lemma terminal_update (db : DB) (token token' : string)
    (f : OrganizationInvitation.t -> OrganizationInvitation.t) :
  (forall i, OrganizationInvitation.token (f i) = OrganizationInvitation.token i) ->
  (forall i, OrganizationInvitation.accepted_at (f i) <> None
             \/ OrganizationInvitation.rejected_at (f i) <> None) ->
  terminal db token ->
  terminal (with_invitations (update_first (is_token_row token') f) db) token.
Proof.
  intros Htok Hmark (inv & Hf & Ht).
  unfold terminal, find_invitation, with_invitations in *. cbn.
  induction (organization_invitations db) as [|a l IH]; cbn in *; [discriminate|].
  destruct (is_token_row token' a) eqn:Ha; cbn.
  - rewrite Htok. destruct (OrganizationInvitation.token a =? token) eqn:Hat.
    + exists (f a). split; [reflexivity | apply Hmark].
    + exists inv. now split.
  - destruct (OrganizationInvitation.token a =? token) eqn:Hat.
    + exists inv. now split.
    + now apply IH.
Qed.

Lemma preserves_rotate_member_keys (P : DB -> Prop) (org_id : UUID)
    (member_keys : list MemberKeyRotation.t) (n : Z) :
  (forall f db, P db -> P (with_members f db)) ->
  preserves P (rotate_member_keys org_id member_keys n).
Proof.
  intros HP. revert n. induction member_keys as [|d rest IH]; intros n; cbn.
  - apply preserves_ret.
  - repeat preserve_step; [intros; now apply HP | apply IH | apply IH].
Qed.

Lemma preserves_rotate_account_deks (P : DB -> Prop) (org_id : UUID)
    (account_deks : list (account_key * string)) (n : Z) :
  (forall f db, P db -> P (with_accounts f db)) ->
  preserves P (rotate_account_deks org_id account_deks n).
Proof.
  intros HP. revert n.
  induction account_deks as [|[[account_id|s] dek] rest IH]; intros n; cbn.
  - apply preserves_ret.
  - repeat preserve_step; [intros; now apply HP | apply IH | apply IH].
  - repeat preserve_step.
Qed.

(** A terminal invitation stays terminal whatever request is served. *)
Lemma terminal_serve (r : Request) (fs : list bool) (db : DB) (token : string) :
  terminal db token -> terminal (serve r fs db) token.
Proof.
  assert (Haudit : forall f d, terminal d token -> terminal (with_audit_logs f d) token)
    by (intros f d; now apply terminal_same_invitations).
  assert (Hmem : forall f d, terminal d token -> terminal (with_members f d) token)
    by (intros f d; now apply terminal_same_invitations).
  assert (Hacc : forall f d, terminal d token -> terminal (with_accounts f d) token)
    by (intros f d; now apply terminal_same_invitations).
  assert (Horg : forall f d, terminal d token -> terminal (with_organizations f d) token)
    by (intros f d; now apply terminal_same_invitations).
  intros Ht. destruct r; cbn [serve]; apply preserves_run; trivial.
  - unfold create_organization.
    repeat first [apply preserves_log_audit; [exact Haudit] | preserve_step]; auto.
  - unfold put_member_role, update_member_role.
    repeat first [apply preserves_log_audit; [exact Haudit] | preserve_step]; auto.
  - unfold remove_member.
    repeat first [apply preserves_log_audit; [exact Haudit] | preserve_step]; auto.
  - unfold transfer_ownership.
    repeat first [apply preserves_log_audit; [exact Haudit] | preserve_step]; auto.
  - unfold rotate_organization_keys.
    repeat first [apply preserves_log_audit; [exact Haudit]
                 | apply preserves_rotate_member_keys; [exact Hmem]
                 | apply preserves_rotate_account_deks; [exact Hacc]
                 | preserve_step]; auto.
  - unfold post_invitation, create_invitation.
    repeat first [apply preserves_log_audit; [exact Haudit] | preserve_step]; auto.
    intros d Hd. now apply terminal_add.
  - unfold accept_invitation.
    repeat first [apply preserves_log_audit; [exact Haudit] | preserve_step]; auto.
    intros d Hd. apply terminal_update; trivial.
    intros i. left. discriminate.
  - unfold reject_invitation.
    repeat first [apply preserves_log_audit; [exact Haudit] | preserve_step]; auto.
    intros d Hd. apply terminal_update; trivial.
    intros i. right. discriminate.
Qed.

Lemma terminal_serve_all (history : list (Request * list bool)) (db : DB)
    (token : string) :
  terminal db token -> terminal (serve_all history db) token.
Proof.
  unfold serve_all. revert db.
  induction history as [|[r fs] history IH]; intros db Ht; cbn; [exact Ht|].
  apply IH. now apply terminal_serve.
Qed.

Lemma verify_terminal (db : DB) (token : string) (now : datetime) :
  terminal db token -> raised (verify_invitation_token db token now) = true.
Proof.
  intros (inv & Hf & Ht). unfold verify_invitation_token. rewrite Hf.
  unfold is_set.
  destruct (OrganizationInvitation.accepted_at inv); [reflexivity|].
  destruct (OrganizationInvitation.rejected_at inv); [reflexivity|].
  destruct Ht as [Ht | Ht]; now elim Ht.
Qed.

(** C3: the token is checked for existence, then [accepted_at], then
    [rejected_at], then expiry; an accepted invitation past its expiry is
    reported as accepted; once [accepted_at] or [rejected_at] is set, the check
    fails at every later instant and after any further requests (no request
    of [Request] clears a marker or removes an invitation row). *)
Theorem verify_invitation_token_order (db : DB) (token : string) (now : datetime) :
  (find_invitation db token = None ->
   verify_invitation_token db token now = Raise (HTTPException 404 "Invitation not found"))
  /\ (forall invitation,
         find_invitation db token = Some invitation ->
         verify_invitation_token db token now =
           if is_set (OrganizationInvitation.accepted_at invitation) then
             Raise (HTTPException 400 "Invitation already accepted")
           else if is_set (OrganizationInvitation.rejected_at invitation) then
             Raise (HTTPException 400 "Invitation was rejected")
           else if (OrganizationInvitation.expires_at invitation <? now)%Z then
             Raise (HTTPException 400 "Invitation has expired")
           else Return invitation)
  /\ (forall invitation,
         find_invitation db token = Some invitation ->
         OrganizationInvitation.accepted_at invitation <> None ->
         OrganizationInvitation.expires_at invitation < now ->
         verify_invitation_token db token now =
           Raise (HTTPException 400 "Invitation already accepted"))
  /\ (terminal db token ->
      forall (history : list (Request * list bool)) (later : datetime),
        raised (verify_invitation_token (serve_all history db) token later) = true).
Proof.
  repeat split.
  - intros H. unfold verify_invitation_token. now rewrite H.
  - intros invitation H. unfold verify_invitation_token. now rewrite H.
  - intros invitation H Ha _. unfold verify_invitation_token. rewrite H.
    destruct (OrganizationInvitation.accepted_at invitation); [reflexivity | now elim Ha].
  - intros Ht history later. apply verify_terminal. now apply terminal_serve_all.
Qed.

Lemma verify_invitation_token_order_witness :
  verify_invitation_token Sample.db "tok-used" 999
  = Raise (HTTPException 400 "Invitation already accepted").
Proof.
  apply (proj1 (proj2 (proj2 (verify_invitation_token_order Sample.db "tok-used" 999)))
           Sample.used_invitation).
  - reflexivity.
  - discriminate.
  - reflexivity.
Defined.

(** ** Rows and tables *)

Lemma update_first_length {A} (p : A -> bool) (f : A -> A) (l : list A) :
  length (update_first p f l) = length l.
Proof.
  induction l as [|a l IH]; cbn; [reflexivity|].
  destruct (p a); cbn; [reflexivity | now rewrite IH].
Qed.

Lemma update_first_miss {A} (p : A -> bool) (f : A -> A) (l : list A) :
  find p l = None -> update_first p f l = l.
Proof.
  induction l as [|a l IH]; cbn; [reflexivity|].
  destruct (p a); [discriminate|]. intros H. now rewrite IH.
Qed.

Lemma update_first_count {A} (p q : A -> bool) (f : A -> A) (l : list A) (x : A) :
  find p l = Some x ->
  (length (filter q (update_first p f l)) + (if q x then 1 else 0)
   = length (filter q l) + (if q (f x) then 1 else 0))%nat.
Proof.
  induction l as [|a l IH]; cbn; [discriminate|].
  destruct (p a) eqn:Hp.
  - intros [= ->]. cbn. destruct (q x), (q (f x)); cbn; lia.
  - intros H. specialize (IH H). cbn. destruct (q a); cbn; lia.
Qed.

Lemma remove_first_count {A} (p q : A -> bool) (l : list A) (x : A) :
  find p l = Some x ->
  (length (filter q (remove_first p l)) + (if q x then 1 else 0)
   = length (filter q l))%nat.
Proof.
  induction l as [|a l IH]; cbn; [discriminate|].
  destruct (p a) eqn:Hp.
  - intros [= ->]. destruct (q x); cbn; lia.
  - intros H. specialize (IH H). cbn. destruct (q a); cbn; lia.
Qed.

Lemma find_update_first_other {A} (p p' : A -> bool) (f : A -> A) (l : list A) :
  (forall y, p' (f y) = p' y) ->
  (forall y, p y = true -> p' y = false) ->
  find p' (update_first p f l) = find p' l.
Proof.
  intros Hf Hd. induction l as [|a l IH]; cbn; [reflexivity|].
  destruct (p a) eqn:Hp; cbn.
  - now rewrite Hf, (Hd a Hp).
  - now rewrite IH.
Qed.

Lemma in_update_first {A} (p : A -> bool) (f : A -> A) (l : list A) (y : A) :
  In y (update_first p f l) -> In y l \/ exists x, In x l /\ y = f x.
Proof.
  induction l as [|a l IH]; cbn; [tauto|].
  destruct (p a); cbn.
  - intros [<- | H]; [right; exists a; auto | auto].
  - intros [<- | H]; [auto|]. destruct (IH H) as [H' | (x & Hx & ->)]; [auto|].
    right. exists x. auto.
Qed.

Lemma in_remove_first {A} (p : A -> bool) (l : list A) (y : A) :
  In y (remove_first p l) -> In y l.
Proof.
  induction l as [|a l IH]; cbn; [tauto|].
  destruct (p a); cbn; [auto|]. intros [<- | H]; auto.
Qed.

Lemma filter_two {A} (q : A -> bool) (l : list A) (x y : A) :
  In x l -> In y l -> x <> y -> q x = true -> q y = true ->
  (2 <= length (filter q l))%nat.
Proof.
  intros Hx Hy Hne Hqx Hqy.
  assert (Hx' : In x (filter q l)) by (apply filter_In; auto).
  assert (Hy' : In y (filter q l)) by (apply filter_In; auto).
  destruct (filter q l) as [|a [|b l']]; cbn in *; [tauto | | lia].
  destruct Hx' as [<- | []], Hy' as [<- | []]. now elim Hne.
Qed.

Lemma filter_none {A} (q : A -> bool) (l : list A) :
  (forall x, In x l -> q x = false) -> filter q l = [].
Proof.
  induction l as [|a l IH]; intros H; cbn; [reflexivity|].
  rewrite (H a (or_introl eq_refl)). apply IH. intros x Hx. apply H. now right.
Qed.

Lemma existsb_eqb_sym {A} (eqb : A -> A -> bool) (l : list A) (x a : A) :
  (forall u v, eqb u v = eqb v u) ->
  existsb (eqb a) (l ++ [x]) = existsb (eqb a) l || eqb x a.
Proof.
  intros Hs. rewrite existsb_app. cbn. now rewrite orb_false_r, (Hs a x).
Qed.

Lemma nodupb_add {A} (eqb : A -> A -> bool) (l : list A) (x : A) :
  (forall u v, eqb u v = eqb v u) ->
  nodupb eqb (add x l) = nodupb eqb l && negb (existsb (eqb x) l).
Proof.
  intros Hs. unfold add. induction l as [|a l IH]; cbn; [reflexivity|].
  rewrite IH, existsb_eqb_sym by exact Hs.
  destruct (existsb (eqb a) l), (eqb x a), (nodupb eqb l), (existsb (eqb x) l);
    reflexivity.
Qed.

Lemma existsb_eqb_in (l : list N) (x : N) :
  existsb (N.eqb x) l = false -> ~ In x l.
Proof.
  intros H Hin. rewrite <- not_true_iff_false in H. apply H.
  apply existsb_exists. exists x. split; [exact Hin | apply N.eqb_refl].
Qed.

(** ** Membership checks, read backwards *)

Lemma role_at_least_owner (r : string) : role_at_least r "owner" = true -> r = "owner".
Proof.
  unfold role_at_least, ROLE_HIERARCHY. cbn [dict_get].
  destruct (String.eqb_spec "owner" r) as [<- | _]; [reflexivity|].
  change ("owner" =? "owner") with true. cbn iota.
  destruct ("admin" =? r), ("member" =? r), ("viewer" =? r); discriminate.
Qed.

Lemma check_org_permission_return (db : DB) (user : User.t) (org_id : UUID)
    (required : string) (member : OrganizationMember.t) :
  check_org_permission db user org_id (Some required) = Return member ->
  (exists org, find_organization db org_id = Some org)
  /\ find_member db org_id (User.id user) = Some member
  /\ (str_truthy required = true ->
      role_at_least (OrganizationMember.role member) required = true).
Proof.
  unfold check_org_permission, role_at_least.
  destruct (find_organization db org_id) as [org|]; [|discriminate].
  destruct (find_member db org_id (User.id user)) as [m|]; [|discriminate].
  cbv zeta. destruct (str_truthy required).
  - destruct (_ <? _)%Z eqn:E; [discriminate|]. intros [= <-].
    split; [eauto|]. split; [reflexivity | now rewrite E].
  - intros [= <-]. split; [eauto|]. split; [reflexivity | discriminate].
Qed.

Lemma check_org_owner_return (db : DB) (user : User.t) (org_id : UUID)
    (member : OrganizationMember.t) :
  check_org_owner db user org_id = Return member ->
  (exists org, In org (organizations db) /\ Organization.id org = org_id)
  /\ find_member db org_id (User.id user) = Some member
  /\ OrganizationMember.role member = "owner".
Proof.
  intros H. apply check_org_permission_return in H as ((org & Ho) & Hm & Hr).
  repeat split; [|exact Hm | now apply role_at_least_owner, Hr].
  unfold find_organization in Ho. apply find_some in Ho as (Hin & Hp).
  exists org. split; [exact Hin|].
  apply andb_prop in Hp as (Hid & _). now apply N.eqb_eq.
Qed.

Lemma find_member_some (db : DB) (org_id user_id : UUID) (m : OrganizationMember.t) :
  find_member db org_id user_id = Some m ->
  In m (organization_members db)
  /\ OrganizationMember.organization_id m = org_id
  /\ OrganizationMember.user_id m = user_id.
Proof.
  unfold find_member. intros H. apply find_some in H as (Hin & Hp).
  apply andb_prop in Hp as (Ho & Hu). apply N.eqb_eq in Ho, Hu. auto.
Qed.

(** ** Running a handler

    [mstep] unfolds the session operations along the path taken; [mcase]
    splits on the next test the path depends on. *)

Ltac mstep :=
  cbv beta iota zeta delta
    [run bind call query modify raise ret attr try_except db_commit db_flush
     db_rollback storage_write log_audit];
  cbn [fst snd committed session faults tl hd andb negb].

Ltac mcase :=
  match goal with
  | |- context [match ?x with _ => _ end] =>
    lazymatch x with
    | context [match _ with _ => _ end] => fail
    | _ => destruct x eqn:?
    end
  end.

Ltac mrun := repeat (mstep; try mcase); mstep.

(** ** Ownership *)

Lemma create_organization_cases (org_data : OrganizationCreate.t) (new_id : UUID)
    (current_user : User.t) (fs : list bool) (db : DB) :
  let new_org := Organization.mk new_id (OrganizationCreate.name org_data) None in
  let creator := OrganizationMember.mk new_id (User.id current_user) "owner"
                   (OrganizationCreate.wrapped_org_key org_data) in
  let db' := serve (CreateOrganization org_data new_id current_user) fs db in
  db' = db
  \/ (constraints_ok (with_organizations (add new_org) db) = true
      /\ organizations db' = add new_org (organizations db)
      /\ organization_members db' = add creator (organization_members db)).
Proof.
  cbn [serve]. unfold create_organization.
  mrun; try (now left); right; auto.
Qed.

Lemma remove_member_cases (org_id user_id : UUID) (current_user : User.t)
    (fs : list bool) (db : DB) :
  let db' := serve (RemoveMember org_id user_id current_user) fs db in
  db' = db
  \/ (exists target,
         find_member db org_id user_id = Some target
         /\ (OrganizationMember.role target =? "owner") = false
         /\ organizations db' = organizations db
         /\ organization_members db' =
              remove_first (is_member_row org_id user_id) (organization_members db)).
Proof.
  cbn [serve]. unfold remove_member.
  mrun; try (now left); right; eauto 10.
Qed.

Lemma transfer_ownership_cases (org_id : UUID) (transfer_data : TransferOwnership.t)
    (current_user : User.t) (fs : list bool) (db : DB) :
  let db' := serve (TransferOwnershipTo org_id transfer_data current_user) fs db in
  db' = db
  \/ (exists current_owner new_owner,
         check_org_owner db current_user org_id = Return current_owner
         /\ find_member db org_id (TransferOwnership.new_owner_id transfer_data)
            = Some new_owner
         /\ (OrganizationMember.user_id new_owner =? User.id current_user)%N = false
         /\ organizations db' = organizations db
         /\ organization_members db' =
              update_first
                (is_member_row org_id (TransferOwnership.new_owner_id transfer_data))
                (OrganizationMember.set_role "owner")
                (update_first (is_member_row org_id (User.id current_user))
                   (OrganizationMember.set_role "admin") (organization_members db))).
Proof.
  cbn [serve]. unfold transfer_ownership.
  mrun; try (now left); right; eauto 10.
Qed.

Lemma is_owner_of_set_role (oid : UUID) (r : string) (m : OrganizationMember.t) :
  is_owner_of oid (OrganizationMember.set_role r m)
  = (OrganizationMember.organization_id m =? oid)%N && (r =? "owner").
Proof. reflexivity. Qed.

Lemma in_set_role (p : OrganizationMember.t -> bool) (r : string)
    (l : list OrganizationMember.t) (m : OrganizationMember.t) :
  In m (update_first p (OrganizationMember.set_role r) l) ->
  exists x, In x l
            /\ OrganizationMember.organization_id m = OrganizationMember.organization_id x.
Proof.
  intros H. apply in_update_first in H as [H | (x & H & ->)]; eauto.
Qed.

Lemma constraints_ok_new_organization (db : DB) (o : Organization.t) :
  constraints_ok (with_organizations (add o) db) = true ->
  ~ In (Organization.id o) (map Organization.id (organizations db)).
Proof.
  unfold constraints_ok, with_organizations. cbn [organizations].
  intros H. apply andb_prop in H as (H & _). apply andb_prop in H as (H & _).
  unfold add in H. rewrite map_app in H. cbn [map] in H.
  change (map Organization.id (organizations db) ++ [Organization.id o])%list
    with (add (Organization.id o) (map Organization.id (organizations db))) in H.
  rewrite nodupb_add in H by (intros; apply N.eqb_sym).
  apply andb_prop in H as (_ & H). apply negb_true_iff in H.
  now apply existsb_eqb_in.
Qed.

Lemma create_organization_keeps (org_data : OrganizationCreate.t) (new_id : UUID)
    (current_user : User.t) (fs : list bool) (db : DB) :
  members_reference_organizations db -> single_owner db ->
  members_reference_organizations
    (serve (CreateOrganization org_data new_id current_user) fs db)
  /\ single_owner (serve (CreateOrganization org_data new_id current_user) fs db).
Proof.
  intros Hfk Hso.
  destruct (create_organization_cases org_data new_id current_user fs db)
    as [-> | (Hc & Horgs & Hmem)]; [now split|].
  apply constraints_ok_new_organization in Hc. cbn [Organization.id] in Hc.
  split.
  - intros m Hm. rewrite Hmem in Hm. rewrite Horgs. unfold add in *.
    apply in_app_or in Hm as [Hm | [<- | []]].
    + destruct (Hfk m Hm) as (o & Ho & Hid). exists o. split; [|exact Hid].
      apply in_or_app. now left.
    + eexists. split; [apply in_or_app; right; left; reflexivity | reflexivity].
  - intros o Ho. rewrite Horgs in Ho. unfold owner_count. rewrite Hmem.
    unfold add in *. rewrite filter_app, length_app. cbn [filter].
    apply in_app_or in Ho as [Ho | [<- | []]].
    + assert (Hne : Organization.id o <> new_id).
      { intros Heq. apply Hc. rewrite <- Heq. now apply in_map. }
      unfold is_owner_of at 2. cbn [OrganizationMember.organization_id].
      apply N.eqb_neq in Hne. rewrite N.eqb_sym, Hne. cbn.
      rewrite Nat.add_0_r. now apply Hso.
    + cbn [Organization.id]. unfold is_owner_of at 2.
      cbn [OrganizationMember.organization_id OrganizationMember.role].
      rewrite N.eqb_refl. cbn. rewrite filter_none; [reflexivity|].
      intros m Hm. unfold is_owner_of.
      destruct (N.eqb_spec (OrganizationMember.organization_id m) new_id) as [Heq|];
        [|reflexivity].
      destruct (Hfk m Hm) as (o & Ho & Hid). elim Hc. rewrite <- Heq, <- Hid.
      now apply in_map.
Qed.

Lemma remove_member_keeps (org_id user_id : UUID) (current_user : User.t)
    (fs : list bool) (db : DB) :
  members_reference_organizations db -> single_owner db ->
  members_reference_organizations (serve (RemoveMember org_id user_id current_user) fs db)
  /\ single_owner (serve (RemoveMember org_id user_id current_user) fs db).
Proof.
  intros Hfk Hso.
  destruct (remove_member_cases org_id user_id current_user fs db)
    as [-> | (target & Ht & Hrole & Horgs & Hmem)]; [now split|].
  split.
  - intros m Hm. rewrite Hmem in Hm. rewrite Horgs.
    apply Hfk. now apply in_remove_first in Hm.
  - intros o Ho. rewrite Horgs in Ho. unfold owner_count. rewrite Hmem.
    pose proof (remove_first_count (is_member_row org_id user_id)
                  (is_owner_of (Organization.id o)) _ _ Ht) as Hcount.
    unfold is_owner_of at 2 in Hcount. rewrite Hrole, andb_false_r in Hcount.
    rewrite Nat.add_0_r in Hcount. rewrite Hcount. now apply Hso.
Qed.

Lemma transfer_ownership_keeps (org_id : UUID) (transfer_data : TransferOwnership.t)
    (current_user : User.t) (fs : list bool) (db : DB) :
  members_reference_organizations db -> single_owner db ->
  members_reference_organizations
    (serve (TransferOwnershipTo org_id transfer_data current_user) fs db)
  /\ single_owner (serve (TransferOwnershipTo org_id transfer_data current_user) fs db).
Proof.
  intros Hfk Hso.
  destruct (transfer_ownership_cases org_id transfer_data current_user fs db)
    as [-> | (cur & new & Hc & Hn & Hu & Horgs & Hmem)]; [now split|].
  apply check_org_owner_return in Hc as ((org & Horg & Horgid) & Hcur & Hrole).
  pose proof (find_member_some _ _ _ _ Hcur) as (Hcin & Hco & Hcu).
  pose proof (find_member_some _ _ _ _ Hn) as (Hnin & Hno & Hnu).
  apply N.eqb_neq in Hu.
  set (nid := TransferOwnership.new_owner_id transfer_data) in *.
  assert (Hn1 : find (is_member_row org_id nid)
                  (update_first (is_member_row org_id (User.id current_user))
                     (OrganizationMember.set_role "admin") (organization_members db))
                = Some new).
  { rewrite find_update_first_other; [exact Hn | reflexivity |].
    intros y Hy. unfold is_member_row in *. apply andb_prop in Hy as (_ & Hy).
    apply N.eqb_eq in Hy. apply andb_false_iff. right. apply N.eqb_neq. congruence. }
  split.
  - intros m Hm. rewrite Hmem in Hm. rewrite Horgs.
    apply in_set_role in Hm as (x & Hm & ->).
    apply in_set_role in Hm as (y & Hm & ->). now apply Hfk.
  - intros o Ho. rewrite Horgs in Ho. unfold owner_count. rewrite Hmem.
    pose proof (update_first_count (is_member_row org_id (User.id current_user))
                  (is_owner_of (Organization.id o))
                  (OrganizationMember.set_role "admin") _ _ Hcur) as H1.
    pose proof (update_first_count (is_member_row org_id nid)
                  (is_owner_of (Organization.id o))
                  (OrganizationMember.set_role "owner") _ _ Hn1) as H2.
    rewrite is_owner_of_set_role in H1, H2.
    change ("admin" =? "owner") with false in H1.
    change ("owner" =? "owner") with true in H2.
    rewrite andb_false_r in H1. rewrite andb_true_r in H2.
    specialize (Hso o Ho). unfold owner_count in Hso.
    unfold is_owner_of at 2 in H1. unfold is_owner_of at 2 in H2.
    rewrite Hco, Hrole in H1. rewrite Hno in H2.
    change ("owner" =? "owner") with true in H1. rewrite andb_true_r in H1.
    destruct (N.eqb_spec org_id (Organization.id o)) as [Heq | Hne].
    + assert (Hnr : (OrganizationMember.role new =? "owner") = false).
      { apply not_true_iff_false. intros Hnr.
        assert (2 <= length (filter (is_owner_of (Organization.id o))
                               (organization_members db)))%nat; [|lia].
        apply (filter_two _ _ cur new); trivial.
        - congruence.
        - unfold is_owner_of. rewrite Hco, Heq, N.eqb_refl, Hrole. reflexivity.
        - unfold is_owner_of. rewrite Hno, Heq, N.eqb_refl, Hnr. reflexivity. }
      rewrite Hnr in H2. cbn [andb] in H2. lia.
    + cbn [andb] in H2. lia.
Qed.

Lemma ownership_request_keeps (r : Request) (fs : list bool) (db : DB) :
  ownership_request r = true ->
  members_reference_organizations db -> single_owner db ->
  members_reference_organizations (serve r fs db) /\ single_owner (serve r fs db).
Proof.
  destruct r; cbn [ownership_request]; try discriminate; intros _.
  - apply create_organization_keeps.
  - apply remove_member_keeps.
  - apply transfer_ownership_keeps.
Qed.

Lemma ownership_history_keeps (history : list (Request * list bool)) (db : DB) :
  Forall (fun rf => ownership_request (fst rf) = true) history ->
  members_reference_organizations db -> single_owner db ->
  members_reference_organizations (serve_all history db)
  /\ single_owner (serve_all history db).
Proof.
  unfold serve_all. intros Hall. revert db.
  induction Hall as [|[r fs] history Hr Hall IH]; intros db Hfk Hso; cbn; [now split|].
  destruct (ownership_request_keeps r fs db Hr Hfk Hso) as (Hfk' & Hso').
  now apply IH.
Qed.

Lemma constraints_ok_with_members (f : list OrganizationMember.t -> list OrganizationMember.t)
    (db : DB) :
  constraints_ok (with_members f db) = constraints_ok db.
Proof. reflexivity. Qed.

Lemma foreign_keys_same (organization_ids : list UUID) (l l' : list Account.t) :
  map Account.organization_id l' = map Account.organization_id l ->
  forallb (references_organization organization_ids) l'
  = forallb (references_organization organization_ids) l.
Proof.
  revert l'. induction l as [|a l IH]; intros [|a' l']; cbn; try discriminate; trivial.
  intros [= Ha Hl]. rewrite (IH l' Hl). unfold references_organization.
  now rewrite Ha.
Qed.

Lemma map_update_first_same {A B : Type} (g : A -> B) (p : A -> bool) (f : A -> A)
    (l : list A) :
  (forall x, g (f x) = g x) -> map g (update_first p f l) = map g l.
Proof.
  intros Hg. induction l as [|a l IH]; cbn; [reflexivity|].
  destruct (p a); cbn; [now rewrite Hg | now rewrite IH].
Qed.

(** A change of the accounts that leaves every [organization_id] alone. *)
Lemma constraints_ok_with_accounts (f : list Account.t -> list Account.t) (db : DB) :
  map Account.organization_id (f (accounts db))
  = map Account.organization_id (accounts db) ->
  constraints_ok (with_accounts f db) = constraints_ok db.
Proof.
  intros H. unfold constraints_ok, with_accounts.
  cbn [organizations organization_invitations accounts].
  now rewrite (foreign_keys_same _ _ _ H).
Qed.

Lemma constraints_ok_rekey_accounts (p : Account.t -> bool) (k : string) (db : DB) :
  constraints_ok (with_accounts (update_first p (Account.set_encrypted_dek k)) db)
  = constraints_ok db.
Proof.
  apply constraints_ok_with_accounts. now apply map_update_first_same.
Qed.

Lemma references_organization_add (organization_ids : list UUID) (o : UUID)
    (a : Account.t) :
  references_organization organization_ids a = true ->
  references_organization (add o organization_ids) a = true.
Proof.
  unfold references_organization. destruct (Account.organization_id a); trivial.
  unfold add. rewrite existsb_app. now intros ->.
Qed.

Lemma constraints_ok_with_audit_logs (f : list AuditLog.t -> list AuditLog.t) (db : DB) :
  constraints_ok (with_audit_logs f db) = constraints_ok db.
Proof. reflexivity. Qed.

Lemma constraints_ok_add_organization (o : Organization.t) (db : DB) :
  constraints_ok db = true ->
  constraints_ok (with_organizations (add o) db)
  = negb (existsb (N.eqb (Organization.id o)) (map Organization.id (organizations db))).
Proof.
  unfold constraints_ok, with_organizations.
  cbn [organizations organization_invitations accounts].
  intros H. apply andb_prop in H as (H & Hfk). apply andb_prop in H as (Hid & Htok).
  unfold add at 1 2. rewrite map_app. cbn [map].
  change (map Organization.id (organizations db) ++ [Organization.id o])%list
    with (add (Organization.id o) (map Organization.id (organizations db))).
  rewrite nodupb_add by (intros; apply N.eqb_sym).
  rewrite Hid, Htok.
  assert (Hfk' : forallb (references_organization
                            (add (Organization.id o)
                                 (map Organization.id (organizations db))))
                         (accounts db) = true).
  { apply forallb_forall. intros a Ha. apply references_organization_add.
    revert a Ha. now apply forallb_forall. }
  rewrite Hfk'. now destruct (existsb _ _).
Qed.

Lemma remove_owner_refused (org_id user_id : UUID) (current_user : User.t)
    (fs : list bool) (db : DB) (target : OrganizationMember.t) :
  find_member db org_id user_id = Some target ->
  OrganizationMember.role target = "owner" ->
  exists e, run (remove_member org_id user_id current_user) db fs = (Raise e, db).
Proof.
  intros Ht Hr. unfold remove_member. mstep.
  destruct (check_org_admin db current_user org_id); mstep; [|eauto].
  rewrite Ht. mstep. rewrite Hr. cbn. eauto.
Qed.

Lemma create_organization_run (org_data : OrganizationCreate.t) (new_id : UUID)
    (current_user : User.t) (db : DB) :
  constraints_ok db = true ->
  ~ In new_id (map Organization.id (organizations db)) ->
  organization_members (serve (CreateOrganization org_data new_id current_user) [] db)
  = add (OrganizationMember.mk new_id (User.id current_user) "owner"
           (OrganizationCreate.wrapped_org_key org_data))
        (organization_members db).
Proof.
  intros Hc Hfresh. cbn [serve]. unfold create_organization. mstep.
  rewrite (constraints_ok_add_organization _ _ Hc). cbn [Organization.id].
  assert (Hex : existsb (N.eqb new_id) (map Organization.id (organizations db)) = false).
  { apply not_true_iff_false. intros H. apply existsb_exists in H as (x & Hx & He).
    apply N.eqb_eq in He. now subst. }
  rewrite Hex. mstep.
  rewrite constraints_ok_with_members, (constraints_ok_add_organization _ _ Hc).
  cbn [Organization.id]. rewrite Hex. mstep.
  rewrite constraints_ok_with_audit_logs, constraints_ok_with_members,
    (constraints_ok_add_organization _ _ Hc).
  cbn [Organization.id]. rewrite Hex. mstep.
  reflexivity.
Qed.

(** C2: under create-organization, transfer-ownership and remove-member, every
    organization keeps exactly one owner row: the creator is inserted as
    owner, a transfer changes both roles in one commit or none, and the
    removal of an owner row is refused. *)
Theorem single_owner_invariant :
  (forall (history : list (Request * list bool)) (db : DB),
      Forall (fun rf => ownership_request (fst rf) = true) history ->
      members_reference_organizations db -> single_owner db ->
      single_owner (serve_all history db))
  /\ (forall history : list (Request * list bool),
         Forall (fun rf => ownership_request (fst rf) = true) history ->
         single_owner (serve_all history empty_db))
  /\ (forall org_data new_id current_user db,
         constraints_ok db = true ->
         ~ In new_id (map Organization.id (organizations db)) ->
         organization_members (serve (CreateOrganization org_data new_id current_user) [] db)
         = add (OrganizationMember.mk new_id (User.id current_user) "owner"
                  (OrganizationCreate.wrapped_org_key org_data))
               (organization_members db))
  /\ (forall org_id transfer_data current_user fs db,
         let db' := serve (TransferOwnershipTo org_id transfer_data current_user) fs db in
         organization_members db' = organization_members db
         \/ organization_members db' =
              update_first
                (is_member_row org_id (TransferOwnership.new_owner_id transfer_data))
                (OrganizationMember.set_role "owner")
                (update_first (is_member_row org_id (User.id current_user))
                   (OrganizationMember.set_role "admin") (organization_members db)))
  /\ (forall org_id user_id current_user fs db target,
         find_member db org_id user_id = Some target ->
         OrganizationMember.role target = "owner" ->
         exists e, run (remove_member org_id user_id current_user) db fs = (Raise e, db)).
Proof.
  split; [|split; [|split; [|split]]].
  - intros history db Hall Hfk Hso. now apply ownership_history_keeps.
  - intros history Hall. apply ownership_history_keeps; trivial.
    + intros m [].
    + intros o [].
  - apply create_organization_run.
  - intros org_id transfer_data current_user fs db db'.
    destruct (transfer_ownership_cases org_id transfer_data current_user fs db)
      as [H | (cur & new & _ & _ & _ & _ & H)].
    + left. subst db'. now rewrite H.
    + now right.
  - intros. eapply remove_owner_refused; eassumption.
Qed.

Lemma single_owner_invariant_witness :
  single_owner
    (serve_all
       [(TransferOwnershipTo 10 (TransferOwnership.mk 2) Sample.alice, []);
        (RemoveMember 10 1 Sample.bob, [false; true]);
        (CreateOrganization (OrganizationCreate.mk "Club" "key-carol") 11 Sample.carol, [])]
       Sample.db).
Proof.
  apply (proj1 single_owner_invariant).
  - repeat constructor.
  - intros m [<- | [<- | []]]; exists Sample.family; split; (left + idtac); reflexivity.
  - intros o [<- | []]. reflexivity.
Defined.

(** The three operations are what keeps the count: the role update lets an
    owner change their own role ("Owners can demote themselves to any role"),
    after which the organization has no owner row. *)
Lemma owner_self_demotion :
  let db' := serve (UpdateMemberRole 10 1 (MemberRoleUpdate.mk ADMIN) Sample.alice) []
                   Sample.db in
  owner_count Sample.db 10 = 1%nat /\ owner_count db' 10 = 0%nat.
Proof. vm_compute. split; reflexivity. Qed.

(** ** Accepting an invitation *)

Lemma verify_invitation_token_return (db : DB) (token : string) (now : datetime)
    (invitation : OrganizationInvitation.t) :
  verify_invitation_token db token now = Return invitation ->
  find_invitation db token = Some invitation
  /\ OrganizationInvitation.accepted_at invitation = None
  /\ OrganizationInvitation.rejected_at invitation = None
  /\ now <= OrganizationInvitation.expires_at invitation.
Proof.
  unfold verify_invitation_token, is_set, is_none.
  destruct (find_invitation db token) as [i|]; [|discriminate].
  destruct (OrganizationInvitation.accepted_at i) eqn:Ha; [discriminate|].
  destruct (OrganizationInvitation.rejected_at i) eqn:Hr; [discriminate|].
  cbn [negb]. destruct (Z.ltb_spec (OrganizationInvitation.expires_at i) now);
    [discriminate|].
  intros [= <-]. auto.
Qed.

Lemma find_update_first_same {A} (p : A -> bool) (f : A -> A) (l : list A) (x : A) :
  find p l = Some x -> p (f x) = true -> find p (update_first p f l) = Some (f x).
Proof.
  induction l as [|a l IH]; cbn; [discriminate|].
  destruct (p a) eqn:Hp.
  - intros [= ->] Hf. cbn. now rewrite Hf.
  - intros H Hf. cbn. rewrite Hp. now apply IH.
Qed.

Lemma map_update_first {A B} (g : A -> B) (p : A -> bool) (f : A -> A) (l : list A) :
  (forall x, g (f x) = g x) -> map g (update_first p f l) = map g l.
Proof.
  intros Hg. induction l as [|a l IH]; cbn; [reflexivity|].
  destruct (p a); cbn; [now rewrite Hg | now rewrite IH].
Qed.

Lemma constraints_ok_update_invitation (p : OrganizationInvitation.t -> bool)
    (f : OrganizationInvitation.t -> OrganizationInvitation.t) (db : DB) :
  (forall i, OrganizationInvitation.token (f i) = OrganizationInvitation.token i) ->
  constraints_ok (with_invitations (update_first p f) db) = constraints_ok db.
Proof.
  intros Hf. unfold constraints_ok, with_invitations.
  cbn [organizations organization_invitations].
  now rewrite map_update_first.
Qed.

Lemma accept_invitation_run (db : DB) (token : string) (accept_data : InvitationAccept.t)
    (now : datetime) (current_user : User.t) (invitation : OrganizationInvitation.t) :
  verify_invitation_token db token now = Return invitation ->
  OrganizationInvitation.email invitation = User.email current_user ->
  find_member db (OrganizationInvitation.organization_id invitation)
              (User.id current_user) = None ->
  constraints_ok db = true ->
  exists audit,
    snd (run (accept_invitation token accept_data now current_user) db [])
    = with_audit_logs (add audit)
        (with_invitations
           (update_first (is_token_row token) (OrganizationInvitation.set_accepted_at now))
           (with_members
              (add (OrganizationMember.mk
                      (OrganizationInvitation.organization_id invitation)
                      (User.id current_user)
                      (OrganizationInvitation.role invitation)
                      (InvitationAccept.wrapped_org_key accept_data)))
              db)).
Proof.
  intros Hv He Hm Hc. unfold accept_invitation. mstep.
  rewrite Hv. mstep. rewrite He, String.eqb_refl. mstep.
  rewrite Hm. cbn [is_set is_none negb]. mstep.
  rewrite constraints_ok_update_invitation, constraints_ok_with_members, Hc
    by reflexivity.
  mstep.
  rewrite constraints_ok_with_audit_logs, constraints_ok_update_invitation,
    constraints_ok_with_members, Hc by reflexivity.
  mrun; eexists; reflexivity.
Qed.

(** C7: with a token that passes [verify_invitation_token], accepting fails
    with the 403 unless the invitation's email is the accepter's, fails with
    the 400 when the accepter already has a membership in the organization,
    and otherwise appends one membership with the invitation's role and the
    key of the request body, sets [accepted_at] on the invitation, and
    removes no row: the row of the token then has [accepted_at = now] and is
    otherwise the invitation, and the token is refused as already accepted
    from then on, by the verification and by every accept or reject. *)
Theorem accept_invitation_outcome (db : DB) (token : string)
    (accept_data : InvitationAccept.t) (now : datetime) (current_user : User.t)
    (invitation : OrganizationInvitation.t) :
  verify_invitation_token db token now = Return invitation ->
  (OrganizationInvitation.email invitation <> User.email current_user ->
   forall fs,
     run (accept_invitation token accept_data now current_user) db fs
     = (Raise (HTTPException 403 "This invitation is for a different email address"), db))
  /\ (OrganizationInvitation.email invitation = User.email current_user ->
      forall existing_member fs,
        find_member db (OrganizationInvitation.organization_id invitation)
                    (User.id current_user) = Some existing_member ->
        run (accept_invitation token accept_data now current_user) db fs
        = (Raise (HTTPException 400 "You are already a member of this organization"), db))
  /\ (OrganizationInvitation.email invitation = User.email current_user ->
      find_member db (OrganizationInvitation.organization_id invitation)
                  (User.id current_user) = None ->
      constraints_ok db = true ->
      let db' := snd (run (accept_invitation token accept_data now current_user) db []) in
      organization_members db'
      = (organization_members db
         ++ [OrganizationMember.mk (OrganizationInvitation.organization_id invitation)
               (User.id current_user) (OrganizationInvitation.role invitation)
               (InvitationAccept.wrapped_org_key accept_data)])%list
      /\ organization_invitations db'
         = update_first (is_token_row token) (OrganizationInvitation.set_accepted_at now)
             (organization_invitations db)
      /\ find_invitation db' token
         = Some (OrganizationInvitation.set_accepted_at now invitation)
      /\ length (organization_invitations db') = length (organization_invitations db)
      /\ users db' = users db
      /\ organizations db' = organizations db
      /\ accounts db' = accounts db
      /\ account_permissions db' = account_permissions db
      /\ (exists accepted,
             find_invitation db' token = Some accepted
             /\ OrganizationInvitation.accepted_at accepted = Some now
             /\ OrganizationInvitation.rejected_at accepted = None
             /\ OrganizationInvitation.organization_id accepted
                = OrganizationInvitation.organization_id invitation
             /\ OrganizationInvitation.email accepted
                = OrganizationInvitation.email invitation
             /\ OrganizationInvitation.role accepted
                = OrganizationInvitation.role invitation
             /\ OrganizationInvitation.expires_at accepted
                = OrganizationInvitation.expires_at invitation)
      /\ (forall later,
             verify_invitation_token db' token later
             = Raise (HTTPException 400 "Invitation already accepted"))
      /\ (forall data later user fs,
             run (accept_invitation token data later user) db' fs
             = (Raise (HTTPException 400 "Invitation already accepted"), db'))
      /\ (forall later user fs,
             run (reject_invitation token later user) db' fs
             = (Raise (HTTPException 400 "Invitation already accepted"), db'))).
Proof.
  intros Hv. split; [|split].
  - intros Hne fs. apply eqb_false in Hne.
    unfold accept_invitation. mstep. rewrite Hv. mstep. rewrite Hne. reflexivity.
  - intros He m fs Hm.
    unfold accept_invitation. mstep. rewrite Hv. mstep.
    rewrite He, String.eqb_refl. mstep. rewrite Hm. reflexivity.
  - intros He Hm Hc db'.
    destruct (accept_invitation_run db token accept_data now current_user invitation
                Hv He Hm Hc) as (audit & Hrun).
    subst db'. rewrite Hrun. clear Hrun.
    set (db' := with_audit_logs _ _).
    assert (Hfind : find_invitation db' token
                    = Some (OrganizationInvitation.set_accepted_at now invitation)).
    { apply verify_invitation_token_return in Hv as (Hf & _).
      unfold find_invitation. cbn.
      apply find_update_first_same; [exact Hf|].
      unfold find_invitation in Hf. apply find_some in Hf as (_ & Hf). exact Hf. }
    assert (Hgate : forall later,
               verify_invitation_token db' token later
               = Raise (HTTPException 400 "Invitation already accepted")).
    { intros later. unfold verify_invitation_token. now rewrite Hfind. }
    do 3 (split; [trivial|]).
    split; [apply update_first_length|].
    do 4 (split; [reflexivity|]).
    split; [|split; [exact Hgate|split]].
    + exists (OrganizationInvitation.set_accepted_at now invitation).
      apply verify_invitation_token_return in Hv as (_ & _ & Hr & _).
      repeat split; trivial.
    + intros data later user fs. unfold accept_invitation. mstep.
      now rewrite Hgate.
    + intros later user fs. unfold reject_invitation. mstep.
      now rewrite Hgate.
Qed.

Lemma accept_invitation_outcome_witness :
  let db' :=
    snd (run (accept_invitation "tok-open" (InvitationAccept.mk "key-carol") 1000
                Sample.carol) Sample.db []) in
  organization_members db'
  = [OrganizationMember.mk 10 1 "owner" "key-alice";
     OrganizationMember.mk 10 2 "member" "key-bob";
     OrganizationMember.mk 10 3 "viewer" "key-carol"]
  /\ option_map OrganizationInvitation.accepted_at (find_invitation db' "tok-open")
     = Some (Some 1000)
  /\ verify_invitation_token db' "tok-open" 1001
     = Raise (HTTPException 400 "Invitation already accepted").
Proof.
  destruct (proj2 (proj2 (accept_invitation_outcome Sample.db "tok-open"
                            (InvitationAccept.mk "key-carol") 1000 Sample.carol
                            Sample.open_invitation eq_refl))
              eq_refl eq_refl eq_refl)
    as (Hm & _ & _ & _ & _ & _ & _ & _ & (accepted & Hf & Ha & _) & Hv & _).
  split; [exact Hm|]. split; [|exact (Hv 1001)].
  cbv zeta. rewrite Hf. cbn [option_map]. now rewrite Ha.
Defined.

(** ** Creating an invitation *)


Lemma RoleEnum_of_value (r : RoleEnum) : RoleEnum_of (RoleEnum_value r) = Return r.
Proof. destruct r; reflexivity. Qed.


(** The token: base64 characters of the URL-safe alphabet, padding stripped. *)












(** ** Key rotation *)

Lemma is_set_find_update_first {A} (p p' : A -> bool) (f : A -> A) (l : list A) :
  (forall y, p' (f y) = p' y) ->
  is_set (find p' (update_first p f l)) = is_set (find p' l).
Proof.
  intros Hf. induction l as [|a l IH]; cbn; [reflexivity|].
  destruct (p a); cbn.
  - rewrite Hf. now destruct (p' a).
  - destruct (p' a); [reflexivity | exact IH].
Qed.

Lemma member_hits_cons (db : DB) (org_id : UUID) (d : MemberKeyRotation.t)
    (rest : list MemberKeyRotation.t) :
  member_hits db org_id (d :: rest)
  = (if is_set (find_member db org_id (MemberKeyRotation.user_id d)) then 1 else 0)
    + member_hits db org_id rest.
Proof.
  unfold member_hits. cbn [filter].
  destruct (is_set _); cbn [length]; lia.
Qed.

Lemma member_hits_update (db : DB) (org_id : UUID) (p : OrganizationMember.t -> bool)
    (k : string) (member_keys : list MemberKeyRotation.t) :
  member_hits
    (with_members (update_first p (OrganizationMember.set_wrapped_org_key k)) db)
    org_id member_keys
  = member_hits db org_id member_keys.
Proof.
  unfold member_hits. f_equal. f_equal. apply filter_ext. intros d.
  unfold find_member, with_members. cbn [organization_members].
  now apply is_set_find_update_first.
Qed.

Lemma rotate_member_keys_run (org_id : UUID) (member_keys : list MemberKeyRotation.t)
    (n : Z) (w : World) :
  rotate_member_keys org_id member_keys n w
  = (Return (n + member_hits (session w) org_id member_keys),
     mkWorld (committed w)
             (with_members (rotated_members org_id member_keys) (session w))
             (faults w)).
Proof.
  revert n w. induction member_keys as [|d rest IH]; intros n w.
  - cbn. unfold ret, member_hits. cbn. rewrite Z.add_0_r.
    destruct w as [c s f]. destruct s. reflexivity.
  - cbn [rotate_member_keys]. rewrite member_hits_cons. mstep.
    destruct (find_member (session w) org_id (MemberKeyRotation.user_id d))
      as [m|] eqn:Hm; cbn [is_set is_none negb]; mstep.
    + rewrite IH. cbn [committed session faults].
      rewrite member_hits_update, <- Z.add_assoc. reflexivity.
    + rewrite IH. rewrite Z.add_0_l. f_equal. f_equal.
      unfold with_members, rotated_members. f_equal. cbn [fold_left].
      unfold find_member in Hm. now rewrite (update_first_miss _ _ _ Hm).
Qed.

Lemma account_hits_cons (db : DB) (org_id : UUID) (d : UUID * string)
    (rest : list (UUID * string)) :
  account_hits db org_id (d :: rest)
  = (if is_set (find (is_org_account_row org_id (fst d)) (accounts db)) then 1 else 0)
    + account_hits db org_id rest.
Proof.
  unfold account_hits. cbn [filter].
  destruct (is_set _); cbn [length]; lia.
Qed.

Lemma account_hits_update (db : DB) (org_id : UUID) (p : Account.t -> bool)
    (k : string) (account_deks : list (UUID * string)) :
  account_hits (with_accounts (update_first p (Account.set_encrypted_dek k)) db)
    org_id account_deks
  = account_hits db org_id account_deks.
Proof.
  unfold account_hits. f_equal. f_equal. apply filter_ext. intros d.
  unfold with_accounts. cbn [accounts].
  now apply is_set_find_update_first.
Qed.

(** The second loop: it applies the items before the first key that is not
    the text of a UUID, and raises at that key if there is one. *)
Lemma rotate_account_deks_run (org_id : UUID) (account_deks : list (account_key * string))
    (n : Z) (w : World) :
  rotate_account_deks org_id account_deks n w
  = ((if uuid_keys account_deks
      then Return (n + account_hits (session w) org_id (uuid_items account_deks))
      else Raise StorageError),
     mkWorld (committed w)
             (with_accounts (rotated_accounts org_id (uuid_items account_deks))
                            (session w))
             (faults w)).
Proof.
  revert n w.
  induction account_deks as [|[[account_id|bad] dek] rest IH]; intros n w.
  - cbn. unfold ret, account_hits. cbn. rewrite Z.add_0_r.
    destruct w as [c s f]. destruct s. reflexivity.
  - cbn [rotate_account_deks uuid_items]. rewrite account_hits_cons. cbn [fst].
    unfold uuid_keys. cbn [forallb fst andb]. fold (uuid_keys rest). mstep.
    destruct (find (is_org_account_row org_id account_id) (accounts (session w)))
      as [a|] eqn:Ha; cbn [is_set is_none negb]; mstep.
    + rewrite IH. cbn [committed session faults].
      rewrite account_hits_update, <- Z.add_assoc. reflexivity.
    + rewrite IH. rewrite Z.add_0_l. f_equal. f_equal.
      unfold with_accounts, rotated_accounts. f_equal. cbn [fold_left fst snd].
      now rewrite (update_first_miss _ _ _ Ha).
  - cbn. unfold raise. destruct w as [c s f]. destruct s. reflexivity.
Qed.

Lemma constraints_ok_rotated_accounts (org_id : UUID) (account_deks : list (UUID * string))
    (db : DB) :
  constraints_ok (with_accounts (rotated_accounts org_id account_deks) db)
  = constraints_ok db.
Proof.
  apply constraints_ok_with_accounts. generalize (accounts db).
  induction account_deks as [|[account_id dek] rest IH]; intros l; [reflexivity|].
  etransitivity; [apply IH|]. now apply map_update_first_same.
Qed.

Lemma Forall2_same {A} (R : A -> A -> Prop) (l : list A) :
  (forall x, R x x) -> Forall2 R l l.
Proof. intros HR. induction l; constructor; auto. Qed.

Lemma Forall2_update_first {A} (p : A -> bool) (f : A -> A) (l : list A) :
  Forall2 (fun x y => y = x \/ (p x = true /\ y = f x)) l (update_first p f l).
Proof.
  induction l as [|a l IH]; cbn; [constructor|].
  destruct (p a) eqn:Hp; constructor; auto.
  apply Forall2_same. auto.
Qed.

Lemma Forall2_compose {A} (R S T : A -> A -> Prop) (l1 l2 l3 : list A) :
  (forall a b c, R a b -> S b c -> T a c) ->
  Forall2 R l1 l2 -> Forall2 S l2 l3 -> Forall2 T l1 l3.
Proof.
  intros H H12. revert l3. induction H12 as [|a b l1 l2 Hab _ IH]; intros l3 H23.
  - inversion H23. constructor.
  - inversion H23 as [|b' c l2' l3' Hbc Hrest]; subst. constructor; eauto.
Qed.

Lemma rotated_members_only (org_id : UUID) (member_keys : list MemberKeyRotation.t)
    (members : list OrganizationMember.t) :
  Forall2 (member_rotation org_id member_keys) members
          (rotated_members org_id member_keys members).
Proof.
  revert members. induction member_keys as [|d rest IH]; intros members.
  - apply Forall2_same. intros m. now left.
  - unfold rotated_members. cbn [fold_left]. fold (rotated_members org_id rest).
    eapply Forall2_compose; [| apply Forall2_update_first | apply IH].
    intros m m1 m2 H1 H2. cbv beta in H1.
    destruct H1 as [-> | (Hp & ->)].
    + destruct H2 as [-> | (Ho & d' & Hd' & Hu & ->)]; [now left|].
      right. split; [exact Ho|]. exists d'. repeat split; trivial. now right.
    + unfold is_member_row in Hp. apply andb_prop in Hp as (Ho & Hu).
      apply N.eqb_eq in Ho, Hu.
      destruct H2 as [-> | (_ & d' & Hd' & Hu' & ->)].
      * right. split; [exact Ho|]. exists d. repeat split; auto. now left.
      * right. split; [exact Ho|]. exists d'. repeat split; trivial. now right.
Qed.

Lemma rotated_accounts_only (org_id : UUID) (account_deks : list (UUID * string))
    (accounts : list Account.t) :
  Forall2 (account_rotation org_id account_deks) accounts
          (rotated_accounts org_id account_deks accounts).
Proof.
  revert accounts. induction account_deks as [|[account_id dek] rest IH]; intros accounts.
  - apply Forall2_same. intros a. now left.
  - unfold rotated_accounts. cbn [fold_left fst snd]. fold (rotated_accounts org_id rest).
    eapply Forall2_compose; [| apply Forall2_update_first | apply IH].
    intros a a1 a2 H1 H2. cbv beta in H1.
    destruct H1 as [-> | (Hp & ->)].
    + destruct H2 as [-> | (Ho & Hd & k & Hk & ->)]; [now left|].
      right. repeat split; trivial. exists k. split; [now right | reflexivity].
    + unfold is_org_account_row in Hp.
      apply andb_prop in Hp as (Hp & Hdel). apply andb_prop in Hp as (Hid & Ho).
      apply N.eqb_eq in Hid.
      assert (Ho' : Account.organization_id a = Some org_id).
      { destruct (Account.organization_id a) as [o|]; [|discriminate].
        apply N.eqb_eq in Ho. now subst. }
      assert (Hdel' : Account.deleted_at a = None).
      { destruct (Account.deleted_at a); [discriminate | reflexivity]. }
      destruct H2 as [-> | (_ & _ & k & Hk & ->)].
      * right. repeat split; trivial. exists dek. split; [left; now rewrite Hid | reflexivity].
      * right. repeat split; trivial. exists k. split; [now right | reflexivity].
Qed.

Lemma uuid_items_all (account_deks : list (account_key * string)) :
  uuid_keys account_deks = true ->
  map (fun d => (uuid_str (fst d), snd d)) (uuid_items account_deks) = account_deks.
Proof.
  induction account_deks as [|[[account_id|bad] dek] rest IH]; cbn;
    [reflexivity | | discriminate].
  intros H. now rewrite (IH H).
Qed.

Lemma rotate_organization_keys_run (db : DB) (org_id : UUID)
    (rotation_data : KeyRotationRequest.t) (now : datetime) (current_user : User.t)
    (owner : OrganizationMember.t) :
  check_org_owner db current_user org_id = Return owner ->
  constraints_ok db = true ->
  uuid_keys (KeyRotationRequest.account_deks rotation_data) = true ->
  let account_deks := uuid_items (KeyRotationRequest.account_deks rotation_data) in
  run (rotate_organization_keys org_id rotation_data now current_user) db []
  = (Return (KeyRotationResponse.mk "success"
               (account_hits db org_id account_deks)
               (member_hits db org_id (KeyRotationRequest.member_keys rotation_data))
               now),
     with_audit_logs
       (add (AuditLog.mk org_id (User.id current_user) "keys_rotated"
               (Some "organization")
               [("accounts_updated", JInt (account_hits db org_id account_deks));
                ("members_updated",
                 JInt (member_hits db org_id
                         (KeyRotationRequest.member_keys rotation_data)))]))
       (with_accounts
          (rotated_accounts org_id account_deks)
          (with_members
             (rotated_members org_id (KeyRotationRequest.member_keys rotation_data))
             db))).
Proof.
  intros Ho Hc Hk account_deks. subst account_deks.
  pose proof Ho as Ho'. apply check_org_permission_return in Ho' as ((org & Horg) & _).
  unfold rotate_organization_keys. mstep. rewrite Ho. mstep. rewrite Horg. mstep.
  rewrite rotate_member_keys_run. cbn [committed session faults]. mstep.
  rewrite rotate_account_deks_run, Hk. cbn [committed session faults]. mstep.
  rewrite constraints_ok_rotated_accounts, constraints_ok_with_members, Hc. mstep.
  rewrite constraints_ok_with_audit_logs, constraints_ok_rotated_accounts,
    constraints_ok_with_members, Hc. mstep.
  rewrite !Z.add_0_l. reflexivity.
Qed.

(** A key of [account_deks] that is not the text of a UUID: the loop raises
    at it, the handler rolls back and answers 500. *)
Lemma rotate_organization_keys_bad_key (db : DB) (org_id : UUID)
    (rotation_data : KeyRotationRequest.t) (now : datetime) (current_user : User.t)
    (owner : OrganizationMember.t) (fs : list bool) :
  check_org_owner db current_user org_id = Return owner ->
  uuid_keys (KeyRotationRequest.account_deks rotation_data) = false ->
  run (rotate_organization_keys org_id rotation_data now current_user) db fs
  = (Raise (HTTPException 500 "Key rotation failed: storage error"), db).
Proof.
  intros Ho Hk.
  pose proof Ho as Ho'. apply check_org_permission_return in Ho' as ((org & Horg) & _).
  unfold rotate_organization_keys. mstep. rewrite Ho. mstep. rewrite Horg. mstep.
  rewrite rotate_member_keys_run. cbn [committed session faults]. mstep.
  rewrite rotate_account_deks_run, Hk. cbn [committed session faults]. mstep.
  reflexivity.
Qed.

Lemma rotate_organization_keys_commit_fault (db : DB) (org_id : UUID)
    (rotation_data : KeyRotationRequest.t) (now : datetime) (current_user : User.t)
    (fs : list bool) :
  raised (fst (run (rotate_organization_keys org_id rotation_data now current_user)
                 db (true :: fs))) = true
  /\ snd (run (rotate_organization_keys org_id rotation_data now current_user)
            db (true :: fs)) = db.
Proof.
  unfold rotate_organization_keys. mstep.
  destruct (check_org_owner db current_user org_id); mstep; [|now split].
  destruct (find_organization db org_id); mstep; [|now split].
  rewrite rotate_member_keys_run. cbn [committed session faults]. mstep.
  rewrite rotate_account_deks_run. cbn [committed session faults].
  destruct (uuid_keys _); mstep; now split.
Qed.

(** C4, as the code has it: after the owner check, and when every key of
    [account_deks] is the text of a UUID, every supplied update is applied to
    its row when the row is found (a membership of this organization; a live
    account of this organization) and skipped otherwise, without failing; the
    counts are the numbers of updates that found their row; the updates
    become durable in one commit.  A key of [account_deks] that is not the
    text of a UUID is no miss: the call fails with 500 and nothing is
    changed, whatever else was supplied.  When the commit of the updates
    fails, the call fails and nothing is changed. *)
Theorem rotate_organization_keys_outcome (db : DB) (org_id : UUID)
    (rotation_data : KeyRotationRequest.t) (now : datetime) (current_user : User.t)
    (owner : OrganizationMember.t) :
  check_org_owner db current_user org_id = Return owner ->
  constraints_ok db = true ->
  let member_keys := KeyRotationRequest.member_keys rotation_data in
  let account_deks := uuid_items (KeyRotationRequest.account_deks rotation_data) in
  let outcome := run (rotate_organization_keys org_id rotation_data now current_user) db [] in
  (uuid_keys (KeyRotationRequest.account_deks rotation_data) = true ->
   map (fun d => (uuid_str (fst d), snd d)) account_deks
   = KeyRotationRequest.account_deks rotation_data
   /\ fst outcome = Return (KeyRotationResponse.mk "success"
                              (account_hits db org_id account_deks)
                              (member_hits db org_id member_keys) now)
   /\ organization_members (snd outcome)
      = rotated_members org_id member_keys (organization_members db)
   /\ accounts (snd outcome) = rotated_accounts org_id account_deks (accounts db)
   /\ Forall2 (member_rotation org_id member_keys)
              (organization_members db) (organization_members (snd outcome))
   /\ Forall2 (account_rotation org_id account_deks)
              (accounts db) (accounts (snd outcome)))
  /\ (uuid_keys (KeyRotationRequest.account_deks rotation_data) = false ->
      forall fs,
        run (rotate_organization_keys org_id rotation_data now current_user) db fs
        = (Raise (HTTPException 500 "Key rotation failed: storage error"), db))
  /\ (forall fs,
         raised (fst (run (rotate_organization_keys org_id rotation_data now current_user)
                        db (true :: fs))) = true
         /\ snd (run (rotate_organization_keys org_id rotation_data now current_user)
                   db (true :: fs)) = db).
Proof.
  intros Ho Hc member_keys account_deks outcome. split; [|split].
  - intros Hk. subst outcome account_deks.
    rewrite (rotate_organization_keys_run _ _ _ _ _ _ Ho Hc Hk).
    cbn [fst snd].
    cbn [organization_members accounts with_audit_logs with_accounts with_members].
    repeat split.
    + now apply uuid_items_all.
    + apply rotated_members_only.
    + apply rotated_accounts_only.
  - intros Hk fs. now apply (rotate_organization_keys_bad_key _ _ _ _ _ owner).
  - apply rotate_organization_keys_commit_fault.
Qed.

Lemma rotate_organization_keys_outcome_witness :
  fst (run (rotate_organization_keys 10 Sample.rotation 1000 Sample.alice) Sample.db [])
  = Return (KeyRotationResponse.mk "success" 1 1 1000)
  /\ run (rotate_organization_keys 10 Sample.bad_rotation 1000 Sample.alice) Sample.db []
     = (Raise (HTTPException 500 "Key rotation failed: storage error"), Sample.db).
Proof.
  split.
  - exact (proj1 (proj2 (proj1 (rotate_organization_keys_outcome Sample.db 10
                                  Sample.rotation 1000 Sample.alice
                                  (OrganizationMember.mk 10 1 "owner" "key-alice")
                                  eq_refl eq_refl)
                           eq_refl))).
  - exact (proj1 (proj2 (rotate_organization_keys_outcome Sample.db 10
                           Sample.bad_rotation 1000 Sample.alice
                           (OrganizationMember.mk 10 1 "owner" "key-alice")
                           eq_refl eq_refl))
             eq_refl []).
Defined.

(** C4, against the atomicity it states: the rotation reports a failure
    although the keys have been replaced, when the audit write fails after
    the commit of the updates. *)
Lemma rotate_organization_keys_not_atomic :
  let outcome :=
    run (rotate_organization_keys 10 Sample.rotation 1000 Sample.alice) Sample.db
        [false; true] in
  fst outcome = Raise (HTTPException 500 "Key rotation failed: storage error")
  /\ map OrganizationMember.wrapped_org_key (organization_members (snd outcome))
     = ["key-alice-2"; "key-bob"]
  /\ organization_members (snd outcome) <> organization_members Sample.db
  /\ map Account.encrypted_dek (accounts (snd outcome)) = [Some "dek-1"]
  /\ accounts (snd outcome) <> accounts Sample.db.
Proof. vm_compute. repeat split; discriminate. Qed.

(** ** The audit trail *)









(** * Behaviour of the handlers *)

(** ** Roles and levels *)

Lemma permission_level_nonneg (p : string) : 0 <= permission_level p.
Proof.
  unfold permission_level, PERMISSION_HIERARCHY. cbn [dict_get].
  destruct ("full" =? p), ("edit" =? p), ("view" =? p); lia.
Qed.

Lemma role_at_least_admin (r : string) :
  role_at_least r "admin" = true -> r = "owner" \/ r = "admin".
Proof.
  unfold role_at_least, ROLE_HIERARCHY. cbn [dict_get].
  destruct (String.eqb_spec "owner" r) as [<- | _]; [now left|].
  destruct (String.eqb_spec "admin" r) as [<- | _]; [now right|].
  change ("owner" =? "admin") with false. change ("admin" =? "admin") with true.
  cbn iota.
  destruct ("member" =? r), ("viewer" =? r); discriminate.
Qed.

Lemma check_org_permission_none (db : DB) (user : User.t) (org_id : UUID)
    (required : option string) (member : OrganizationMember.t) :
  check_org_permission db user org_id required = Return member ->
  (exists org, find_organization db org_id = Some org)
  /\ find_member db org_id (User.id user) = Some member.
Proof.
  unfold check_org_permission.
  destruct (find_organization db org_id) as [org|]; [|discriminate].
  destruct (find_member db org_id (User.id user)) as [m|]; [|discriminate].
  destruct required as [required|].
  - cbv zeta. destruct (str_truthy required).
    + destruct (_ <? _)%Z; [discriminate|]. intros [= <-]. eauto.
    + intros [= <-]. eauto.
  - intros [= <-]. eauto.
Qed.

(** X1: the role requirement of [check_org_permission] is monotone: a call
    that returns the membership for a required role returns the same
    membership for every role of the same or a lower level and for the plain
    membership check.  So whoever passes [check_org_owner] passes
    [check_org_admin]. *)
Theorem check_org_permission_monotone (db : DB) (user : User.t) (org_id : UUID)
    (required weaker : string) (member : OrganizationMember.t) :
  role_level weaker <= role_level required ->
  check_org_permission db user org_id (Some required) = Return member ->
  check_org_permission db user org_id (Some weaker) = Return member
  /\ check_org_permission db user org_id None = Return member.
Proof.
  intros Hle H.
  destruct (check_org_permission_return _ _ _ _ _ H) as ((org & Horg) & Hm & Hlevel).
  unfold check_org_permission. rewrite Horg, Hm. split; [|reflexivity].
  cbv zeta. destruct (str_truthy weaker); [|reflexivity].
  fold (role_level (OrganizationMember.role member)). fold (role_level weaker).
  destruct (_ <? _)%Z eqn:E; [|reflexivity].
  apply Z.ltb_lt in E. exfalso.
  pose proof (role_level_nonneg (OrganizationMember.role member)) as Hnn.
  destruct (str_truthy required) eqn:Et.
  - specialize (Hlevel eq_refl). rewrite role_at_least_level in Hlevel.
    apply Z.geb_le in Hlevel. lia.
  - unfold str_truthy in Et. apply negb_false_iff, eqb_true in Et. subst required.
    change (role_level "") with 0 in Hle. lia.
Qed.

Lemma check_org_permission_monotone_witness :
  check_org_permission Sample.db Sample.alice 10 (Some "admin")
    = Return (OrganizationMember.mk 10 1 "owner" "key-alice")
  /\ check_org_permission Sample.db Sample.alice 10 None
     = Return (OrganizationMember.mk 10 1 "owner" "key-alice").
Proof.
  apply (check_org_permission_monotone Sample.db Sample.alice 10 "owner" "admin").
  - vm_compute. discriminate.
  - reflexivity.
Defined.

(** ** The account resolver *)

Lemma explicit_grants_monotone (p : option AccountPermission.t) (required weaker : string) :
  permission_level weaker <= permission_level required ->
  explicit_grants p required = true -> explicit_grants p weaker = true.
Proof.
  unfold explicit_grants. destruct p as [p|]; [|discriminate]. cbv zeta.
  fold (permission_level (AccountPermission.permission p)).
  fold (permission_level required). fold (permission_level weaker).
  rewrite !Z.geb_le. lia.
Qed.

Lemma default_grants_monotone (account : Account.t) (required weaker : string) :
  permission_level weaker <= permission_level required ->
  default_grants account required = true -> default_grants account weaker = true.
Proof.
  unfold default_grants. destruct (str_truthy _); [|discriminate]. cbv zeta.
  fold (permission_level (Account.default_permission account)).
  fold (permission_level required). fold (permission_level weaker).
  rewrite !Z.geb_le. lia.
Qed.

(** X2: access to an account is monotone in the permission asked: a user
    [check_account_permission] grants [required] is granted every permission
    among full, edit and view whose level is not above it. *)
Theorem check_account_permission_monotone (db : DB) (user : User.t) (account_id : UUID)
    (required weaker : string) :
  known_permission weaker = true ->
  permission_level weaker <= permission_level required ->
  check_account_permission db user account_id required = Return true ->
  check_account_permission db user account_id weaker = Return true.
Proof.
  intros Hk Hle. unfold check_account_permission.
  destruct (find_account db account_id) as [account|]; [|discriminate].
  destruct (Account.organization_id account) as [o|]; [|trivial].
  destruct (find_member db o (User.id user)) as [member|]; [|discriminate].
  destruct (str_in (OrganizationMember.role member) ["owner"; "admin"]); [trivial|].
  destruct (explicit_grants _ required) eqn:Ee.
  - now rewrite (explicit_grants_monotone _ _ _ Hle Ee).
  - destruct (explicit_grants _ weaker); [trivial|].
    destruct (default_grants account required) eqn:Ed.
    + now rewrite (default_grants_monotone _ _ _ Hle Ed).
    + destruct (default_grants account weaker); [trivial|].
      destruct ((OrganizationMember.role member =? "viewer") && (required =? "view"))
        eqn:Ev; [|discriminate].
      apply andb_true_iff in Ev. destruct Ev as [Ev1 Ev2]. apply eqb_true in Ev2.
      subst required. change (permission_level "view") with 1 in Hle.
      destruct (known_permission_cases _ Hk) as [-> | [-> | ->]];
        [vm_compute in Hle; now elim Hle.. |].
      now rewrite Ev1.
Qed.

Lemma check_account_permission_monotone_witness :
  check_account_permission Sample.db Sample.bob 100 "view" = Return true.
Proof.
  apply (check_account_permission_monotone Sample.db Sample.bob 100 "full" "view");
    [reflexivity | vm_compute; discriminate | reflexivity].
Defined.

(** X3: an account id whose rows are all soft-deleted (or that has no row)
    gives the 404 to every user and every permission asked.  A personal
    account (no organization) is granted to its user and refused with the 403
    to everybody else, whatever permission is asked; memberships and
    [AccountPermission] rows play no part: the outcome is the same in every
    database with the same accounts table. *)
Theorem check_account_permission_personal (db : DB) (user : User.t) (account_id : UUID)
    (required_permission : string) :
  ((forall a, In a (accounts db) -> Account.id a = account_id ->
              Account.deleted_at a <> None) ->
   check_account_permission db user account_id required_permission
   = Raise (HTTPException 404 "Account not found"))
  /\ (forall account,
         find_account db account_id = Some account ->
         Account.organization_id account = None ->
         (Account.user_id account = User.id user ->
          check_account_permission db user account_id required_permission = Return true)
         /\ (Account.user_id account <> User.id user ->
             check_account_permission db user account_id required_permission
             = Raise (PermissionError "Access denied to this account"))
         /\ forall db',
              accounts db' = accounts db ->
              check_account_permission db' user account_id required_permission
              = check_account_permission db user account_id required_permission).
Proof.
  split.
  - intros Hdel. unfold check_account_permission.
    replace (find_account db account_id) with (@None Account.t); [reflexivity|].
    symmetry. apply find_none_iff. intros a Ha.
    destruct (N.eqb_spec (Account.id a) account_id) as [E|]; [|reflexivity].
    specialize (Hdel a Ha E). destruct (Account.deleted_at a); [reflexivity | now elim Hdel].
  - intros account Hf Ho. unfold check_account_permission. rewrite Hf, Ho.
    repeat split.
    + intros ->. now rewrite N.eqb_refl.
    + intros Hne. apply N.eqb_neq in Hne. now rewrite Hne.
    + intros db' Hacc. unfold find_account. rewrite Hacc.
      fold (find_account db account_id). now rewrite Hf, Ho.
Qed.

Lemma check_account_permission_personal_witness :
  check_account_permission
    (with_accounts (add (Account.mk 200 2 None "view" None None)) Sample.db)
    Sample.alice 200 "view"
  = Raise (PermissionError "Access denied to this account").
Proof.
  exact (proj1 (proj2 (proj2 (check_account_permission_personal
                                (with_accounts (add (Account.mk 200 2 None "view" None None))
                                               Sample.db)
                                Sample.alice 200 "view")
                             (Account.mk 200 2 None "view" None None) eq_refl eq_refl))
               ltac:(discriminate)).
Defined.

(** ** Managing members *)

Lemma can_manage_member_true (manager target : OrganizationMember.t) (b : bool) :
  can_manage_member manager target = Return b -> b = true.
Proof.
  unfold can_manage_member.
  repeat match goal with |- context [if ?c then _ else _] => destruct c end;
    congruence.
Qed.

Lemma validate_role_transition_return (current_role new_role actor_role : string) (b : bool) :
  validate_role_transition current_role new_role actor_role = Return b ->
  (new_role =? "owner") = false.
Proof.
  unfold validate_role_transition. destruct (new_role =? "owner"); [discriminate|reflexivity].
Qed.

Lemma update_member_role_cases (org_id user_id : UUID) (role_data : MemberRoleUpdate.t)
    (current_user : User.t) (fs : list bool) (db : DB) :
  let db' := snd (run (update_member_role org_id user_id role_data current_user) db fs) in
  db' = db
  \/ (exists manager target,
         check_org_admin db current_user org_id = Return manager
         /\ find_member db org_id user_id = Some target
         /\ can_manage_member manager target = Return true
         /\ (RoleEnum_value (MemberRoleUpdate.role role_data) =? "owner") = false
         /\ organizations db' = organizations db
         /\ accounts db' = accounts db
         /\ organization_invitations db' = organization_invitations db
         /\ organization_members db' =
              update_first (is_member_row org_id user_id)
                (OrganizationMember.set_role
                   (RoleEnum_value (MemberRoleUpdate.role role_data)))
                (organization_members db)).
Proof.
  unfold update_member_role.
  mrun; try (now left); right;
    repeat match goal with
           | H : can_manage_member _ _ = Return ?b |- _ =>
             is_var b; pose proof (can_manage_member_true _ _ _ H); subst b
           | H : validate_role_transition _ _ _ = Return _ |- _ =>
             apply validate_role_transition_return in H
           end;
    eauto 12.
Qed.

Lemma update_member_role_owner_count (org_id user_id : UUID)
    (role_data : MemberRoleUpdate.t) (current_user : User.t) (fs : list bool) (db : DB)
    (o : UUID) :
  (owner_count (snd (run (update_member_role org_id user_id role_data current_user) db fs)) o
   <= owner_count db o)%nat.
Proof.
  destruct (update_member_role_cases org_id user_id role_data current_user fs db)
    as [-> | (manager & target & _ & Ht & _ & Hr & _ & _ & _ & Hm)]; [lia|].
  unfold owner_count. rewrite Hm.
  pose proof (update_first_count (is_member_row org_id user_id) (is_owner_of o)
                (OrganizationMember.set_role
                   (RoleEnum_value (MemberRoleUpdate.role role_data)))
                (organization_members db) target Ht) as Hc.
  rewrite is_owner_of_set_role, Hr, andb_false_r in Hc.
  destruct (is_owner_of o target); lia.
Qed.

Lemma check_org_admin_not_owner (db : DB) (user : User.t) (org_id : UUID)
    (manager : OrganizationMember.t) :
  check_org_admin db user org_id = Return manager ->
  OrganizationMember.role manager <> "owner" ->
  OrganizationMember.role manager = "admin".
Proof.
  intros H Hne. apply check_org_permission_return in H. destruct H as (_ & _ & H).
  destruct (role_at_least_admin _ (H eq_refl)); congruence.
Qed.

Lemma admin_manages (manager target : OrganizationMember.t) :
  OrganizationMember.role manager = "admin" ->
  str_in (OrganizationMember.role target) ["owner"; "admin"] = true ->
  can_manage_member manager target
  = Raise (PermissionError "Admins cannot modify owners or other admins").
Proof.
  intros Hm Ht. unfold can_manage_member. rewrite Hm, Ht. reflexivity.
Qed.

(** X4: a manager who passes the admin check with a role other than owner
    can neither change the role of an owner or an admin nor remove one:
    [update_member_role] raises the 403 of [can_manage_member],
    [remove_member] raises the 400 for an owner and that 403 for an admin,
    and the database is left as it was, whatever the storage does. *)
Theorem admin_cannot_manage_admins (db : DB) (org_id user_id : UUID) (current_user : User.t)
    (manager target : OrganizationMember.t) :
  check_org_admin db current_user org_id = Return manager ->
  OrganizationMember.role manager <> "owner" ->
  find_member db org_id user_id = Some target ->
  str_in (OrganizationMember.role target) ["owner"; "admin"] = true ->
  (forall role_data fs,
      run (update_member_role org_id user_id role_data current_user) db fs
      = (Raise (PermissionError "Admins cannot modify owners or other admins"), db))
  /\ (forall fs,
         run (remove_member org_id user_id current_user) db fs
         = (Raise (if OrganizationMember.role target =? "owner"
                   then HTTPException 400 "Cannot remove owner. Transfer ownership first."
                   else PermissionError "Admins cannot modify owners or other admins"),
            db)).
Proof.
  intros Hc Hne Hf Ht.
  pose proof (admin_manages manager target (check_org_admin_not_owner _ _ _ _ Hc Hne) Ht)
    as Hcan.
  split.
  - intros role_data fs. unfold update_member_role. mstep. rewrite Hc. mstep.
    rewrite Hf. mstep. rewrite Hcan. reflexivity.
  - intros fs. unfold remove_member. mstep. rewrite Hc. mstep. rewrite Hf. mstep.
    destruct (OrganizationMember.role target =? "owner"); mstep; [reflexivity|].
    rewrite Hcan. reflexivity.
Qed.

Lemma admin_cannot_manage_admins_witness :
  run (remove_member 10 1 Sample.bob)
      (with_members (update_first (is_member_row 10 2) (OrganizationMember.set_role "admin"))
                    Sample.db)
      []
  = (Raise (HTTPException 400 "Cannot remove owner. Transfer ownership first."),
     with_members (update_first (is_member_row 10 2) (OrganizationMember.set_role "admin"))
                  Sample.db).
Proof.
  exact (proj2 (admin_cannot_manage_admins
                  (with_members (update_first (is_member_row 10 2)
                                   (OrganizationMember.set_role "admin")) Sample.db)
                  10 1 Sample.bob
                  (OrganizationMember.mk 10 2 "admin" "key-bob")
                  (OrganizationMember.mk 10 1 "owner" "key-alice")
                  eq_refl ltac:(discriminate) eq_refl eq_refl) []).
Defined.

(** X5: nobody removes their own membership: [remove_member] called with the
    caller's own id always raises and leaves the database as it was. *)
Theorem remove_member_never_self (org_id : UUID) (current_user : User.t) (fs : list bool)
    (db : DB) :
  exists e,
    run (remove_member org_id (User.id current_user) current_user) db fs = (Raise e, db).
Proof.
  unfold remove_member. mstep.
  destruct (check_org_admin db current_user org_id) as [manager|e] eqn:Hc; mstep; [|eauto].
  destruct (check_org_permission_return _ _ _ _ _ Hc) as (_ & Hf & _).
  rewrite Hf. mstep.
  destruct (OrganizationMember.role manager =? "owner") eqn:Er; mstep; [eauto|].
  apply eqb_false in Er.
  rewrite (admin_manages manager manager (check_org_admin_not_owner _ _ _ _ Hc Er)).
  - eauto.
  - now rewrite (check_org_admin_not_owner _ _ _ _ Hc Er).
Qed.

Lemma is_member_row_set_role (org_id user_id : UUID) (r : string) (m : OrganizationMember.t) :
  is_member_row org_id user_id (OrganizationMember.set_role r m) = is_member_row org_id user_id m.
Proof. reflexivity. Qed.

Lemma is_member_row_other (org_id user_id user_id' : UUID) (m : OrganizationMember.t) :
  user_id <> user_id' ->
  is_member_row org_id user_id m = true -> is_member_row org_id user_id' m = false.
Proof.
  unfold is_member_row. intros Hne H. apply andb_true_iff in H. destruct H as [_ H].
  apply N.eqb_eq in H. rewrite H. apply N.eqb_neq in Hne. rewrite Hne.
  apply andb_false_r.
Qed.

Lemma transfer_ownership_return (org_id : UUID) (transfer_data : TransferOwnership.t)
    (current_user : User.t) (fs : list bool) (db db' : DB)
    (response : OrganizationMemberResponse.t) :
  run (transfer_ownership org_id transfer_data current_user) db fs = (Return response, db') ->
  exists current_owner new_owner,
    check_org_owner db current_user org_id = Return current_owner
    /\ find_member db org_id (TransferOwnership.new_owner_id transfer_data) = Some new_owner
    /\ (OrganizationMember.user_id new_owner =? User.id current_user)%N = false
    /\ organizations db' = organizations db
    /\ organization_members db' =
         update_first
           (is_member_row org_id (TransferOwnership.new_owner_id transfer_data))
           (OrganizationMember.set_role "owner")
           (update_first (is_member_row org_id (User.id current_user))
              (OrganizationMember.set_role "admin") (organization_members db)).
Proof.
  unfold transfer_ownership.
  mrun; intros [= <- <-]; eauto 10.
Qed.

(** X6: when [transfer_ownership] returns, the rights have moved: the new
    owner passes [check_org_owner] with role owner, the previous owner fails
    it with the 403 and passes [check_org_admin] with role admin. *)
Theorem transfer_ownership_rights (org_id : UUID) (transfer_data : TransferOwnership.t)
    (current_user : User.t) (fs : list bool) (db db' : DB)
    (response : OrganizationMemberResponse.t) :
  run (transfer_ownership org_id transfer_data current_user) db fs = (Return response, db') ->
  (forall new_owner_user,
      User.id new_owner_user = TransferOwnership.new_owner_id transfer_data ->
      exists member,
        check_org_owner db' new_owner_user org_id = Return member
        /\ OrganizationMember.role member = "owner")
  /\ check_org_owner db' current_user org_id
     = Raise (PermissionError "Insufficient permissions. Required role: owner")
  /\ (exists member,
         check_org_admin db' current_user org_id = Return member
         /\ OrganizationMember.role member = "admin").
Proof.
  intros H.
  destruct (transfer_ownership_return _ _ _ _ _ _ _ H)
    as (current_owner & new_owner & Hc & Hf & Hne & Horgs & Hm).
  destruct (check_org_permission_return _ _ _ _ _ Hc) as ((org & Horg) & Hcur & _).
  destruct (find_member_some _ _ _ _ Hf) as (_ & _ & Hid).
  rewrite Hid in Hne. apply N.eqb_neq in Hne.
  assert (Horg' : find_organization db' org_id = Some org)
    by (unfold find_organization; rewrite Horgs; exact Horg).
  assert (Hnew : find_member db' org_id (TransferOwnership.new_owner_id transfer_data)
                 = Some (OrganizationMember.set_role "owner" new_owner)).
  { unfold find_member. rewrite Hm. apply find_update_first_same.
    - rewrite find_update_first_other; trivial.
      intros y Hy. apply (is_member_row_other _ _ _ _ (not_eq_sym Hne) Hy).
    - apply find_some in Hf. apply Hf. }
  assert (Hold : find_member db' org_id (User.id current_user)
                 = Some (OrganizationMember.set_role "admin" current_owner)).
  { unfold find_member. rewrite Hm. rewrite find_update_first_other; trivial.
    - apply find_update_first_same; trivial. apply find_some in Hcur. apply Hcur.
    - intros y Hy. apply (is_member_row_other _ _ _ _ Hne Hy). }
  repeat split.
  - intros u Hu. exists (OrganizationMember.set_role "owner" new_owner).
    unfold check_org_owner, check_org_permission. rewrite Horg', Hu, Hnew. now split.
  - unfold check_org_owner, check_org_permission. rewrite Horg', Hold. reflexivity.
  - exists (OrganizationMember.set_role "admin" current_owner).
    unfold check_org_admin, check_org_permission. rewrite Horg', Hold. now split.
Qed.

Lemma transfer_ownership_rights_witness :
  check_org_owner
    (snd (run (transfer_ownership 10 (TransferOwnership.mk 2) Sample.alice) Sample.db []))
    Sample.alice 10
  = Raise (PermissionError "Insufficient permissions. Required role: owner").
Proof.
  exact (proj1 (proj2 (transfer_ownership_rights 10 (TransferOwnership.mk 2) Sample.alice []
                         Sample.db _ _ eq_refl))).
Defined.

Lemma find_remove_first_other {A} (p p' : A -> bool) (l : list A) :
  (forall y, p y = true -> p' y = false) ->
  find p' (remove_first p l) = find p' l.
Proof.
  intros H. induction l as [|x l IH]; cbn; [reflexivity|].
  destruct (p x) eqn:E.
  - now rewrite (H x E).
  - cbn. now rewrite IH.
Qed.

Lemma find_remove_first_unique {A} (p : A -> bool) (l : list A) :
  length (filter p l) = 1%nat -> find p (remove_first p l) = None.
Proof.
  induction l as [|x l IH]; cbn; [discriminate|].
  destruct (p x) eqn:E; cbn.
  - intros [= H]. apply find_none_iff. intros y Hy.
    destruct (p y) eqn:Ey; [|reflexivity].
    assert (In y (filter p l)) by (apply filter_In; now split).
    destruct (filter p l); [contradiction | discriminate].
  - rewrite E. exact IH.
Qed.

Lemma remove_member_return (org_id user_id : UUID) (current_user : User.t)
    (fs : list bool) (db db' : DB) :
  run (remove_member org_id user_id current_user) db fs = (Return tt, db') ->
  exists manager target,
    check_org_admin db current_user org_id = Return manager
    /\ find_member db org_id user_id = Some target
    /\ organizations db' = organizations db
    /\ organization_members db' =
         remove_first (is_member_row org_id user_id) (organization_members db).
Proof.
  unfold remove_member.
  mrun; intros [= <-]; eauto 10.
Qed.

(** X7: when [remove_member] returns and the pair (organization, user) had
    one membership row, as the unique constraint of the schema has it, every
    membership check of the removed user on that organization raises the 403
    "not a member", and the checks of every other pair (organization, user)
    give what they gave before. *)
Theorem remove_member_revokes (org_id user_id : UUID) (current_user : User.t)
    (fs : list bool) (db db' : DB) :
  run (remove_member org_id user_id current_user) db fs = (Return tt, db') ->
  length (filter (is_member_row org_id user_id) (organization_members db)) = 1%nat ->
  (forall user required_role,
      User.id user = user_id ->
      check_org_permission db' user org_id required_role
      = Raise (PermissionError "You are not a member of this organization"))
  /\ (forall user o required_role,
         o <> org_id \/ User.id user <> user_id ->
         check_org_permission db' user o required_role
         = check_org_permission db user o required_role).
Proof.
  intros H Hone.
  destruct (remove_member_return _ _ _ _ _ _ H) as (manager & target & Hc & Hf & Horgs & Hm).
  destruct (check_org_permission_return _ _ _ _ _ Hc) as ((org & Horg) & _ & _).
  split.
  - intros user required_role Hu. unfold check_org_permission, find_organization, find_member.
    rewrite Horgs, Hm, Hu. fold (find_organization db org_id). rewrite Horg.
    now rewrite find_remove_first_unique.
  - intros user o required_role Hne.
    unfold check_org_permission, find_organization, find_member.
    rewrite Horgs, Hm. rewrite find_remove_first_other; [reflexivity|].
    intros y Hy. unfold is_member_row in *. apply andb_true_iff in Hy.
    destruct Hy as [Hy1 Hy2]. apply N.eqb_eq in Hy1, Hy2. rewrite Hy1, Hy2.
    apply andb_false_iff. destruct Hne as [Hne | Hne]; [left | right];
      apply N.eqb_neq; congruence.
Qed.

Lemma remove_member_revokes_witness :
  check_org_permission
    (snd (run (remove_member 10 2 Sample.alice) Sample.db [])) Sample.bob 10 None
  = Raise (PermissionError "You are not a member of this organization").
Proof.
  exact (proj1 (remove_member_revokes 10 2 Sample.alice [] Sample.db _ eq_refl eq_refl)
               Sample.bob None eq_refl).
Defined.

(** ** The soft delete of an organization *)

Lemma constraints_ok_update_organization (p : Organization.t -> bool)
    (f : Organization.t -> Organization.t) (db : DB) :
  (forall o, Organization.id (f o) = Organization.id o) ->
  constraints_ok (with_organizations (update_first p f) db) = constraints_ok db.
Proof.
  intros Hf. unfold constraints_ok, with_organizations.
  cbn [organizations organization_invitations accounts].
  now rewrite map_update_first.
Qed.

Lemma constraints_ok_soft_delete_accounts (p : Account.t -> bool) (now : datetime)
    (db : DB) :
  constraints_ok
    (with_accounts
       (map (fun account => if p account then set_account_deleted_at now account
                            else account)) db)
  = constraints_ok db.
Proof.
  apply constraints_ok_with_accounts. rewrite map_map. apply map_ext.
  intros a. now destruct (p a).
Qed.

Lemma find_live_organization_deleted (org_id : UUID) (now : datetime)
    (l : list Organization.t) :
  nodupb N.eqb (map Organization.id l) = true ->
  find (is_live_organization org_id)
       (update_first (is_live_organization org_id) (set_organization_deleted_at now) l)
  = None.
Proof.
  induction l as [|x l IH]; cbn [map nodupb update_first]; [reflexivity|].
  intros H. apply andb_true_iff in H. destruct H as [Hx Hl].
  destruct (is_live_organization org_id x) eqn:E; cbn [find].
  - unfold is_live_organization at 1. cbn [set_organization_deleted_at Organization.deleted_at is_none].
    rewrite andb_false_r. apply find_none_iff. intros y Hy.
    unfold is_live_organization in *. apply andb_true_iff in E. destruct E as [E _].
    apply N.eqb_eq in E. apply negb_true_iff, existsb_eqb_in in Hx.
    destruct (N.eqb_spec (Organization.id y) org_id) as [Ey|]; [|reflexivity].
    exfalso. apply Hx. rewrite E, <- Ey. now apply in_map.
  - rewrite E. now apply IH.
Qed.

Lemma delete_organization_run (db : DB) (org_id : UUID) (now : datetime)
    (current_user : User.t) (owner : OrganizationMember.t) (org : Organization.t) :
  check_org_owner db current_user org_id = Return owner ->
  find_organization db org_id = Some org ->
  constraints_ok db = true ->
  run (delete_organization org_id now current_user) db []
  = (Return tt,
     with_audit_logs
       (add (AuditLog.mk (Organization.id org) (User.id current_user) "org_deleted"
               (Some "organization")
               [("name", JStr (Organization.name org));
                ("accounts_deleted", JInt (get_org_account_count db org_id))]))
       (with_accounts
          (map (fun account =>
                  if is_live_account_of org_id account
                  then set_account_deleted_at now account
                  else account))
          (with_organizations
             (update_first (is_live_organization org_id)
                (set_organization_deleted_at now))
             db))).
Proof.
  intros Ho Horg Hc.
  unfold delete_organization. mstep. rewrite Ho. mstep. rewrite Horg. mstep.
  rewrite constraints_ok_with_audit_logs, constraints_ok_soft_delete_accounts,
    constraints_ok_update_organization, Hc by reflexivity.
  mstep.
  rewrite constraints_ok_with_audit_logs, constraints_ok_soft_delete_accounts,
    constraints_ok_update_organization, Hc by reflexivity.
  reflexivity.
Qed.

(** X8: [delete_organization], called by the owner on a storage that takes
    the writes, returns and leaves the organization soft-deleted: every
    membership check on it gives the 404 to every user, it has no live
    account left ([get_org_account_count] is 0), its live accounts got a
    [deleted_at] and every other account row is untouched, memberships,
    permissions and invitations are kept as they were, and the audit trail
    gains one [org_deleted] entry whose [accounts_deleted] is the account count
    before the call. *)
Theorem delete_organization_outcome (db : DB) (org_id : UUID) (now : datetime)
    (current_user : User.t) (owner : OrganizationMember.t) :
  check_org_owner db current_user org_id = Return owner ->
  constraints_ok db = true ->
  let outcome := run (delete_organization org_id now current_user) db [] in
  let db' := snd outcome in
  fst outcome = Return tt
  /\ (forall user required_role,
         check_org_permission db' user org_id required_role
         = Raise (HTTPException 404 "Organization not found"))
  /\ get_org_account_count db' org_id = 0
  /\ (forall a, In a (accounts db') -> Account.organization_id a = Some org_id ->
                Account.deleted_at a <> None)
  /\ Forall2 (fun a a' =>
                (is_live_account_of org_id a = false /\ a' = a)
                \/ (is_live_account_of org_id a = true
                    /\ exists d, a' = set_account_deleted_at d a))
             (accounts db) (accounts db')
  /\ users db' = users db
  /\ organization_members db' = organization_members db
  /\ account_permissions db' = account_permissions db
  /\ organization_invitations db' = organization_invitations db
  /\ exists org,
       find_organization db org_id = Some org
       /\ audit_logs db'
          = (audit_logs db
             ++ [AuditLog.mk org_id (User.id current_user) "org_deleted"
                   (Some "organization")
                   [("name", JStr (Organization.name org));
                    ("accounts_deleted", JInt (get_org_account_count db org_id))]])%list.
Proof.
  intros Ho Hc.
  destruct (check_org_permission_return _ _ _ _ _ Ho) as ((org & Horg) & _ & _).
  cbv zeta. rewrite (delete_organization_run db org_id now current_user owner org Ho Horg Hc).
  cbn [fst snd].
  assert (Hid : Organization.id org = org_id).
  { unfold find_organization in Horg. apply find_some in Horg. destruct Horg as [_ H].
    apply andb_true_iff in H. destruct H as [H _]. now apply N.eqb_eq in H. }
  assert (Hlive : forall a,
             is_live_account_of org_id
               (if is_live_account_of org_id a then set_account_deleted_at now a else a)
             = false).
  { intros a. destruct (is_live_account_of org_id a) eqn:E; [|exact E].
    unfold is_live_account_of. cbn [set_account_deleted_at Account.deleted_at is_none].
    apply andb_false_r. }
  split; [reflexivity|]. split; [|split; [|split; [|split]]].
  - intros user required_role. unfold check_org_permission, find_organization.
    cbn [with_audit_logs with_accounts with_organizations organizations].
    unfold constraints_ok in Hc. apply andb_true_iff in Hc. destruct Hc as [Hc _].
    apply andb_true_iff in Hc. destruct Hc as [Hc _].
    change (fun o : Organization.t =>
              (Organization.id o =? org_id)%N && is_none (Organization.deleted_at o))
      with (is_live_organization org_id).
    now rewrite find_live_organization_deleted.
  - unfold get_org_account_count.
    cbn [with_audit_logs with_accounts with_organizations accounts].
    rewrite filter_none; [reflexivity|].
    intros a Ha. apply in_map_iff in Ha. destruct Ha as (a0 & <- & _). apply Hlive.
  - cbn [with_audit_logs with_accounts with_organizations accounts].
    intros a Ha Hoa. apply in_map_iff in Ha. destruct Ha as (a0 & <- & _).
    specialize (Hlive a0). revert Hoa Hlive.
    set (a1 := if is_live_account_of org_id a0 then _ else _). clearbody a1.
    unfold is_live_account_of. intros ->. rewrite N.eqb_refl. cbn [andb].
    destruct (Account.deleted_at a1); [discriminate | discriminate].
  - cbn [with_audit_logs with_accounts with_organizations accounts].
    induction (accounts db) as [|a l IH]; cbn [map]; constructor; [|exact IH].
    destruct (is_live_account_of org_id a); [right | left]; eauto.
  - do 4 (split; [reflexivity|]). exists org. split; [exact Horg|]. now rewrite Hid.
Qed.

Lemma delete_organization_outcome_witness :
  check_org_permission
    (snd (run (delete_organization 10 900 Sample.alice) Sample.db [])) Sample.bob 10 None
  = Raise (HTTPException 404 "Organization not found").
Proof.
  exact (proj1 (proj2 (delete_organization_outcome Sample.db 10 900 Sample.alice
                         (OrganizationMember.mk 10 1 "owner" "key-alice")
                         eq_refl eq_refl))
               Sample.bob None).
Defined.

(** X9: [delete_organization] calls [log_audit] before its own commit, so
    the deletion and its audit entry become durable together: under any
    storage faults the database after the call is the one before or the
    soft-deleted one with its audit entry; a fault of the first write leaves
    it unchanged; and when only the handler's own last commit fails the call
    raises although everything is already durable. *)
Theorem delete_organization_atomic (db : DB) (org_id : UUID) (now : datetime)
    (current_user : User.t) :
  let deleted org :=
    with_audit_logs
      (add (AuditLog.mk (Organization.id org) (User.id current_user) "org_deleted"
              (Some "organization")
              [("name", JStr (Organization.name org));
               ("accounts_deleted", JInt (get_org_account_count db org_id))]))
      (with_accounts
         (map (fun account =>
                 if is_live_account_of org_id account
                 then set_account_deleted_at now account
                 else account))
         (with_organizations
            (update_first (is_live_organization org_id)
               (set_organization_deleted_at now))
            db)) in
  (forall fs,
      let db' := snd (run (delete_organization org_id now current_user) db fs) in
      db' = db
      \/ exists org, find_organization db org_id = Some org /\ db' = deleted org)
  /\ (forall fs,
         raised (fst (run (delete_organization org_id now current_user) db (true :: fs)))
         = true
         /\ snd (run (delete_organization org_id now current_user) db (true :: fs)) = db)
  /\ (forall owner org,
         check_org_owner db current_user org_id = Return owner ->
         find_organization db org_id = Some org ->
         constraints_ok db = true ->
         run (delete_organization org_id now current_user) db [false; true]
         = (Raise StorageError, deleted org)).
Proof.
  cbv zeta. split; [|split].
  - intros fs. unfold delete_organization. mstep.
    destruct (check_org_owner db current_user org_id); mstep; [|now left].
    destruct (find_organization db org_id) as [org|]; mstep; [|now left].
    destruct fs as [|[|] fs]; mstep; try (now left);
      rewrite constraints_ok_with_audit_logs, constraints_ok_soft_delete_accounts,
        constraints_ok_update_organization by reflexivity;
      (destruct (constraints_ok db) eqn:Hc; mstep; [|now left]).
    + rewrite constraints_ok_with_audit_logs, constraints_ok_soft_delete_accounts,
        constraints_ok_update_organization, Hc by reflexivity.
      right. eauto.
    + right. destruct fs as [|[|] fs]; mstep; eauto;
        rewrite constraints_ok_with_audit_logs, constraints_ok_soft_delete_accounts,
          constraints_ok_update_organization, Hc by reflexivity;
        eauto.
  - intros fs. unfold delete_organization. mstep.
    destruct (check_org_owner db current_user org_id); mstep; [|now split].
    destruct (find_organization db org_id) as [org|]; mstep; now split.
  - intros owner org Ho Horg Hc.
    unfold delete_organization. mstep. rewrite Ho. mstep. rewrite Horg. mstep.
    rewrite constraints_ok_with_audit_logs, constraints_ok_soft_delete_accounts,
      constraints_ok_update_organization, Hc by reflexivity.
    reflexivity.
Qed.

Lemma delete_organization_atomic_witness :
  run (delete_organization 10 900 Sample.alice) Sample.db [false; true]
  = (Raise StorageError, snd (run (delete_organization 10 900 Sample.alice) Sample.db [])).
Proof.
  exact (proj2 (proj2 (delete_organization_atomic Sample.db 10 900 Sample.alice))
               (OrganizationMember.mk 10 1 "owner" "key-alice") Sample.family
               eq_refl eq_refl eq_refl).
Defined.

(** ** Pages of the audit log *)

Lemma in_firstn {A} (n : nat) (l : list A) (x : A) : In x (firstn n l) -> In x l.
Proof. intros H. rewrite <- (firstn_skipn n l). apply in_or_app. now left. Qed.

Lemma in_skipn {A} (n : nat) (l : list A) (x : A) : In x (skipn n l) -> In x l.
Proof. intros H. rewrite <- (firstn_skipn n l). apply in_or_app. now right. Qed.

Lemma firstn_add {A} (a b : nat) (l : list A) :
  firstn (a + b) l = (firstn a l ++ firstn b (skipn a l))%list.
Proof.
  revert l. induction a as [|a IH]; intros l; [reflexivity|].
  destruct l as [|x l]; cbn.
  - now destruct b.
  - now rewrite IH.
Qed.

Lemma in_outerjoin_user (db : DB) (log : AuditLog.t) (row : AuditLog.t * option User.t) :
  In row (outerjoin_user db log) -> fst row = log.
Proof.
  unfold outerjoin_user.
  destruct (filter _ (users db)) as [|u us].
  - intros [<- | []]. reflexivity.
  - intros H. apply in_map_iff in H. destruct H as (u' & <- & _). reflexivity.
Qed.

Lemma get_audit_logs_run (db : DB) (org_id : UUID) (page page_size : Z)
    (current_user : User.t) (fs : list bool) (manager : OrganizationMember.t) :
  check_org_admin db current_user org_id = Return manager ->
  let page' := if (page <? 1)%Z then 1 else page in
  let page_size' :=
    if (page_size <? 1)%Z || (page_size >? 100)%Z then 50 else page_size in
  run (get_audit_logs org_id page page_size current_user) db fs
  = (Return
       (AuditLogList.mk
          (map audit_log_response
               (limit page_size' (offset ((page' - 1) * page_size') (audit_entries db org_id))))
          (Z.of_nat (length (filter (fun l => (AuditLog.organization_id l =? org_id)%N)
                                    (audit_logs db))))
          page' page_size'),
     db).
Proof.
  intros Hc. unfold get_audit_logs. mstep. rewrite Hc. reflexivity.
Qed.

(** X10: a page of [get_audit_logs]: the request changes nothing and returns
    only to a caller that passes the admin check; the page number returned is
    at least 1 and is the one asked when that is at least 1; the page size
    returned is the one asked when that is between 1 and 100 and 50 otherwise;
    the page holds at most that many entries (hence at most 100), each built
    from an audit row of the organization asked; [total] counts all audit
    rows of that organization. *)
Theorem get_audit_logs_bounds (db db' : DB) (org_id : UUID) (page page_size : Z)
    (current_user : User.t) (fs : list bool) (response : AuditLogList.t) :
  run (get_audit_logs org_id page page_size current_user) db fs = (Return response, db') ->
  db' = db
  /\ (exists manager, check_org_admin db current_user org_id = Return manager)
  /\ 1 <= AuditLogList.page response
  /\ 1 <= AuditLogList.page_size response <= 100
  /\ (1 <= page -> AuditLogList.page response = page)
  /\ (1 <= page_size <= 100 -> AuditLogList.page_size response = page_size)
  /\ (page_size < 1 \/ 100 < page_size -> AuditLogList.page_size response = 50)
  /\ (length (AuditLogList.logs response) <= Z.to_nat (AuditLogList.page_size response))%nat
  /\ AuditLogList.total response
     = Z.of_nat (length (filter (fun l => (AuditLog.organization_id l =? org_id)%N)
                                (audit_logs db)))
  /\ exists rows,
       AuditLogList.logs response = map audit_log_response rows
       /\ Forall (fun row => In (fst row) (audit_logs db)
                             /\ AuditLog.organization_id (fst row) = org_id) rows.
Proof.
  destruct (check_org_admin db current_user org_id) as [manager|e] eqn:Hc.
  - rewrite (get_audit_logs_run db org_id page page_size current_user fs manager Hc).
    cbv zeta. intros [= <- <-]. cbn [AuditLogList.page AuditLogList.page_size
                                      AuditLogList.logs AuditLogList.total].
    split; [reflexivity|]. split; [eauto|].
    split; [destruct (Z.ltb_spec page 1); lia|].
    split; [destruct (Z.ltb_spec page_size 1), (Z.gtb_spec page_size 100); cbn [orb]; lia|].
    split; [destruct (Z.ltb_spec page 1); lia|].
    split; [destruct (Z.ltb_spec page_size 1), (Z.gtb_spec page_size 100); cbn [orb]; lia|].
    split; [destruct (Z.ltb_spec page_size 1), (Z.gtb_spec page_size 100); cbn [orb]; lia|].
    split; [rewrite length_map; apply firstn_le_length|].
    split; [reflexivity|].
    eexists. split; [reflexivity|].
    apply Forall_forall. intros row Hrow.
    apply in_firstn, in_skipn in Hrow. unfold audit_entries in Hrow.
    apply in_flat_map in Hrow. destruct Hrow as (log & Hlog & Hrow).
    apply in_outerjoin_user in Hrow. rewrite Hrow.
    unfold order_by_created_at_desc in Hlog. apply in_rev, filter_In in Hlog.
    destruct Hlog as [Hin Ho]. apply N.eqb_eq in Ho. now split.
  - unfold get_audit_logs. mstep. rewrite Hc. discriminate.
Qed.

Lemma get_audit_logs_bounds_witness :
  exists response,
    run (get_audit_logs 10 0 500 Sample.alice) Sample.db [] = (Return response, Sample.db)
    /\ AuditLogList.page response = 1
    /\ AuditLogList.page_size response = 50.
Proof.
  eexists. split; [reflexivity|].
  pose proof (get_audit_logs_bounds Sample.db Sample.db 10 0 500 Sample.alice [] _ eq_refl)
    as (_ & _ & _ & _ & _ & _ & Hsize & _).
  split; [reflexivity|]. apply Hsize. right. lia.
Defined.

(** X11: the pages of [get_audit_logs] tile the log: for an admin and a page
    size between 1 and 100, pages 1 to [n] read one after the other are the
    first [n * page_size] entries of the organization's log, newest first, in
    order, none repeated and none skipped. *)
Theorem get_audit_logs_pages_tile (db : DB) (org_id : UUID) (current_user : User.t)
    (manager : OrganizationMember.t) (page_size : Z) (n : nat) :
  check_org_admin db current_user org_id = Return manager ->
  1 <= page_size <= 100 ->
  concat (map (fun k => audit_page db org_id current_user page_size (Z.of_nat k + 1))
              (seq 0 n))
  = map audit_log_response (firstn (n * Z.to_nat page_size) (audit_entries db org_id)).
Proof.
  intros Hc Hps.
  assert (Hpage : forall k,
             audit_page db org_id current_user page_size (Z.of_nat k + 1)
             = map audit_log_response
                 (firstn (Z.to_nat page_size)
                    (skipn (k * Z.to_nat page_size) (audit_entries db org_id)))).
  { intros k. unfold audit_page.
    rewrite (get_audit_logs_run db org_id _ page_size current_user [] manager Hc).
    cbv zeta. cbn [fst AuditLogList.logs].
    destruct (Z.ltb_spec (Z.of_nat k + 1) 1); [lia|].
    destruct (Z.ltb_spec page_size 1); [lia|].
    destruct (Z.gtb_spec page_size 100); [lia|]. cbn [orb].
    unfold limit, offset. do 3 f_equal. nia. }
  induction n as [|n IH]; [reflexivity|].
  rewrite seq_S, map_app, concat_app, IH. cbn [map concat Nat.add].
  rewrite Hpage, app_nil_r, <- map_app. f_equal.
  replace (S n * Z.to_nat page_size)%nat with (n * Z.to_nat page_size + Z.to_nat page_size)%nat
    by lia.
  now rewrite firstn_add.
Qed.

Lemma get_audit_logs_pages_tile_witness :
  concat (map (fun k => audit_page Sample.db 10 Sample.alice 2 (Z.of_nat k + 1)) (seq 0 3))
  = map audit_log_response (firstn (3 * Z.to_nat 2) (audit_entries Sample.db 10)).
Proof.
  apply (get_audit_logs_pages_tile Sample.db 10 Sample.alice
           (OrganizationMember.mk 10 1 "owner" "key-alice") 2 3); [reflexivity | lia].
Defined.

(** ** Rejecting an invitation *)

Lemma reject_invitation_run (db : DB) (token : string) (now : datetime)
    (current_user : User.t) (invitation : OrganizationInvitation.t) :
  verify_invitation_token db token now = Return invitation ->
  OrganizationInvitation.email invitation = User.email current_user ->
  constraints_ok db = true ->
  exists audit,
    snd (run (reject_invitation token now current_user) db [])
    = with_audit_logs (add audit)
        (with_invitations
           (update_first (is_token_row token) (OrganizationInvitation.set_rejected_at now))
           db).
Proof.
  intros Hv He Hc. unfold reject_invitation. mstep.
  rewrite Hv. mstep. rewrite He, String.eqb_refl. mstep.
  rewrite constraints_ok_update_invitation, Hc by reflexivity.
  mstep.
  rewrite constraints_ok_with_audit_logs, constraints_ok_update_invitation, Hc
    by reflexivity.
  mrun; eexists; reflexivity.
Qed.

(** X12: [reject_invitation] with a token that passes the gate: a caller
    whose email is not the invitation's gets the 403 and nothing changes;
    otherwise (storage taking the writes) the invitation row gets
    [rejected_at], no membership is created and no other table changes, and
    from then on every [accept_invitation] and [reject_invitation] with that
    token raises the 400 "Invitation was rejected" without changing
    anything. *)
Theorem reject_invitation_outcome (db : DB) (token : string) (now : datetime)
    (current_user : User.t) (invitation : OrganizationInvitation.t) :
  verify_invitation_token db token now = Return invitation ->
  (OrganizationInvitation.email invitation <> User.email current_user ->
   forall fs,
     run (reject_invitation token now current_user) db fs
     = (Raise (HTTPException 403 "This invitation is for a different email address"), db))
  /\ (OrganizationInvitation.email invitation = User.email current_user ->
      constraints_ok db = true ->
      let db' := snd (run (reject_invitation token now current_user) db []) in
      organization_invitations db'
      = update_first (is_token_row token) (OrganizationInvitation.set_rejected_at now)
          (organization_invitations db)
      /\ find_invitation db' token
         = Some (OrganizationInvitation.set_rejected_at now invitation)
      /\ organization_members db' = organization_members db
      /\ users db' = users db
      /\ organizations db' = organizations db
      /\ accounts db' = accounts db
      /\ account_permissions db' = account_permissions db
      /\ (forall accept_data later user fs,
             run (accept_invitation token accept_data later user) db' fs
             = (Raise (HTTPException 400 "Invitation was rejected"), db'))
      /\ (forall later user fs,
             run (reject_invitation token later user) db' fs
             = (Raise (HTTPException 400 "Invitation was rejected"), db'))).
Proof.
  intros Hv. split.
  - intros Hne fs. apply eqb_false in Hne.
    unfold reject_invitation. mstep. rewrite Hv. mstep. rewrite Hne. reflexivity.
  - intros He Hc db'.
    destruct (reject_invitation_run db token now current_user invitation Hv He Hc)
      as (audit & Hrun).
    subst db'. rewrite Hrun. cbn [with_audit_logs with_invitations organization_invitations
      organization_members users organizations accounts account_permissions].
    apply verify_invitation_token_return in Hv as (Hf & Ha & _).
    assert (Hfind : find_invitation
                      (with_audit_logs (add audit)
                         (with_invitations
                            (update_first (is_token_row token)
                               (OrganizationInvitation.set_rejected_at now)) db)) token
                    = Some (OrganizationInvitation.set_rejected_at now invitation)).
    { unfold find_invitation. cbn [with_audit_logs with_invitations organization_invitations].
      apply find_update_first_same; [exact Hf|].
      unfold find_invitation in Hf. apply find_some in Hf as (_ & Hf). exact Hf. }
    assert (Hverify : forall later,
               verify_invitation_token
                 (with_audit_logs (add audit)
                    (with_invitations
                       (update_first (is_token_row token)
                          (OrganizationInvitation.set_rejected_at now)) db)) token later
               = Raise (HTTPException 400 "Invitation was rejected")).
    { intros later. unfold verify_invitation_token. rewrite Hfind.
      cbn [OrganizationInvitation.set_rejected_at OrganizationInvitation.accepted_at
           OrganizationInvitation.rejected_at].
      rewrite Ha. reflexivity. }
    split; [reflexivity|]. split; [exact Hfind|]. do 5 (split; [reflexivity|]).
    split.
    + intros accept_data later user fs. unfold accept_invitation. mstep.
      rewrite Hverify. reflexivity.
    + intros later user fs. unfold reject_invitation. mstep.
      rewrite Hverify. reflexivity.
Qed.

Lemma reject_invitation_outcome_witness :
  run (accept_invitation "tok-open" (InvitationAccept.mk "key-carol") 2000 Sample.carol)
      (snd (run (reject_invitation "tok-open" 1000 Sample.carol) Sample.db [])) []
  = (Raise (HTTPException 400 "Invitation was rejected"),
     snd (run (reject_invitation "tok-open" 1000 Sample.carol) Sample.db [])).
Proof.
  exact (proj1 (proj2 (proj2 (proj2 (proj2 (proj2 (proj2 (proj2
           (proj2 (reject_invitation_outcome Sample.db "tok-open" 1000 Sample.carol
                     Sample.open_invitation eq_refl)
                  eq_refl eq_refl))))))))
           (InvitationAccept.mk "key-carol") 2000 Sample.carol []).
Defined.

(** ** The two markers of an invitation *)

Lemma in_update_first_found {A} (p : A -> bool) (f : A -> A) (l : list A) (y : A) :
  In y (update_first p f l) -> In y l \/ exists x, find p l = Some x /\ y = f x.
Proof.
  induction l as [|x l IH]; cbn; [tauto|].
  destruct (p x) eqn:E; cbn.
  - intros [<- | H]; eauto.
  - intros [<- | H]; [auto|]. destruct (IH H) as [?|(z & ? & ?)]; eauto.
Qed.

Lemma accept_invitation_cases (token : string) (accept_data : InvitationAccept.t)
    (now : datetime) (current_user : User.t) (fs : list bool) (db : DB) :
  let db' := snd (run (accept_invitation token accept_data now current_user) db fs) in
  organization_invitations db' = organization_invitations db
  \/ (exists invitation,
         verify_invitation_token db token now = Return invitation
         /\ organization_invitations db'
            = update_first (is_token_row token) (OrganizationInvitation.set_accepted_at now)
                (organization_invitations db)).
Proof.
  unfold accept_invitation.
  mrun; try (now left); right; eauto.
Qed.

Lemma reject_invitation_cases (token : string) (now : datetime) (current_user : User.t)
    (fs : list bool) (db : DB) :
  let db' := snd (run (reject_invitation token now current_user) db fs) in
  organization_invitations db' = organization_invitations db
  \/ (exists invitation,
         verify_invitation_token db token now = Return invitation
         /\ organization_invitations db'
            = update_first (is_token_row token) (OrganizationInvitation.set_rejected_at now)
                (organization_invitations db)).
Proof.
  unfold reject_invitation.
  mrun; try (now left); right; eauto.
Qed.

Lemma exclusive_same (db db' : DB) :
  organization_invitations db' = organization_invitations db ->
  exclusive db -> exclusive db'.
Proof. unfold exclusive. intros ->. trivial. Qed.

Lemma exclusive_serve (r : Request) (fs : list bool) (db : DB) :
  exclusive db -> exclusive (serve r fs db).
Proof.
  assert (Haudit : forall f d, exclusive d -> exclusive (with_audit_logs f d))
    by (intros f d; now apply exclusive_same).
  assert (Hmem : forall f d, exclusive d -> exclusive (with_members f d))
    by (intros f d; now apply exclusive_same).
  assert (Hacc : forall f d, exclusive d -> exclusive (with_accounts f d))
    by (intros f d; now apply exclusive_same).
  assert (Horg : forall f d, exclusive d -> exclusive (with_organizations f d))
    by (intros f d; now apply exclusive_same).
  intros He. destruct r; cbn [serve].
  - apply preserves_run; trivial. unfold create_organization.
    repeat first [apply preserves_log_audit; [exact Haudit] | preserve_step]; auto.
  - apply preserves_run; trivial. unfold put_member_role, update_member_role.
    repeat first [apply preserves_log_audit; [exact Haudit] | preserve_step]; auto.
  - apply preserves_run; trivial. unfold remove_member.
    repeat first [apply preserves_log_audit; [exact Haudit] | preserve_step]; auto.
  - apply preserves_run; trivial. unfold transfer_ownership.
    repeat first [apply preserves_log_audit; [exact Haudit] | preserve_step]; auto.
  - apply preserves_run; trivial. unfold rotate_organization_keys.
    repeat first [apply preserves_log_audit; [exact Haudit]
                 | apply preserves_rotate_member_keys; [exact Hmem]
                 | apply preserves_rotate_account_deks; [exact Hacc]
                 | preserve_step]; auto.
  - apply preserves_run; trivial. unfold post_invitation, create_invitation.
    repeat first [apply preserves_log_audit; [exact Haudit] | preserve_step]; auto.
    intros d Hd i Hi. cbn [with_invitations organization_invitations] in Hi.
    unfold add in Hi. apply in_app_or in Hi. destruct Hi as [Hi | [<- | []]]; [auto|].
    now left.
  - destruct (accept_invitation_cases token accept_data now current_user fs db)
      as [Hs | (invitation & Hv & Hs)]; [now apply (exclusive_same db)|].
    apply verify_invitation_token_return in Hv as (Hf & _ & Hr & _).
    intros i Hi. rewrite Hs in Hi. apply in_update_first_found in Hi.
    destruct Hi as [Hi | (x & Hx & ->)]; [auto|].
    unfold find_invitation in Hf. unfold is_token_row in Hx.
    rewrite Hf in Hx. injection Hx as <-. now right.
  - destruct (reject_invitation_cases token now current_user fs db)
      as [Hs | (invitation & Hv & Hs)]; [now apply (exclusive_same db)|].
    apply verify_invitation_token_return in Hv as (Hf & Ha & _ & _).
    intros i Hi. rewrite Hs in Hi. apply in_update_first_found in Hi.
    destruct Hi as [Hi | (x & Hx & ->)]; [auto|].
    unfold find_invitation in Hf. unfold is_token_row in Hx.
    rewrite Hf in Hx. injection Hx as <-. now left.
Qed.

(** X13: the two markers of an invitation exclude each other: from a database
    where no invitation has both [accepted_at] and [rejected_at], no history
    of requests (under any storage faults) produces an invitation that has
    both. *)
Theorem invitation_markers_exclusive (history : list (Request * list bool)) (db : DB) :
  exclusive db -> exclusive (serve_all history db).
Proof.
  unfold serve_all. revert db.
  induction history as [|[r fs] history IH]; intros db He; cbn [fold_left]; [exact He|].
  apply IH. cbn [fst snd]. now apply exclusive_serve.
Qed.

Lemma invitation_markers_exclusive_witness :
  exclusive
    (serve_all [(RejectInvitation "tok-open" 1000 Sample.carol, []);
                (AcceptInvitation "tok-open" (InvitationAccept.mk "key-carol") 1001
                   Sample.carol, [])]
               Sample.db).
Proof.
  apply invitation_markers_exclusive.
  intros i [<- | [<- | []]]; [now right | now left].
Defined.

(** ** Listing one's invitations *)

Lemma find_unique {A B} (key : A -> B) (eqb : B -> B -> bool) (l : list A) (x : A) :
  (forall a b, eqb a b = true <-> a = b) ->
  nodupb eqb (map key l) = true ->
  In x l ->
  find (fun y => eqb (key y) (key x)) l = Some x.
Proof.
  intros Heqb. induction l as [|y l IH]; cbn [map nodupb find]; [contradiction|].
  intros Hnd Hin. apply andb_true_iff in Hnd. destruct Hnd as [Hy Hl].
  destruct Hin as [-> | Hin].
  - now rewrite (proj2 (Heqb (key x) (key x)) eq_refl).
  - destruct (eqb (key y) (key x)) eqn:E; [|now apply IH].
    exfalso. apply negb_true_iff in Hy.
    assert (Hex : existsb (eqb (key y)) (map key l) = true).
    { apply existsb_exists. exists (key x). split; [now apply in_map | exact E]. }
    congruence.
Qed.

Lemma in_join_organization_inviter (db : DB) (i : OrganizationInvitation.t)
    (row : OrganizationInvitation.t * Organization.t * User.t) :
  In row (join_organization_inviter db i) ->
  fst (fst row) = i
  /\ In (snd (fst row)) (organizations db)
  /\ Organization.id (snd (fst row)) = OrganizationInvitation.organization_id i
  /\ In (snd row) (users db)
  /\ User.id (snd row) = OrganizationInvitation.invited_by i.
Proof.
  unfold join_organization_inviter. intros H.
  apply in_flat_map in H. destruct H as (o & Ho & H).
  apply in_map_iff in H. destruct H as (u & <- & Hu).
  apply filter_In in Ho, Hu. destruct Ho as [Ho Eo], Hu as [Hu Eu].
  apply N.eqb_eq in Eo, Eu. cbn. auto.
Qed.

Lemma in_my_invitation_responses
    (rows : list (OrganizationInvitation.t * Organization.t * User.t))
    (result : list InvitationResponse.t) (r : InvitationResponse.t) :
  my_invitation_responses rows = Return result ->
  In r result ->
  exists invitation org inviter role,
    In (invitation, org, inviter) rows
    /\ RoleEnum_of (OrganizationInvitation.role invitation) = Return role
    /\ r = InvitationResponse.mk (Organization.id org) (Organization.name org)
             (OrganizationInvitation.email invitation) role (User.email inviter)
             (OrganizationInvitation.token invitation)
             (OrganizationInvitation.wrapped_org_key invitation)
             (OrganizationInvitation.expires_at invitation)
             (OrganizationInvitation.accepted_at invitation)
             (OrganizationInvitation.rejected_at invitation).
Proof.
  revert result. induction rows as [|[[invitation org] inviter] rows IH]; intros result; cbn.
  - intros [= <-] [].
  - destruct (RoleEnum_of (OrganizationInvitation.role invitation)) as [role|] eqn:Er;
      [|discriminate].
    destruct (my_invitation_responses rows) as [rest|]; [|discriminate].
    intros [= <-] [<- | Hin].
    + exists invitation, org, inviter, role. auto.
    + destruct (IH rest eq_refl Hin) as (i & o & u & ro & H & ?). exists i, o, u, ro. auto.
Qed.

Lemma find_some_in {A} (p : A -> bool) (l : list A) (x : A) :
  In x l -> p x = true -> exists y, find p l = Some y.
Proof.
  intros Hin Hp. destruct (find p l) as [y|] eqn:E; [eauto|].
  rewrite (find_none _ _ E x Hin) in Hp. discriminate.
Qed.

(** The accepter gets a response when the rows the response is built from
    are there. *)
Lemma accept_invitation_responds (db : DB) (token : string)
    (accept_data : InvitationAccept.t) (now : datetime) (current_user : User.t)
    (invitation : OrganizationInvitation.t) (org : Organization.t) (inviter : User.t)
    (role : RoleEnum) :
  verify_invitation_token db token now = Return invitation ->
  OrganizationInvitation.email invitation = User.email current_user ->
  find_member db (OrganizationInvitation.organization_id invitation)
              (User.id current_user) = None ->
  constraints_ok db = true ->
  get_organization db (OrganizationInvitation.organization_id invitation) = Some org ->
  find_user db (OrganizationInvitation.invited_by invitation) = Some inviter ->
  RoleEnum_of (OrganizationInvitation.role invitation) = Return role ->
  fst (run (accept_invitation token accept_data now current_user) db [])
  = Return (invitation_response (OrganizationInvitation.set_accepted_at now invitation)
              (Organization.name org) (User.email inviter) role).
Proof.
  intros Hv He Hm Hc Ho Hu Hr. unfold accept_invitation. mstep.
  rewrite Hv. mstep. rewrite He, String.eqb_refl. mstep.
  rewrite Hm. cbn [is_set is_none negb]. mstep.
  rewrite constraints_ok_update_invitation, constraints_ok_with_members, Hc
    by reflexivity.
  mstep.
  change (get_organization (with_invitations _ (with_members _ db))
            (OrganizationInvitation.organization_id
               (OrganizationInvitation.set_accepted_at now invitation)))
    with (get_organization db (OrganizationInvitation.organization_id invitation)).
  rewrite Ho. mstep.
  change (find_user (with_invitations _ (with_members _ db))
            (OrganizationInvitation.invited_by
               (OrganizationInvitation.set_accepted_at now invitation)))
    with (find_user db (OrganizationInvitation.invited_by invitation)).
  rewrite Hu. mstep.
  rewrite constraints_ok_with_audit_logs, constraints_ok_update_invitation,
    constraints_ok_with_members, Hc by reflexivity.
  mstep. cbn [OrganizationInvitation.set_accepted_at OrganizationInvitation.role].
  rewrite Hr. reflexivity.
Qed.

(** X14: [list_my_invitations] changes nothing.  Each entry it lists is
    addressed to the caller's email, has neither marker, expires after [now],
    and its token passes [verify_invitation_token] and designates an
    invitation of that email, organization and wrapped key (the [token]
    column being unique).  Whether such an invitation can be accepted at that
    instant depends on the caller's membership, which the listing does not
    look at: when the caller is already a member of the organization,
    [accept_invitation] with the listed token is refused with the 400; when
    not, and storage takes the writes, it returns its response and adds the
    caller's membership with the invitation's role. *)
Theorem list_my_invitations_acceptable (db db' : DB) (now : datetime)
    (current_user : User.t) (fs : list bool) (result : list InvitationResponse.t) :
  run (list_my_invitations now current_user) db fs = (Return result, db') ->
  constraints_ok db = true ->
  db' = db
  /\ forall r, In r result ->
       exists invitation,
         verify_invitation_token db (InvitationResponse.token r) now = Return invitation
         /\ OrganizationInvitation.email invitation = User.email current_user
         /\ InvitationResponse.email r = User.email current_user
         /\ InvitationResponse.organization_id r
            = OrganizationInvitation.organization_id invitation
         /\ InvitationResponse.wrapped_org_key r
            = OrganizationInvitation.wrapped_org_key invitation
         /\ InvitationResponse.accepted_at r = None
         /\ InvitationResponse.rejected_at r = None
         /\ now < InvitationResponse.expires_at r
         /\ (forall existing_member accept_data fs',
                find_member db (InvitationResponse.organization_id r)
                            (User.id current_user) = Some existing_member ->
                run (accept_invitation (InvitationResponse.token r) accept_data now
                       current_user) db fs'
                = (Raise (HTTPException 400
                            "You are already a member of this organization"), db))
         /\ (forall accept_data,
                find_member db (InvitationResponse.organization_id r)
                            (User.id current_user) = None ->
                let outcome :=
                  run (accept_invitation (InvitationResponse.token r) accept_data now
                         current_user) db [] in
                (exists response,
                    fst outcome = Return response
                    /\ InvitationResponse.accepted_at response = Some now
                    /\ InvitationResponse.role response = InvitationResponse.role r)
                /\ organization_members (snd outcome)
                   = add (OrganizationMember.mk (InvitationResponse.organization_id r)
                            (User.id current_user)
                            (OrganizationInvitation.role invitation)
                            (InvitationAccept.wrapped_org_key accept_data))
                         (organization_members db)).
Proof.
  intros Hrun Hc.
  assert (Hlist : my_invitation_responses
                    (flat_map (join_organization_inviter db)
                       (order_by_created_at_desc
                          (filter (is_pending_for (User.email current_user) now)
                                  (organization_invitations db))))
                  = Return result /\ db' = db).
  { revert Hrun. unfold list_my_invitations. mstep.
    destruct (my_invitation_responses _) as [result'|]; [|discriminate].
    now intros [= <- <-]. }
  clear Hrun. destruct Hlist as (Hr & ->).
  split; [reflexivity|]. intros r Hin.
  destruct (in_my_invitation_responses _ _ _ Hr Hin)
    as (invitation & org & inviter & role & Hrow & Hrole & ->).
  apply in_flat_map in Hrow. destruct Hrow as (i & Hi & Hrow).
  apply in_join_organization_inviter in Hrow. cbn [fst snd] in Hrow.
  destruct Hrow as (<- & Horgin & Horg & Huin & Hu).
  unfold order_by_created_at_desc in Hi. apply in_rev, filter_In in Hi.
  destruct Hi as [Hi Hp]. unfold is_pending_for in Hp.
  rewrite !andb_true_iff in Hp. destruct Hp as (((He & Ha) & Hrj) & Hx).
  apply eqb_true in He. apply Z.gtb_lt in Hx.
  destruct (OrganizationInvitation.accepted_at invitation) eqn:Ea; [discriminate|].
  destruct (OrganizationInvitation.rejected_at invitation) eqn:Erj; [discriminate|].
  exists invitation. cbn [InvitationResponse.token InvitationResponse.email
    InvitationResponse.organization_id InvitationResponse.wrapped_org_key
    InvitationResponse.accepted_at InvitationResponse.rejected_at
    InvitationResponse.expires_at InvitationResponse.role].
  assert (Hv : verify_invitation_token db (OrganizationInvitation.token invitation) now
               = Return invitation).
  { unfold verify_invitation_token, find_invitation.
    pose proof Hc as Hk. unfold constraints_ok in Hk.
    apply andb_true_iff in Hk. destruct Hk as [Hk _].
    apply andb_true_iff in Hk. destruct Hk as [_ Hk].
    rewrite (find_unique OrganizationInvitation.token String.eqb _ invitation
               String.eqb_eq Hk Hi).
    rewrite Ea, Erj. cbn [is_set is_none negb].
    destruct (Z.ltb_spec (OrganizationInvitation.expires_at invitation) now);
      [lia|reflexivity]. }
  split; [exact Hv|]. do 7 (split; [solve [assumption | reflexivity]|]). split.
  - intros m accept_data fs' Hm. rewrite Horg in Hm.
    unfold accept_invitation. mstep. rewrite Hv. mstep.
    rewrite He, String.eqb_refl. mstep. rewrite Hm. reflexivity.
  - intros accept_data Hm. cbv zeta. rewrite Horg in Hm |- *.
    destruct (find_some_in
                (fun o => (Organization.id o
                           =? OrganizationInvitation.organization_id invitation)%N)
                _ org Horgin) as (org' & Horg'); [now apply N.eqb_eq|].
    destruct (find_some_in
                (fun u => (User.id u =? OrganizationInvitation.invited_by invitation)%N)
                _ inviter Huin) as (inviter' & Hu'); [now apply N.eqb_eq|].
    split.
    + eexists. split.
      * exact (accept_invitation_responds db _ accept_data now current_user invitation
                 org' inviter' role Hv He Hm Hc Horg' Hu' Hrole).
      * split; reflexivity.
    + destruct (accept_invitation_run db _ accept_data now current_user invitation
                  Hv He Hm Hc) as (audit & Hrun).
      now rewrite Hrun.
Qed.

Lemma list_my_invitations_acceptable_witness :
  exists result,
    run (list_my_invitations 1000 Sample.carol) Sample.db [] = (Return result, Sample.db)
    /\ result <> []
    /\ forall r, In r result ->
         organization_members
           (snd (run (accept_invitation (InvitationResponse.token r)
                        (InvitationAccept.mk "key-carol") 1000 Sample.carol)
                     Sample.db []))
         = add (OrganizationMember.mk 10 3 "viewer" "key-carol")
               (organization_members Sample.db).
Proof.
  eexists. split; [reflexivity|]. split; [discriminate|]. intros r Hr.
  destruct (proj2 (list_my_invitations_acceptable Sample.db Sample.db 1000 Sample.carol []
                     _ eq_refl eq_refl) r Hr)
    as (invitation & Hv & _ & _ & _ & _ & _ & _ & _ & _ & Haccept).
  destruct Hr as [<- | []].
  rewrite (proj2 (Haccept (InvitationAccept.mk "key-carol") eq_refl)).
  vm_compute in Hv. injection Hv as <-. reflexivity.
Defined.

(** ** Account permissions *)

Lemma is_none_false {A} (o : option A) : is_none o = false -> exists x, o = Some x.
Proof. destruct o; [eauto | discriminate]. Qed.

Lemma constraints_ok_with_account_permissions
    (f : list AccountPermission.t -> list AccountPermission.t) (db : DB) :
  constraints_ok (with_account_permissions f db) = constraints_ok db.
Proof. reflexivity. Qed.

Lemma remove_first_app_none {A} (p : A -> bool) (l : list A) (x : A) :
  find p l = None -> p x = true -> remove_first p (l ++ [x]) = l.
Proof.
  intros H Hx. induction l as [|y l IH]; cbn in *; [now rewrite Hx|].
  destruct (p y); [discriminate|]. now rewrite IH.
Qed.

Lemma set_account_permission_return (account_id user_id : UUID) (permission : string)
    (current_user : User.t) (fs : list bool) (db db' : DB)
    (response : list (string * json)) :
  run (set_account_permission account_id user_id permission current_user) db fs
  = (Return response, db') ->
  check_account_permission db current_user account_id "full" = Return true
  /\ known_permission permission = true
  /\ constraints_ok db = true
  /\ exists account organization_id target_member,
       find_account db account_id = Some account
       /\ Account.organization_id account = Some organization_id
       /\ find_member db organization_id user_id = Some target_member
       /\ ((exists existing,
              find_account_permission db account_id user_id = Some existing
              /\ db' = with_account_permissions
                         (update_first (is_permission_row account_id user_id)
                            (set_permission permission)) db)
           \/ (find_account_permission db account_id user_id = None
               /\ db' = with_account_permissions
                          (add (AccountPermission.mk account_id user_id permission)) db)).
Proof.
  unfold set_account_permission.
  mrun; intros [= <- <-];
    repeat match goal with
           | H : is_none _ = false |- _ => apply is_none_false in H; destruct H as (? & H)
           | H : negb _ = false |- _ => apply negb_false_iff in H
           | H : check_account_permission _ _ _ _ = Return ?b |- _ =>
             is_var b; destruct b;
             [|unfold check_account_permission in H;
               repeat match type of H with
                      | context [match ?x with _ => _ end] => destruct x
                      end; discriminate]
           | H : constraints_ok (with_account_permissions _ _) = true |- _ =>
             rewrite constraints_ok_with_account_permissions in H
           end;
    (split; [reflexivity|]); (split; [assumption|]); (split; [assumption|]);
    eauto 12.
Qed.

(** X15: when [set_account_permission] returns, the grant is in force: the
    target user passes [check_account_permission] on the account for every
    permission whose level is not above the one granted; the pair (account,
    user) has a row with that permission and as many rows as before, or one
    if it had none; the rows of every other pair are as before; and no other
    table changes, the audit trail included. *)
Theorem set_account_permission_grants (account_id user_id : UUID) (permission : string)
    (current_user : User.t) (fs : list bool) (db db' : DB)
    (response : list (string * json)) :
  run (set_account_permission account_id user_id permission current_user) db fs
  = (Return response, db') ->
  (forall target required,
      User.id target = user_id ->
      permission_level required <= permission_level permission ->
      check_account_permission db' target account_id required = Return true)
  /\ (exists p,
         find_account_permission db' account_id user_id = Some p
         /\ AccountPermission.permission p = permission)
  /\ length (filter (is_permission_row account_id user_id) (account_permissions db'))
     = Nat.max 1 (length (filter (is_permission_row account_id user_id)
                                 (account_permissions db)))
  /\ (forall a u, a <> account_id \/ u <> user_id ->
                  find_account_permission db' a u = find_account_permission db a u)
  /\ users db' = users db
  /\ organizations db' = organizations db
  /\ organization_members db' = organization_members db
  /\ accounts db' = accounts db
  /\ organization_invitations db' = organization_invitations db
  /\ audit_logs db' = audit_logs db.
Proof.
  intros H. apply set_account_permission_return in H.
  destruct H as (_ & Hk & _ & account & o & tm & Ha & Ho & Hm & Hcases).
  assert (Hfind : exists p, find_account_permission db' account_id user_id = Some p
                            /\ AccountPermission.permission p = permission).
  { destruct Hcases as [(existing & He & ->) | (Hn & ->)].
    - exists (set_permission permission existing). split; [|reflexivity].
      unfold find_account_permission in *.
      cbn [with_account_permissions account_permissions].
      apply (find_update_first_same (is_permission_row account_id user_id)); [exact He|].
      apply find_some in He. apply He.
    - exists (AccountPermission.mk account_id user_id permission).
      split; [|reflexivity]. unfold find_account_permission in *.
      cbn [with_account_permissions account_permissions]. unfold add.
      rewrite (find_app_none _ _ _ Hn).
      cbn [AccountPermission.account_id AccountPermission.user_id].
      now rewrite !N.eqb_refl. }
  assert (Hsame : users db' = users db /\ organizations db' = organizations db
                  /\ organization_members db' = organization_members db
                  /\ accounts db' = accounts db
                  /\ organization_invitations db' = organization_invitations db
                  /\ audit_logs db' = audit_logs db).
  { destruct Hcases as [(existing & He & ->) | (Hn & ->)]; repeat split. }
  destruct Hsame as (Hu & Horgs & Hmem & Hacc & Hinv & Haud).
  split; [|split; [exact Hfind|split; [|split; [|repeat split; assumption]]]].
  - intros target required Ht Hle. destruct Hfind as (p & Hp & Hperm).
    unfold check_account_permission, find_account, find_member.
    rewrite Hacc, Hmem, Ht. fold (find_account db account_id). rewrite Ha, Ho.
    fold (find_member db o user_id). rewrite Hm.
    destruct (str_in (OrganizationMember.role tm) ["owner"; "admin"]); [reflexivity|].
    rewrite Hp. unfold explicit_grants. cbv zeta. rewrite Hperm.
    fold (permission_level permission). fold (permission_level required).
    destruct (Z.geb_spec (permission_level permission) (permission_level required));
      [reflexivity | lia].
  - destruct Hcases as [(existing & He & ->) | (Hn & ->)];
      cbn [with_account_permissions account_permissions].
    + pose proof (update_first_count (is_permission_row account_id user_id)
                    (is_permission_row account_id user_id) (set_permission permission)
                    (account_permissions db) existing He) as Hc.
      assert (Hex : is_permission_row account_id user_id existing = true)
        by (apply find_some in He; apply He).
      change (is_permission_row account_id user_id (set_permission permission existing))
        with (is_permission_row account_id user_id existing) in Hc.
      rewrite Hex in Hc.
      assert (In existing (filter (is_permission_row account_id user_id)
                                  (account_permissions db))).
      { apply filter_In. apply find_some in He. exact He. }
      destruct (filter (is_permission_row account_id user_id) (account_permissions db));
        [contradiction|]. cbn [length] in *. lia.
    + assert (Hnew : is_permission_row account_id user_id
                         (AccountPermission.mk account_id user_id permission) = true)
        by (unfold is_permission_row; cbn; now rewrite !N.eqb_refl).
      unfold add. rewrite filter_app, length_app. cbn [filter]. rewrite Hnew.
      rewrite filter_none; [reflexivity|].
      intros x Hx. apply (proj1 (find_none_iff _ _) Hn x Hx).
  - intros a u Hne.
    assert (Hother : forall y, is_permission_row account_id user_id y = true ->
                               is_permission_row a u y = false).
    { intros y Hy. unfold is_permission_row in *. apply andb_true_iff in Hy.
      destruct Hy as [Hy1 Hy2]. apply N.eqb_eq in Hy1, Hy2. rewrite Hy1, Hy2.
      apply andb_false_iff. destruct Hne as [Hne | Hne]; [left | right];
        apply N.eqb_neq; congruence. }
    destruct Hcases as [(existing & He & ->) | (Hn & ->)];
      unfold find_account_permission; cbn [with_account_permissions account_permissions].
    + now apply (find_update_first_other (is_permission_row account_id user_id)
                   (is_permission_row a u)).
    + unfold add.
      change (find (is_permission_row a u)
                (account_permissions db
                 ++ [AccountPermission.mk account_id user_id permission])
              = find (is_permission_row a u) (account_permissions db)).
      destruct (find (is_permission_row a u) (account_permissions db)) as [p|] eqn:Ef.
      * now apply find_app_some.
      * rewrite (find_app_none _ _ _ Ef), Hother; [reflexivity|].
        unfold is_permission_row. cbn. now rewrite !N.eqb_refl.
Qed.

Lemma set_account_permission_grants_witness :
  check_account_permission
    (snd (run (set_account_permission 100 2 "edit" Sample.alice) Sample.db []))
    Sample.bob 100 "edit"
  = Return true.
Proof.
  exact (proj1 (set_account_permission_grants 100 2 "edit" Sample.alice [] Sample.db _ _
                  eq_refl)
               Sample.bob "edit" eq_refl ltac:(reflexivity)).
Defined.

Lemma with_account_permissions_add_remove (db : DB) (p : AccountPermission.t)
    (q : AccountPermission.t -> bool) :
  find q (account_permissions db) = None -> q p = true ->
  with_account_permissions (remove_first q) (with_account_permissions (add p) db) = db.
Proof.
  intros Hn Hp. destruct db. unfold with_account_permissions, add. cbn in *.
  now rewrite remove_first_app_none.
Qed.

(** X16: revoking a permission, for a pair (account, user) without a
    permission row: [remove_account_permission] by a caller with full access
    on an organization account returns without writing, so it succeeds
    whatever the storage does; and granting a permission and then revoking it
    gives back the database as it was before the grant. *)
Theorem remove_account_permission_round_trip (db : DB) (account_id user_id : UUID) :
  find_account_permission db account_id user_id = None ->
  (forall current_user account organization_id fs,
      check_account_permission db current_user account_id "full" = Return true ->
      find_account db account_id = Some account ->
      Account.organization_id account = Some organization_id ->
      run (remove_account_permission account_id user_id current_user) db fs
      = (Return tt, db))
  /\ (forall permission granter revoker response db1,
         run (set_account_permission account_id user_id permission granter) db []
         = (Return response, db1) ->
         check_account_permission db1 revoker account_id "full" = Return true ->
         run (remove_account_permission account_id user_id revoker) db1 []
         = (Return tt, db)).
Proof.
  intros Hn. split.
  - intros current_user account o fs Hc Ha Ho.
    unfold remove_account_permission. mstep. rewrite Hc. mstep. rewrite Ha. mstep.
    rewrite Ho. mstep. rewrite Hn. reflexivity.
  - intros permission granter revoker response db1 Hset Hc.
    apply set_account_permission_return in Hset.
    destruct Hset as (_ & _ & Hok & account & o & tm & Ha & Ho & _ & Hcases).
    destruct Hcases as [(existing & He & _) | (_ & ->)]; [congruence|].
    unfold remove_account_permission. mstep. rewrite Hc. mstep.
    change (find_account
              (with_account_permissions
                 (add (AccountPermission.mk account_id user_id permission)) db) account_id)
      with (find_account db account_id).
    rewrite Ha. mstep. rewrite Ho. mstep.
    assert (Hnew : is_permission_row account_id user_id
                     (AccountPermission.mk account_id user_id permission) = true)
      by (unfold is_permission_row; cbn; now rewrite !N.eqb_refl).
    replace (find_account_permission
               (with_account_permissions
                  (add (AccountPermission.mk account_id user_id permission)) db)
               account_id user_id)
      with (Some (AccountPermission.mk account_id user_id permission)).
    + mstep.
      rewrite (with_account_permissions_add_remove db _ (is_permission_row account_id user_id)
                 Hn Hnew), Hok.
      reflexivity.
    + symmetry. unfold find_account_permission in *.
      cbn [with_account_permissions account_permissions]. unfold add.
      rewrite (find_app_none _ _ _ Hn).
      change ((if is_permission_row account_id user_id
                    (AccountPermission.mk account_id user_id permission)
               then Some (AccountPermission.mk account_id user_id permission) else None)
              = Some (AccountPermission.mk account_id user_id permission)).
      now rewrite Hnew.
Qed.

Lemma remove_account_permission_round_trip_witness :
  run (remove_account_permission 100 1 Sample.alice)
      (snd (run (set_account_permission 100 1 "view" Sample.alice) Sample.db [])) []
  = (Return tt, Sample.db).
Proof.
  exact (proj2 (remove_account_permission_round_trip Sample.db 100 1 eq_refl)
               "view" Sample.alice Sample.alice _ _ eq_refl eq_refl).
Defined.

(** ** Reading, updating and deleting an account *)

Lemma existsb_eqb_true (l : list N) (x : N) : In x l -> existsb (N.eqb x) l = true.
Proof.
  intros H. apply existsb_exists. exists x. split; [exact H | apply N.eqb_refl].
Qed.

Lemma existsb_eqb_false (l : list N) (x : N) : ~ In x l -> existsb (N.eqb x) l = false.
Proof.
  intros H. apply not_true_iff_false. intros He.
  apply existsb_exists in He as (y & Hy & Hxy). apply N.eqb_eq in Hxy. now subst.
Qed.

Lemma constraints_ok_add_account (a : Account.t) (db : DB) :
  constraints_ok (with_accounts (add a) db)
  = constraints_ok db
    && references_organization (map Organization.id (organizations db)) a.
Proof.
  unfold constraints_ok, with_accounts.
  cbn [organizations organization_invitations accounts].
  unfold add. rewrite forallb_app. cbn [forallb]. rewrite andb_true_r.
  now rewrite andb_assoc.
Qed.

Lemma constraints_ok_remove_account (p : Account.t -> bool) (db : DB) :
  constraints_ok db = true ->
  constraints_ok (with_accounts (remove_first p) db) = true.
Proof.
  unfold constraints_ok, with_accounts.
  cbn [organizations organization_invitations accounts].
  intros H. apply andb_prop in H as (H & Hfk). rewrite H. cbn [andb].
  apply forallb_forall. intros a Ha. apply in_remove_first in Ha.
  revert a Ha. now apply forallb_forall.
Qed.

Lemma references_organization_update (organization_ids : list UUID)
    (account_data : AccountUpdate.t) (a : Account.t) :
  references_organization organization_ids (apply_account_update account_data a)
  = match AccountUpdate.organization_id account_data with
    | Some o => existsb (N.eqb o) organization_ids
    | None => references_organization organization_ids a
    end.
Proof.
  unfold apply_account_update, references_organization.
  now destruct (AccountUpdate.organization_id account_data),
    (AccountUpdate.wrapped_dek account_data).
Qed.

Lemma foreign_keys_update_first (organization_ids : list UUID) (p : Account.t -> bool)
    (f : Account.t -> Account.t) (l : list Account.t) (x : Account.t) :
  find p l = Some x ->
  forallb (references_organization organization_ids) l = true ->
  forallb (references_organization organization_ids) (update_first p f l)
  = references_organization organization_ids (f x).
Proof.
  induction l as [|a l IH]; cbn; [discriminate|].
  intros Hf H. apply andb_prop in H as (Ha & Hl).
  destruct (p a); cbn.
  - injection Hf as ->. now rewrite Hl, andb_true_r.
  - now rewrite Ha, (IH Hf Hl).
Qed.

(** The commit of [update_account], on a database that satisfies its
    constraints: it is taken exactly when the organization given, if one is,
    has a row. *)
Lemma constraints_ok_update_account (account_id user_id : UUID)
    (account_data : AccountUpdate.t) (db : DB) (account : Account.t) :
  find (is_own_account_row account_id user_id) (accounts db) = Some account ->
  constraints_ok db = true ->
  constraints_ok
    (with_accounts
       (update_first (is_own_account_row account_id user_id)
          (apply_account_update account_data)) db)
  = match AccountUpdate.organization_id account_data with
    | Some o => existsb (N.eqb o) (map Organization.id (organizations db))
    | None => true
    end.
Proof.
  intros Hf Hc. unfold constraints_ok in *. unfold with_accounts.
  cbn [organizations organization_invitations accounts].
  apply andb_prop in Hc as (Hk & Hfk). rewrite Hk. cbn [andb].
  rewrite (foreign_keys_update_first _ _ _ _ _ Hf Hfk), references_organization_update.
  destruct (AccountUpdate.organization_id account_data); [reflexivity|].
  apply find_some in Hf as (Hin & _).
  revert account Hin. now apply forallb_forall.
Qed.

Lemma default_grants_view (account : Account.t) :
  known_permission (Account.default_permission account) = true ->
  default_grants account "view" = true.
Proof.
  intros Hk. unfold default_grants.
  destruct (known_permission_cases _ Hk) as [-> | [-> | ->]]; reflexivity.
Qed.

(** X17: [get_account] and [check_account_permission] agree: whoever is
    granted any permission on an account gets the account from [get_account];
    for a personal account, or an organization account whose
    [default_permission] is full, edit or view, [get_account] returns the
    account exactly when view is granted; an account that is missing or
    soft-deleted gives the 404. *)
Theorem get_account_agrees (db : DB) (account_id : UUID) (user : User.t) :
  (forall required fs,
      check_account_permission db user account_id required = Return true ->
      exists account,
        find_account db account_id = Some account
        /\ run (get_account account_id user) db fs = (Return account, db))
  /\ (forall account fs,
         find_account db account_id = Some account ->
         Account.organization_id account = None
         \/ known_permission (Account.default_permission account) = true ->
         (run (get_account account_id user) db fs = (Return account, db)
          <-> check_account_permission db user account_id "view" = Return true))
  /\ (forall fs,
         find_account db account_id = None ->
         run (get_account account_id user) db fs
         = (Raise (HTTPException 404 "Account not found"), db)).
Proof.
  split; [|split].
  - intros required fs. unfold check_account_permission, get_account. mstep.
    destruct (find_account db account_id) as [account|]; [|discriminate]. mstep.
    destruct (Account.organization_id account) as [o|]; mstep.
    + destruct (find_member db o (User.id user)); [|discriminate]. eauto.
    + destruct (negb _); [discriminate|]. eauto.
  - intros account fs Ha Hk. unfold check_account_permission, get_account. mstep.
    rewrite Ha. mstep.
    destruct (Account.organization_id account) as [o|]; mstep.
    + destruct Hk as [Hk | Hk]; [discriminate|].
      destruct (find_member db o (User.id user)) as [member|]; cbn [is_none];
        [|split; discriminate].
      rewrite (default_grants_view _ Hk).
      destruct (str_in _ _); [tauto|]. destruct (explicit_grants _ _); tauto.
    + destruct (negb _); [split; discriminate | tauto].
  - intros fs Ha. unfold get_account. mstep. rewrite Ha. reflexivity.
Qed.

Lemma get_account_agrees_witness :
  run (get_account 100 Sample.bob) Sample.db [] = (Return Sample.ledger, Sample.db).
Proof.
  exact (proj2 (proj1 (proj2 (get_account_agrees Sample.db 100 Sample.bob))
                      Sample.ledger [] eq_refl (or_intror eq_refl))
               eq_refl).
Defined.

(** X18: [update_account] acts only on a live account row whose [user_id] is
    the caller: when there is none (another user's account, an organization
    admin included) it raises the 404 and changes nothing.  Under any storage
    faults it changes no other table and writes no audit entry, and an
    account row is either untouched or the caller's row with the update
    applied; the update keeps [id], [user_id], [default_permission] and
    [deleted_at], sets [organization_id] to the one given and never clears
    it.  The handler checks neither that the organization given exists nor
    that the caller is a member of it; the foreign key of the column does the
    first: with an organization that has a row (or none given) the update is
    committed and returned, with one that has no row the commit is refused,
    the call raises and nothing is changed. *)
Theorem update_account_outcome (account_id : UUID) (account_data : AccountUpdate.t)
    (current_user : User.t) (db : DB) :
  ((forall a, In a (accounts db) -> Account.id a = account_id ->
              Account.deleted_at a = None ->
              Account.user_id a <> User.id current_user) ->
   forall fs,
     run (update_account account_id account_data current_user) db fs
     = (Raise (HTTPException 404 "Account not found"), db))
  /\ (forall fs,
         let db' := snd (run (update_account account_id account_data current_user) db fs) in
         Forall2 (fun a a' =>
                    a' = a
                    \/ (is_own_account_row account_id (User.id current_user) a = true
                        /\ a' = apply_account_update account_data a))
                 (accounts db) (accounts db')
         /\ users db' = users db
         /\ organizations db' = organizations db
         /\ organization_members db' = organization_members db
         /\ account_permissions db' = account_permissions db
         /\ organization_invitations db' = organization_invitations db
         /\ audit_logs db' = audit_logs db)
  /\ (forall a,
         let a' := apply_account_update account_data a in
         Account.id a' = Account.id a
         /\ Account.user_id a' = Account.user_id a
         /\ Account.default_permission a' = Account.default_permission a
         /\ Account.deleted_at a' = Account.deleted_at a
         /\ (Account.organization_id a <> None -> Account.organization_id a' <> None)
         /\ (forall o, AccountUpdate.organization_id account_data = Some o ->
                       Account.organization_id a' = Some o)
         /\ (AccountUpdate.organization_id account_data = None ->
             Account.organization_id a' = Account.organization_id a))
  /\ (forall account,
         find (is_own_account_row account_id (User.id current_user)) (accounts db)
         = Some account ->
         constraints_ok db = true ->
         ((forall o, AccountUpdate.organization_id account_data = Some o ->
                     In o (map Organization.id (organizations db))) ->
          run (update_account account_id account_data current_user) db []
          = (Return (apply_account_update account_data account),
             with_accounts
               (update_first (is_own_account_row account_id (User.id current_user))
                  (apply_account_update account_data)) db))
         /\ (forall o fs,
                AccountUpdate.organization_id account_data = Some o ->
                ~ In o (map Organization.id (organizations db)) ->
                run (update_account account_id account_data current_user) db fs
                = (Raise StorageError, db))).
Proof.
  split; [|split; [|split]].
  - intros Hnone fs. unfold update_account. mstep.
    replace (find _ (accounts db)) with (@None Account.t); [reflexivity|].
    symmetry. apply find_none_iff. intros a Ha. unfold is_own_account_row.
    destruct (N.eqb_spec (Account.id a) account_id) as [Ei|]; [|reflexivity].
    destruct (Account.deleted_at a) eqn:Ed; [apply andb_false_r|].
    specialize (Hnone a Ha Ei Ed). apply N.eqb_neq in Hnone. now rewrite Hnone.
  - intros fs. unfold update_account.
    mrun; cbn [with_accounts accounts users organizations organization_members
               account_permissions organization_invitations audit_logs];
      (split; [|repeat split]);
      try (apply Forall2_same; now left).
    all: apply Forall2_update_first.
  - intros a. unfold apply_account_update.
    destruct (AccountUpdate.organization_id account_data),
      (AccountUpdate.wrapped_dek account_data); cbn; repeat split;
      try congruence; try discriminate.
  - intros account Hf Hc. split.
    + intros Ho. unfold update_account. mstep. rewrite Hf. mstep.
      rewrite (constraints_ok_update_account _ _ _ _ _ Hf Hc).
      destruct (AccountUpdate.organization_id account_data) as [o|]; [|reflexivity].
      now rewrite (existsb_eqb_true _ _ (Ho o eq_refl)).
    + intros o fs Ho Hno. unfold update_account. mstep. rewrite Hf. mstep.
      destruct fs as [|[|] fs]; mstep; try reflexivity;
        rewrite (constraints_ok_update_account _ _ _ _ _ Hf Hc), Ho,
          (existsb_eqb_false _ _ Hno); reflexivity.
Qed.

Lemma update_account_outcome_witness :
  run (update_account 100 (AccountUpdate.mk (Some 10%N) (Some "dek-9")) Sample.alice)
      Sample.db []
  = (Return (Account.mk 100 1 (Some 10%N) "view" (Some "dek-9") None),
     with_accounts
       (update_first (is_own_account_row 100 1)
          (apply_account_update (AccountUpdate.mk (Some 10%N) (Some "dek-9"))))
       Sample.db)
  /\ run (update_account 100 (AccountUpdate.mk (Some 77%N) None) Sample.alice)
         Sample.db []
     = (Raise StorageError, Sample.db).
Proof.
  split.
  - refine (proj1 (proj2 (proj2 (proj2 (update_account_outcome 100
                                          (AccountUpdate.mk (Some 10%N) (Some "dek-9"))
                                          Sample.alice Sample.db)))
                     Sample.ledger eq_refl eq_refl) _).
    intros o [= <-]. vm_compute. now left.
  - refine (proj2 (proj2 (proj2 (proj2 (update_account_outcome 100
                                          (AccountUpdate.mk (Some 77%N) None)
                                          Sample.alice Sample.db)))
                     Sample.ledger eq_refl eq_refl) 77%N [] eq_refl _).
    vm_compute. intros [H | []]. discriminate.
Defined.

Lemma remove_first_length {A} (p : A -> bool) (l : list A) (x : A) :
  find p l = Some x -> (length (remove_first p l) + 1 = length l)%nat.
Proof.
  induction l as [|y l IH]; cbn; [discriminate|].
  destruct (p y); [lia|]. intros H. cbn. rewrite <- (IH H). lia.
Qed.

(** X19: [delete_account]: a missing or soft-deleted account gives the 404;
    for an account of an organization the membership filter reads
    [OrganizationMember.left_at], an attribute the model does not have, so the
    call raises [AttributeError] for every caller and deletes nothing; a
    personal account of another user gives the 403; the user of a personal
    account deletes it (storage taking the write): one account row less, the
    account's permission rows gone, no audit entry.  So under any storage
    faults nothing changes unless the account is personal and the caller's. *)
Theorem delete_account_outcome (account_id : UUID) (current_user : User.t) (db : DB) :
  (find_account db account_id = None ->
   forall fs,
     run (delete_account account_id current_user) db fs
     = (Raise (HTTPException 404 "Account not found"), db))
  /\ (forall account organization_id,
         find_account db account_id = Some account ->
         Account.organization_id account = Some organization_id ->
         forall fs,
           run (delete_account account_id current_user) db fs = (Raise AttributeError, db))
  /\ (forall account,
         find_account db account_id = Some account ->
         Account.organization_id account = None ->
         Account.user_id account <> User.id current_user ->
         forall fs,
           run (delete_account account_id current_user) db fs
           = (Raise (HTTPException 403 "You can only delete your own personal accounts"),
              db))
  /\ (forall account,
         find_account db account_id = Some account ->
         Account.organization_id account = None ->
         Account.user_id account = User.id current_user ->
         constraints_ok db = true ->
         let outcome := run (delete_account account_id current_user) db [] in
         fst outcome = Return tt
         /\ accounts (snd outcome) = remove_first (is_live_account account_id) (accounts db)
         /\ (length (accounts (snd outcome)) + 1 = length (accounts db))%nat
         /\ (forall p, In p (account_permissions (snd outcome)) <->
                       In p (account_permissions db)
                       /\ AccountPermission.account_id p <> account_id)
         /\ audit_logs (snd outcome) = audit_logs db
         /\ organization_members (snd outcome) = organization_members db)
  /\ (forall fs,
         snd (run (delete_account account_id current_user) db fs) = db
         \/ exists account,
              find_account db account_id = Some account
              /\ Account.organization_id account = None
              /\ Account.user_id account = User.id current_user).
Proof.
  split; [|split; [|split; [|split]]].
  - intros Ha fs. unfold delete_account. mstep. rewrite Ha. reflexivity.
  - intros account o Ha Ho fs. unfold delete_account, OrganizationMember_left_at. mstep.
    rewrite Ha. mstep. rewrite Ho. reflexivity.
  - intros account Ha Ho Hne fs. unfold delete_account. mstep.
    rewrite Ha. mstep. rewrite Ho. mstep. apply N.eqb_neq in Hne. rewrite Hne. reflexivity.
  - intros account Ha Ho Hu Hc. unfold delete_account. mstep.
    rewrite Ha. mstep. rewrite Ho. mstep. rewrite Hu, N.eqb_refl. mstep.
    rewrite constraints_ok_remove_account
      by (rewrite constraints_ok_with_account_permissions; exact Hc).
    cbn [fst snd with_accounts with_account_permissions accounts account_permissions
         audit_logs organization_members].
    split; [reflexivity|]. split; [reflexivity|]. split; [|split; [|split; reflexivity]].
    + exact (remove_first_length (is_live_account account_id) (accounts db) account Ha).
    + intros p. cbn [committed with_accounts with_account_permissions account_permissions].
      rewrite filter_In, negb_true_iff, N.eqb_neq. tauto.
  - intros fs. unfold delete_account, OrganizationMember_left_at.
    mrun; try (now left); right; eexists; (split; [reflexivity|]);
      (split; [assumption|]);
      match goal with
      | H : negb (_ =? _)%N = false |- _ =>
        apply negb_false_iff, N.eqb_eq in H; exact H
      end.
Qed.

Lemma delete_account_outcome_witness :
  run (delete_account 100 Sample.alice) Sample.db [] = (Raise AttributeError, Sample.db).
Proof.
  exact (proj1 (proj2 (delete_account_outcome 100 Sample.alice Sample.db))
               Sample.ledger 10%N eq_refl eq_refl []).
Defined.

(** X20: [create_account] checks neither that the organization given exists
    nor that the caller is a member of it.  The foreign key of
    [accounts.organization_id] does the first: with an organization id that
    has no row the commit is refused, the call raises and nothing is created.
    Otherwise, with a fresh id and storage taking the write, the account is
    created: it is found, belongs to the caller and has default permission
    view.  A personal account is then granted to its creator at every level
    and refused to everybody else.  An account created in an organization is
    granted for view to every member of that organization, and refused to
    its creator when the creator is not a member. *)
Theorem create_account_access (account_data : AccountCreate.t) (new_id : UUID)
    (current_user : User.t) (db : DB) :
  (forall a, In a (accounts db) -> Account.id a <> new_id) ->
  constraints_ok db = true ->
  let outcome := run (create_account account_data new_id current_user) db [] in
  let db' := snd outcome in
  ((forall o, AccountCreate.organization_id account_data = Some o ->
              In o (map Organization.id (organizations db))) ->
   (exists account,
       fst outcome = Return account
       /\ find_account db' new_id = Some account
       /\ Account.user_id account = User.id current_user
       /\ Account.default_permission account = "view"
       /\ Account.organization_id account = AccountCreate.organization_id account_data)
   /\ (AccountCreate.organization_id account_data = None ->
       forall user required,
         check_account_permission db' user new_id required
         = if (User.id current_user =? User.id user)%N then Return true
           else Raise (PermissionError "Access denied to this account"))
   /\ (forall organization_id required,
          AccountCreate.organization_id account_data = Some organization_id ->
          find_member db organization_id (User.id current_user) = None ->
          check_account_permission db' current_user new_id required
          = Raise (PermissionError "You are not a member of this account's organization"))
   /\ (forall organization_id user member,
          AccountCreate.organization_id account_data = Some organization_id ->
          find_member db organization_id (User.id user) = Some member ->
          check_account_permission db' user new_id "view" = Return true))
  /\ (forall o fs,
         AccountCreate.organization_id account_data = Some o ->
         ~ In o (map Organization.id (organizations db)) ->
         run (create_account account_data new_id current_user) db fs
         = (Raise StorageError, db)).
Proof.
  intros Hfresh Hc. cbv zeta. split.
  - intros Horg. unfold create_account. mstep.
    rewrite constraints_ok_add_account, Hc. unfold references_organization.
    cbn [Account.organization_id andb].
    assert (Hfk : match AccountCreate.organization_id account_data with
                  | Some o => existsb (N.eqb o) (map Organization.id (organizations db))
                  | None => true
                  end = true).
    { destruct (AccountCreate.organization_id account_data) as [o|]; [|reflexivity].
      now apply existsb_eqb_true, Horg. }
    rewrite Hfk. cbn [fst snd committed].
    set (account := Account.mk new_id (User.id current_user)
                      (AccountCreate.organization_id account_data) "view"
                      (Some (AccountCreate.encrypted_dek account_data)) None).
    assert (Hfind : find_account (with_accounts (add account) db) new_id = Some account).
    { unfold find_account. cbn [with_accounts accounts]. unfold add.
      rewrite find_app_none.
      - cbn. now rewrite N.eqb_refl.
      - apply find_none_iff. intros a Ha. apply Hfresh in Ha. apply N.eqb_neq in Ha.
        now rewrite Ha. }
    split; [exists account; repeat split; trivial|].
    split; [|split].
    + intros Ho user required. unfold check_account_permission. rewrite Hfind.
      cbn [account Account.organization_id Account.user_id]. rewrite Ho.
      now destruct (User.id current_user =? User.id user)%N.
    + intros o required Ho Hm. unfold check_account_permission. rewrite Hfind.
      cbn [account Account.organization_id]. rewrite Ho.
      change (find_member (with_accounts (add account) db) o (User.id current_user))
        with (find_member db o (User.id current_user)).
      now rewrite Hm.
    + intros o user member Ho Hm. unfold check_account_permission. rewrite Hfind.
      cbn [account Account.organization_id]. rewrite Ho.
      change (find_member (with_accounts (add account) db) o (User.id user))
        with (find_member db o (User.id user)).
      rewrite Hm.
      destruct (str_in _ _); [reflexivity|].
      destruct (explicit_grants _ _); [reflexivity|].
      reflexivity.
  - intros o fs Ho Hno. unfold create_account. mstep.
    destruct fs as [|[|] fs]; mstep; try reflexivity;
      rewrite constraints_ok_add_account, Hc; unfold references_organization;
      cbn [Account.organization_id andb];
      rewrite Ho, (existsb_eqb_false _ _ Hno); reflexivity.
Qed.

Lemma create_account_access_witness :
  check_account_permission
    (snd (run (create_account (AccountCreate.mk "dek-new" (Some 10%N)) 200 Sample.carol)
              Sample.db []))
    Sample.carol 200 "view"
  = Raise (PermissionError "You are not a member of this account's organization")
  /\ run (create_account (AccountCreate.mk "dek-new" (Some 77%N)) 200 Sample.carol)
         Sample.db []
     = (Raise StorageError, Sample.db).
Proof.
  assert (Hfresh : forall a, In a (accounts Sample.db) -> Account.id a <> 200%N)
    by (intros a [<- | []]; discriminate).
  split.
  - refine (proj1 (proj2 (proj2 (proj1 (create_account_access
                                          (AccountCreate.mk "dek-new" (Some 10%N)) 200
                                          Sample.carol Sample.db Hfresh eq_refl) _)))
              10%N "view" eq_refl eq_refl).
    intros o [= <-]. vm_compute. now left.
  - refine (proj2 (create_account_access (AccountCreate.mk "dek-new" (Some 77%N)) 200
                     Sample.carol Sample.db Hfresh eq_refl)
              77%N [] eq_refl _).
    vm_compute. intros [H | []]. discriminate.
Defined.

(** ** A new organization *)

Lemma create_organization_return (org_data : OrganizationCreate.t) (new_id : UUID)
    (current_user : User.t) (fs : list bool) (db db' : DB)
    (response : OrganizationResponse.t) :
  run (create_organization org_data new_id current_user) db fs = (Return response, db') ->
  let new_org := Organization.mk new_id (OrganizationCreate.name org_data) None in
  let creator := OrganizationMember.mk new_id (User.id current_user) "owner"
                   (OrganizationCreate.wrapped_org_key org_data) in
  constraints_ok (with_organizations (add new_org) db) = true
  /\ response = OrganizationResponse.mk new_id OWNER 1 0
                  (OrganizationCreate.wrapped_org_key org_data)
  /\ organizations db' = add new_org (organizations db)
  /\ organization_members db' = add creator (organization_members db)
  /\ accounts db' = accounts db.
Proof.
  unfold create_organization.
  mrun; intros [= <- <-]; auto.
Qed.

(** X21: when [create_organization] returns, on a database where no
    membership and no account references the new id, the counts of the
    response (one member, no account) are those of [get_org_member_count]
    and [get_org_account_count]; the creator passes [check_org_owner] with
    the key of the request; every other user fails the membership check. *)
Theorem create_organization_response (org_data : OrganizationCreate.t) (new_id : UUID)
    (current_user : User.t) (fs : list bool) (db db' : DB)
    (response : OrganizationResponse.t) :
  run (create_organization org_data new_id current_user) db fs = (Return response, db') ->
  (forall m, In m (organization_members db) ->
             OrganizationMember.organization_id m <> new_id) ->
  (forall a, In a (accounts db) -> Account.organization_id a <> Some new_id) ->
  OrganizationResponse.id response = new_id
  /\ OrganizationResponse.member_count response = get_org_member_count db' new_id
  /\ OrganizationResponse.account_count response = get_org_account_count db' new_id
  /\ check_org_owner db' current_user new_id
     = Return (OrganizationMember.mk new_id (User.id current_user) "owner"
                 (OrganizationCreate.wrapped_org_key org_data))
  /\ (forall user,
         User.id user <> User.id current_user ->
         check_org_permission db' user new_id None
         = Raise (PermissionError "You are not a member of this organization")).
Proof.
  intros H Hm Ha. apply create_organization_return in H. cbv zeta in H.
  destruct H as (Hc & -> & Horgs & Hmem & Hacc).
  apply constraints_ok_new_organization in Hc. cbn [Organization.id] in Hc.
  assert (Hfo : find_organization db' new_id
                = Some (Organization.mk new_id (OrganizationCreate.name org_data) None)).
  { unfold find_organization. rewrite Horgs. unfold add. rewrite find_app_none.
    - cbn. now rewrite N.eqb_refl.
    - apply find_none_iff. intros o Ho.
      destruct (N.eqb_spec (Organization.id o) new_id) as [E|]; [|reflexivity].
      exfalso. apply Hc. rewrite <- E. now apply in_map. }
  assert (Hnone : forall u, find (is_member_row new_id u) (organization_members db) = None).
  { intros u. apply find_none_iff. intros m Hin. unfold is_member_row.
    specialize (Hm m Hin). apply N.eqb_neq in Hm. now rewrite Hm. }
  split; [reflexivity|]. split; [|split; [|split]].
  - unfold get_org_member_count. rewrite Hmem. unfold add.
    rewrite filter_app, length_app, filter_none.
    + cbn. now rewrite N.eqb_refl.
    + intros m Hin. apply N.eqb_neq. now apply Hm.
  - unfold get_org_account_count. rewrite Hacc, filter_none; [reflexivity|].
    intros a Hin. unfold is_live_account_of. specialize (Ha a Hin).
    destruct (Account.organization_id a) as [o|]; [|reflexivity].
    destruct (N.eqb_spec o new_id) as [->|]; [now elim Ha | reflexivity].
  - unfold check_org_owner, check_org_permission. rewrite Hfo.
    unfold find_member. rewrite Hmem. unfold add. rewrite find_app_none by apply Hnone.
    unfold is_member_row. cbn. now rewrite !N.eqb_refl.
  - intros user Hne. unfold check_org_permission. rewrite Hfo.
    unfold find_member. rewrite Hmem. unfold add. rewrite find_app_none by apply Hnone.
    unfold is_member_row. cbn. apply N.eqb_neq in Hne.
    now rewrite N.eqb_refl, N.eqb_sym, Hne.
Qed.

Lemma create_organization_response_witness :
  check_org_owner
    (snd (run (create_organization (OrganizationCreate.mk "Club" "key-carol") 11
                 Sample.carol) Sample.db []))
    Sample.carol 11
  = Return (OrganizationMember.mk 11 3 "owner" "key-carol").
Proof.
  refine (proj1 (proj2 (proj2 (proj2
            (create_organization_response (OrganizationCreate.mk "Club" "key-carol") 11
               Sample.carol [] Sample.db _ _ eq_refl _ _))))).
  - intros m [<- | [<- | []]]; discriminate.
  - intros a [<- | []]. discriminate.
Defined.

(** ** The audit trail only grows *)

Lemma extends_same (base : list AuditLog.t) (db db' : DB) :
  audit_logs db' = audit_logs db -> extends base db -> extends base db'.
Proof. unfold extends. intros ->. trivial. Qed.

Lemma extends_add (base : list AuditLog.t) (a : AuditLog.t) (db : DB) :
  extends base db -> extends base (with_audit_logs (add a) db).
Proof.
  intros (s & Hs). exists (s ++ [a])%list.
  cbn [with_audit_logs audit_logs]. unfold add. now rewrite Hs, app_assoc.
Qed.

Ltac extends_step :=
  first [ preserve_step
        | match goal with
          | |- preserves _ (log_audit _ _ _ _ _) => unfold log_audit
          | |- preserves _ (rotate_member_keys _ _ _) =>
            apply preserves_rotate_member_keys;
            intros ? ? ?; eapply extends_same; [|eassumption]; reflexivity
          | |- preserves _ (rotate_account_deks _ _ _) =>
            apply preserves_rotate_account_deks;
            intros ? ? ?; eapply extends_same; [|eassumption]; reflexivity
          | |- forall db, extends _ db -> extends _ (with_audit_logs (add _) db) =>
            intros ? ?; now apply extends_add
          | |- forall db, extends _ db -> extends _ _ =>
            intros ? ?; eapply extends_same; [|eassumption]; reflexivity
          end ].

Lemma extends_serve (r : Request) (fs : list bool) (db : DB) :
  extends (audit_logs db) (serve r fs db).
Proof.
  assert (H0 : extends (audit_logs db) db) by (exists []; now rewrite app_nil_r).
  destruct r; cbn [serve]; apply preserves_run; trivial;
    unfold create_organization, put_member_role, update_member_role, remove_member,
      transfer_ownership, rotate_organization_keys, post_invitation, create_invitation,
      accept_invitation, reject_invitation;
    repeat extends_step.
Qed.

(** X22: the audit trail only grows: after any history of requests, under
    any storage faults, the trail is the trail before followed by further
    entries; the same holds for [update_organization], [delete_organization]
    and [delete_account]; [create_account], [update_account],
    [set_account_permission] and [remove_account_permission] leave the trail
    exactly as it was. *)
Theorem audit_trail_append_only :
  (forall (history : list (Request * list bool)) (db : DB),
      exists suffix, audit_logs (serve_all history db) = (audit_logs db ++ suffix)%list)
  /\ (forall (db : DB) (fs : list bool),
         (forall org_id org_data current_user,
             extends (audit_logs db)
               (snd (run (update_organization org_id org_data current_user) db fs)))
         /\ (forall org_id now current_user,
                extends (audit_logs db)
                  (snd (run (delete_organization org_id now current_user) db fs)))
         /\ (forall account_data new_id current_user,
                audit_logs (snd (run (create_account account_data new_id current_user) db fs))
                = audit_logs db)
         /\ (forall account_id account_data current_user,
                audit_logs (snd (run (update_account account_id account_data current_user)
                                   db fs))
                = audit_logs db)
         /\ (forall account_id current_user,
                extends (audit_logs db)
                  (snd (run (delete_account account_id current_user) db fs)))
         /\ (forall account_id user_id permission current_user,
                audit_logs
                  (snd (run (set_account_permission account_id user_id permission
                               current_user) db fs))
                = audit_logs db)
         /\ (forall account_id user_id current_user,
                audit_logs
                  (snd (run (remove_account_permission account_id user_id current_user)
                          db fs))
                = audit_logs db)).
Proof.
  split.
  - intros history. unfold serve_all.
    induction history as [|[r fs] history IH]; intros db; cbn [fold_left fst snd].
    + exists []. now rewrite app_nil_r.
    + destruct (IH (serve r fs db)) as (s & Hs).
      destruct (extends_serve r fs db) as (s0 & Hs0).
      exists (s0 ++ s)%list. now rewrite Hs, Hs0, app_assoc.
  - intros db fs.
    assert (H0 : extends (audit_logs db) db) by (exists []; now rewrite app_nil_r).
    assert (Hsame : forall A (m : M A),
               preserves (fun d => audit_logs d = audit_logs db) m ->
               audit_logs (snd (run m db fs)) = audit_logs db)
      by (intros A m Hm; now apply (preserves_run _ m db fs Hm)).
    repeat split; intros.
    + apply preserves_run; trivial. unfold update_organization. repeat extends_step.
    + apply preserves_run; trivial. unfold delete_organization. repeat extends_step.
    + apply Hsame. unfold create_account. repeat preserve_step; auto.
    + apply Hsame. unfold update_account. repeat preserve_step; auto.
    + apply preserves_run; trivial.
      unfold delete_account, OrganizationMember_left_at. repeat extends_step.
    + apply Hsame. unfold set_account_permission. repeat preserve_step; auto.
    + apply Hsame. unfold remove_account_permission. repeat preserve_step; auto.
Qed.

(** ** Never two owners *)

Lemma owner_discipline_same (db db' : DB) :
  organizations db' = organizations db ->
  organization_members db' = organization_members db ->
  organization_invitations db' = organization_invitations db ->
  owner_discipline db -> owner_discipline db'.
Proof.
  unfold owner_discipline, owners_reference_organizations, at_most_one_owner,
    no_owner_invitation, owner_count.
  intros -> -> ->. trivial.
Qed.

Lemma is_owner_of_true (o : UUID) (m : OrganizationMember.t) :
  is_owner_of o m = true <->
  OrganizationMember.organization_id m = o /\ OrganizationMember.role m = "owner".
Proof.
  unfold is_owner_of. now rewrite andb_true_iff, N.eqb_eq, eqb_true.
Qed.

Lemma RoleEnum_value_owner (r : RoleEnum) : RoleEnum_value r = "owner" -> r = OWNER.
Proof. destruct r; [reflexivity | discriminate..]. Qed.

(** The three parts, request by request. *)

Lemma create_organization_tables (org_data : OrganizationCreate.t) (new_id : UUID)
    (current_user : User.t) (fs : list bool) (db : DB) :
  let new_org := Organization.mk new_id (OrganizationCreate.name org_data) None in
  let creator := OrganizationMember.mk new_id (User.id current_user) "owner"
                   (OrganizationCreate.wrapped_org_key org_data) in
  let db' := snd (run (create_organization org_data new_id current_user) db fs) in
  db' = db
  \/ (constraints_ok (with_organizations (add new_org) db) = true
      /\ organizations db' = add new_org (organizations db)
      /\ organization_members db' = add creator (organization_members db)
      /\ organization_invitations db' = organization_invitations db).
Proof.
  unfold create_organization.
  mrun; try (now left); right; auto.
Qed.

Lemma owner_discipline_create_organization (org_data : OrganizationCreate.t)
    (new_id : UUID) (current_user : User.t) (fs : list bool) (db : DB) :
  owner_discipline db ->
  owner_discipline (snd (run (create_organization org_data new_id current_user) db fs)).
Proof.
  intros (Href & Hone & Hinv).
  destruct (create_organization_tables org_data new_id current_user fs db)
    as [-> | (Hc & Horgs & Hmem & Hi)]; [now repeat split|].
  apply constraints_ok_new_organization in Hc. cbn [Organization.id] in Hc.
  repeat split.
  - intros m Hin Hr. rewrite Hmem in Hin. rewrite Horgs. unfold add in *.
    apply in_app_or in Hin. destruct Hin as [Hin | [<- | []]].
    + destruct (Href m Hin Hr) as (o & Ho & Hid). exists o. split; [|exact Hid].
      apply in_or_app. now left.
    + eexists. split; [apply in_or_app; right; left; reflexivity | reflexivity].
  - intros o. unfold owner_count. rewrite Hmem. unfold add.
    rewrite filter_app, length_app. cbn [filter].
    destruct (is_owner_of o _) eqn:E; cbn [length]; [|specialize (Hone o);
      unfold owner_count in Hone; lia].
    apply is_owner_of_true in E. cbn in E. destruct E as [<- _].
    rewrite filter_none; [cbn; lia|].
    intros m Hin. destruct (is_owner_of new_id m) eqn:Em; [|reflexivity].
    apply is_owner_of_true in Em. destruct Em as [Eo Er].
    destruct (Href m Hin Er) as (o & Ho & Hid). exfalso. apply Hc.
    rewrite <- Eo, <- Hid. now apply in_map.
  - intros i Hin. rewrite Hi in Hin. now apply Hinv.
Qed.

Lemma put_member_role_cases (org_id user_id : UUID) (body : MemberRoleUpdate.t)
    (current_user : User.t) (fs : list bool) (db : DB) :
  snd (run (put_member_role org_id user_id body current_user) db fs) = db
  \/ snd (run (put_member_role org_id user_id body current_user) db fs)
     = snd (run (update_member_role org_id user_id body current_user) db fs).
Proof.
  unfold put_member_role. mstep. unfold MemberRoleUpdate.validate.
  destruct body as [[]]; cbn; [now left | now right..].
Qed.

Lemma owner_discipline_update_member_role (org_id user_id : UUID)
    (role_data : MemberRoleUpdate.t) (current_user : User.t) (fs : list bool) (db : DB) :
  owner_discipline db ->
  owner_discipline (snd (run (update_member_role org_id user_id role_data current_user)
                           db fs)).
Proof.
  intros (Href & Hone & Hinv).
  pose proof (fun o => update_member_role_owner_count org_id user_id role_data
                         current_user fs db o) as Hle.
  destruct (update_member_role_cases org_id user_id role_data current_user fs db)
    as [-> | (manager & target & _ & Ht & _ & Hr & Horgs & _ & Hi & Hm)];
    [now repeat split|].
  repeat split.
  - intros m Hin Hrole. rewrite Hm in Hin. rewrite Horgs.
    apply in_update_first in Hin. destruct Hin as [Hin | (x & _ & ->)]; [auto|].
    cbn in Hrole. apply eqb_false in Hr. contradiction.
  - intros o. specialize (Hle o). specialize (Hone o). lia.
  - intros i Hin. rewrite Hi in Hin. now apply Hinv.
Qed.

Lemma remove_first_filter_le {A} (p q : A -> bool) (l : list A) :
  (length (filter q (remove_first p l)) <= length (filter q l))%nat.
Proof.
  induction l as [|x l IH]; cbn; [lia|].
  destruct (p x); cbn; destruct (q x); cbn; lia.
Qed.

Lemma owner_discipline_remove_member (org_id user_id : UUID) (current_user : User.t)
    (fs : list bool) (db : DB) :
  owner_discipline db ->
  owner_discipline (snd (run (remove_member org_id user_id current_user) db fs)).
Proof.
  intros H. apply preserves_run; [|exact H]. clear H db.
  assert (Haudit : forall f d, owner_discipline d -> owner_discipline (with_audit_logs f d))
    by (intros f d; now apply owner_discipline_same).
  unfold remove_member.
  repeat first [apply preserves_log_audit; [exact Haudit] | preserve_step]; auto.
  intros db (Href & Hone & Hinv). repeat split.
  - intros m Hin. cbn [with_members organization_members organizations] in *.
    apply in_remove_first in Hin. now apply Href.
  - intros o. specialize (Hone o). unfold owner_count in *.
    cbn [with_members organization_members].
    pose proof (remove_first_filter_le (is_member_row org_id user_id) (is_owner_of o)
                  (organization_members db)). lia.
  - exact Hinv.
Qed.

Lemma transfer_ownership_tables (org_id : UUID) (transfer_data : TransferOwnership.t)
    (current_user : User.t) (fs : list bool) (db : DB) :
  let db' := snd (run (transfer_ownership org_id transfer_data current_user) db fs) in
  db' = db
  \/ (exists current_owner new_owner,
         check_org_owner db current_user org_id = Return current_owner
         /\ find_member db org_id (TransferOwnership.new_owner_id transfer_data)
            = Some new_owner
         /\ (OrganizationMember.user_id new_owner =? User.id current_user)%N = false
         /\ organizations db' = organizations db
         /\ organization_invitations db' = organization_invitations db
         /\ organization_members db' =
              update_first
                (is_member_row org_id (TransferOwnership.new_owner_id transfer_data))
                (OrganizationMember.set_role "owner")
                (update_first (is_member_row org_id (User.id current_user))
                   (OrganizationMember.set_role "admin") (organization_members db))).
Proof.
  unfold transfer_ownership.
  mrun; try (now left); right; eauto 10.
Qed.

Lemma owner_discipline_transfer_ownership (org_id : UUID)
    (transfer_data : TransferOwnership.t) (current_user : User.t) (fs : list bool)
    (db : DB) :
  owner_discipline db ->
  owner_discipline (snd (run (transfer_ownership org_id transfer_data current_user) db fs)).
Proof.
  intros (Href & Hone & Hinv).
  destruct (transfer_ownership_tables org_id transfer_data current_user fs db)
    as [-> | (cur & new & Hc & Hf & Hne & Horgs & Hi & Hm)]; [now repeat split|].
  destruct (check_org_owner_return _ _ _ _ Hc) as ((org & Horg & Hid) & Hcur & Hrole).
  destruct (find_member_some _ _ _ _ Hf) as (_ & Hno & Hnu).
  destruct (find_member_some _ _ _ _ Hcur) as (_ & Hco & _).
  rewrite Hnu in Hne. apply N.eqb_neq in Hne.
  set (p1 := is_member_row org_id (User.id current_user)) in *.
  set (p2 := is_member_row org_id (TransferOwnership.new_owner_id transfer_data)) in *.
  set (l1 := update_first p1 (OrganizationMember.set_role "admin")
               (organization_members db)) in *.
  assert (Hf1 : find p2 l1 = Some new).
  { unfold l1. rewrite find_update_first_other; trivial.
    intros y Hy. apply (is_member_row_other _ _ _ _ (not_eq_sym Hne) Hy). }
  repeat split.
  - intros m Hin Hr. rewrite Hm in Hin. rewrite Horgs.
    apply in_update_first_found in Hin. destruct Hin as [Hin | (x & Hx & ->)].
    + apply in_update_first in Hin. destruct Hin as [Hin | (x & _ & ->)]; [auto|].
      discriminate.
    + rewrite Hf1 in Hx. injection Hx as <-. exists org. cbn. split; congruence.
  - intros o. specialize (Hone o). unfold owner_count in *. rewrite Hm.
    pose proof (update_first_count p1 (is_owner_of o) (OrganizationMember.set_role "admin")
                  (organization_members db) cur Hcur) as H1.
    pose proof (update_first_count p2 (is_owner_of o) (OrganizationMember.set_role "owner")
                  l1 new Hf1) as H2.
    rewrite is_owner_of_set_role in H1, H2. fold l1 in H1.
    change ("admin" =? "owner") with false in H1. rewrite andb_false_r in H1.
    change ("owner" =? "owner") with true in H2. rewrite andb_true_r in H2.
    unfold is_owner_of in H1 at 2. rewrite Hco, Hrole in H1.
    change ("owner" =? "owner") with true in H1. rewrite andb_true_r in H1.
    rewrite Hno in H2.
    destruct (org_id =? o)%N; destruct (is_owner_of o new); lia.
  - intros i Hin. rewrite Hi in Hin. now apply Hinv.
Qed.

Lemma update_first_filter_length {A} (p q : A -> bool) (f : A -> A) (l : list A) :
  (forall x, q (f x) = q x) ->
  length (filter q (update_first p f l)) = length (filter q l).
Proof.
  intros H. induction l as [|x l IH]; cbn; [reflexivity|].
  destruct (p x); cbn; [rewrite H; now destruct (q x)|].
  destruct (q x); cbn; now rewrite IH.
Qed.

Lemma owner_discipline_rekey (p : OrganizationMember.t -> bool) (k : string) (db : DB) :
  owner_discipline db ->
  owner_discipline
    (with_members (update_first p (OrganizationMember.set_wrapped_org_key k)) db).
Proof.
  intros (Href & Hone & Hinv). repeat split.
  - intros m Hin Hr. cbn [with_members organization_members organizations] in *.
    apply in_update_first in Hin. destruct Hin as [Hin | (x & Hx & ->)]; [auto|].
    now apply (Href x Hx).
  - intros o. specialize (Hone o). unfold owner_count in *.
    cbn [with_members organization_members].
    now rewrite update_first_filter_length.
  - exact Hinv.
Qed.

Lemma preserves_owner_discipline_rotate_member_keys (org_id : UUID)
    (member_keys : list MemberKeyRotation.t) (n : Z) :
  preserves owner_discipline (rotate_member_keys org_id member_keys n).
Proof.
  revert n. induction member_keys as [|d rest IH]; intros n; cbn.
  - apply preserves_ret.
  - repeat preserve_step; [intros; now apply owner_discipline_rekey | apply IH | apply IH].
Qed.

Lemma owner_discipline_rotate_organization_keys (org_id : UUID)
    (rotation_data : KeyRotationRequest.t) (now : datetime) (current_user : User.t)
    (fs : list bool) (db : DB) :
  owner_discipline db ->
  owner_discipline
    (snd (run (rotate_organization_keys org_id rotation_data now current_user) db fs)).
Proof.
  intros H. apply preserves_run; [|exact H]. clear H db.
  assert (Haudit : forall f d, owner_discipline d -> owner_discipline (with_audit_logs f d))
    by (intros f d; now apply owner_discipline_same).
  assert (Hacc : forall f d, owner_discipline d -> owner_discipline (with_accounts f d))
    by (intros f d; now apply owner_discipline_same).
  unfold rotate_organization_keys.
  repeat first [apply preserves_log_audit; [exact Haudit]
               | apply preserves_owner_discipline_rotate_member_keys
               | apply preserves_rotate_account_deks; [exact Hacc]
               | preserve_step]; auto.
Qed.

Lemma post_invitation_cases (org_id : UUID) (body : InvitationCreate.t)
    (entropy : list byte) (now : datetime) (current_user : User.t) (fs : list bool)
    (db : DB) :
  let db' := snd (run (post_invitation org_id body entropy now current_user) db fs) in
  organizations db' = organizations db
  /\ organization_members db' = organization_members db
  /\ (organization_invitations db' = organization_invitations db
      \/ exists i, OrganizationInvitation.role i <> "owner"
                   /\ organization_invitations db' = add i (organization_invitations db)).
Proof.
  unfold post_invitation, create_invitation, InvitationCreate.validate.
  destruct body as [email [] key]; cbn [InvitationCreate.role InvitationCreate.role_not_owner
    field_validator InvitationCreate.email InvitationCreate.wrapped_org_key];
    mrun; (split; [reflexivity|]); (split; [reflexivity|]);
    try (now left); right; eexists; (split; [|reflexivity]); discriminate.
Qed.

Lemma owner_discipline_post_invitation (org_id : UUID) (body : InvitationCreate.t)
    (entropy : list byte) (now : datetime) (current_user : User.t) (fs : list bool)
    (db : DB) :
  owner_discipline db ->
  owner_discipline (snd (run (post_invitation org_id body entropy now current_user) db fs)).
Proof.
  intros (Href & Hone & Hinv).
  destruct (post_invitation_cases org_id body entropy now current_user fs db)
    as (Horgs & Hmem & Hi).
  repeat split.
  - intros m Hin. rewrite Hmem in Hin. rewrite Horgs. now apply Href.
  - intros o. unfold owner_count. rewrite Hmem. apply Hone.
  - intros i Hin. destruct Hi as [Hi | (i0 & Hr & Hi)]; rewrite Hi in Hin; [auto|].
    unfold add in Hin. apply in_app_or in Hin. destruct Hin as [Hin | [<- | []]]; auto.
Qed.

Lemma accept_invitation_tables (token : string) (accept_data : InvitationAccept.t)
    (now : datetime) (current_user : User.t) (fs : list bool) (db : DB) :
  let db' := snd (run (accept_invitation token accept_data now current_user) db fs) in
  organizations db' = organizations db
  /\ ((organization_members db' = organization_members db
       /\ organization_invitations db' = organization_invitations db)
      \/ exists invitation,
           verify_invitation_token db token now = Return invitation
           /\ organization_members db'
              = add (OrganizationMember.mk
                       (OrganizationInvitation.organization_id invitation)
                       (User.id current_user) (OrganizationInvitation.role invitation)
                       (InvitationAccept.wrapped_org_key accept_data))
                    (organization_members db)
           /\ organization_invitations db'
              = update_first (is_token_row token)
                  (OrganizationInvitation.set_accepted_at now)
                  (organization_invitations db)).
Proof.
  unfold accept_invitation.
  mrun; (split; [reflexivity|]); try (left; split; reflexivity); right; eauto.
Qed.

Lemma owner_discipline_accept_invitation (token : string) (accept_data : InvitationAccept.t)
    (now : datetime) (current_user : User.t) (fs : list bool) (db : DB) :
  owner_discipline db ->
  owner_discipline (snd (run (accept_invitation token accept_data now current_user) db fs)).
Proof.
  intros (Href & Hone & Hinv).
  destruct (accept_invitation_tables token accept_data now current_user fs db)
    as (Horgs & [(Hmem & Hi) | (invitation & Hv & Hmem & Hi)]).
  - apply (owner_discipline_same db); trivial. now repeat split.
  - apply verify_invitation_token_return in Hv as (Hf & _).
    unfold find_invitation in Hf. apply find_some in Hf. destruct Hf as [Hin _].
    specialize (Hinv invitation Hin) as Hrole.
    repeat split.
    + intros m Hm Hr. rewrite Hmem in Hm. rewrite Horgs. unfold add in Hm.
      apply in_app_or in Hm. destruct Hm as [Hm | [<- | []]]; [auto|].
      cbn in Hr. contradiction.
    + intros o. unfold owner_count. rewrite Hmem. unfold add.
      rewrite filter_app, length_app. cbn [filter].
      replace (is_owner_of o _) with false; [cbn; specialize (Hone o);
        unfold owner_count in Hone; lia|].
      symmetry. unfold is_owner_of. cbn. apply eqb_false in Hrole. rewrite Hrole.
      apply andb_false_r.
    + intros i Hi'. rewrite Hi in Hi'. apply in_update_first in Hi'.
      destruct Hi' as [Hi' | (x & Hx & ->)]; [auto|]. cbn. now apply Hinv.
Qed.

Lemma owner_discipline_reject_invitation (token : string) (now : datetime)
    (current_user : User.t) (fs : list bool) (db : DB) :
  owner_discipline db ->
  owner_discipline (snd (run (reject_invitation token now current_user) db fs)).
Proof.
  intros H. apply preserves_run; [|exact H]. clear H db.
  assert (Haudit : forall f d, owner_discipline d -> owner_discipline (with_audit_logs f d))
    by (intros f d; now apply owner_discipline_same).
  unfold reject_invitation.
  repeat first [apply preserves_log_audit; [exact Haudit] | preserve_step]; auto.
  intros db (Href & Hone & Hinv). repeat split; trivial.
  intros i Hi. cbn [with_invitations organization_invitations] in Hi.
  apply in_update_first in Hi. destruct Hi as [Hi | (x & Hx & ->)]; [auto|].
  cbn. now apply Hinv.
Qed.

Lemma owner_discipline_serve (r : Request) (fs : list bool) (db : DB) :
  owner_discipline db -> owner_discipline (serve r fs db).
Proof.
  intros H. destruct r; cbn [serve].
  - now apply owner_discipline_create_organization.
  - destruct (put_member_role_cases org_id user_id body current_user fs db) as [-> | ->];
      [exact H | now apply owner_discipline_update_member_role].
  - now apply owner_discipline_remove_member.
  - now apply owner_discipline_transfer_ownership.
  - now apply owner_discipline_rotate_organization_keys.
  - now apply owner_discipline_post_invitation.
  - now apply owner_discipline_accept_invitation.
  - now apply owner_discipline_reject_invitation.
Qed.

(** X23: never two owners: from a database where owner rows reference
    organization rows, no organization id has two owner rows and no
    invitation has the role owner, every history of requests of any kind,
    under any storage faults, keeps all three; from the empty database no
    history reaches two owners; and [update_member_role] never raises the
    number of owners of any organization. *)
Theorem never_two_owners :
  (forall (history : list (Request * list bool)) (db : DB),
      owner_discipline db ->
      owner_discipline (serve_all history db)
      /\ forall o, (owner_count (serve_all history db) o <= 1)%nat)
  /\ (forall history : list (Request * list bool),
         forall o, (owner_count (serve_all history empty_db) o <= 1)%nat)
  /\ (forall org_id user_id role_data current_user fs db o,
         (owner_count
            (snd (run (update_member_role org_id user_id role_data current_user) db fs)) o
          <= owner_count db o)%nat).
Proof.
  assert (Hall : forall (history : list (Request * list bool)) (db : DB),
             owner_discipline db -> owner_discipline (serve_all history db)).
  { unfold serve_all. induction history as [|[r fs] history IH]; intros db H;
      cbn [fold_left fst snd]; [exact H|].
    apply IH. now apply owner_discipline_serve. }
  split; [|split].
  - intros history db H. split; [now apply Hall|]. now apply Hall.
  - intros history. apply Hall. repeat split.
    + intros m [].
    + intros o. cbn. lia.
    + intros i [].
  - intros. apply update_member_role_owner_count.
Qed.

Lemma never_two_owners_witness :
  (owner_count
     (serve_all
        [(UpdateMemberRole 10 1 (MemberRoleUpdate.mk ADMIN) Sample.alice, []);
         (AcceptInvitation "tok-open" (InvitationAccept.mk "key-carol") 1000
            Sample.carol, []);
         (TransferOwnershipTo 10 (TransferOwnership.mk 2) Sample.alice, [])]
        Sample.db) 10
   <= 1)%nat.
Proof.
  apply (proj1 never_two_owners). repeat split.
  - intros m [<- | [<- | []]]; [|discriminate]. intros _.
    exists Sample.family. split; [now left | reflexivity].
  - intros o. unfold owner_count, Sample.db. cbn [organization_members filter].
    unfold is_owner_of. cbn [OrganizationMember.organization_id OrganizationMember.role].
    destruct (10 =? o)%N; vm_compute; lia.
  - intros i [<- | [<- | []]]; discriminate.
Defined.

(** ** Renaming an organization *)

Lemma check_org_permission_ext (db db' : DB) :
  (forall o, is_set (find_organization db' o) = is_set (find_organization db o)) ->
  organization_members db' = organization_members db ->
  forall user org_id required_role,
    check_org_permission db' user org_id required_role
    = check_org_permission db user org_id required_role.
Proof.
  intros Ho Hm user org_id required_role. unfold check_org_permission, find_member.
  rewrite Hm. specialize (Ho org_id).
  destruct (find_organization db' org_id), (find_organization db org_id);
    try discriminate; reflexivity.
Qed.

Lemma update_organization_cases (org_id : UUID) (org_data : OrganizationUpdate.t)
    (current_user : User.t) (fs : list bool) (db : DB) :
  let db' := snd (run (update_organization org_id org_data current_user) db fs) in
  users db' = users db
  /\ organization_members db' = organization_members db
  /\ accounts db' = accounts db
  /\ account_permissions db' = account_permissions db
  /\ organization_invitations db' = organization_invitations db
  /\ (organizations db' = organizations db
      \/ exists name,
           OrganizationUpdate.name org_data = Some name
           /\ organizations db'
              = update_first (is_live_organization org_id) (set_organization_name name)
                  (organizations db)).
Proof.
  unfold update_organization.
  mrun; repeat (split; [reflexivity|]); try (now left); right; eauto.
Qed.

Lemma update_organization_unnamed (org_id : UUID) (org_data : OrganizationUpdate.t)
    (current_user : User.t) (fs : list bool) (db : DB) :
  OrganizationUpdate.name org_data = None ->
  let db' := snd (run (update_organization org_id org_data current_user) db fs) in
  audit_logs db' = audit_logs db /\ organizations db' = organizations db.
Proof.
  intros Hn. unfold update_organization. rewrite Hn.
  mrun; split; reflexivity.
Qed.

(** X24: [update_organization], on the columns kept here ([description],
    [settings] and [updated_at], which the handler also writes, are not
    among them): under any storage faults every [check_org_permission] and
    [check_account_permission] gives what it gave before, and no
    organization appears, disappears or changes its [deleted_at];
    memberships and invitations are untouched.  With no name in the body no
    organization changes its name and no audit entry is written, whatever
    else the body holds.  A rename by an admin (storage taking the writes)
    gives the organization the new name, leaves the name of every other
    organization row, and appends one [org_updated] entry with the old and
    the new name. *)
Theorem update_organization_outcome (org_id : UUID) (org_data : OrganizationUpdate.t)
    (current_user : User.t) (db : DB) :
  (forall fs,
      let db' := snd (run (update_organization org_id org_data current_user) db fs) in
      (forall user o required_role,
          check_org_permission db' user o required_role
          = check_org_permission db user o required_role)
      /\ (forall user account_id required_permission,
             check_account_permission db' user account_id required_permission
             = check_account_permission db user account_id required_permission)
      /\ map Organization.id (organizations db') = map Organization.id (organizations db)
      /\ map Organization.deleted_at (organizations db')
         = map Organization.deleted_at (organizations db)
      /\ organization_members db' = organization_members db
      /\ organization_invitations db' = organization_invitations db)
  /\ (OrganizationUpdate.name org_data = None ->
      forall fs,
        let db' := snd (run (update_organization org_id org_data current_user) db fs) in
        map Organization.name (organizations db') = map Organization.name (organizations db)
        /\ audit_logs db' = audit_logs db)
  /\ (forall name member org,
         OrganizationUpdate.name org_data = Some name ->
         check_org_admin db current_user org_id = Return member ->
         find_organization db org_id = Some org ->
         constraints_ok db = true ->
         let db' := snd (run (update_organization org_id org_data current_user) db []) in
         (exists org',
             find_organization db' org_id = Some org'
             /\ Organization.name org' = name)
         /\ Forall2 (fun o o' =>
                       Organization.name o' = Organization.name o
                       \/ (is_live_organization org_id o = true
                           /\ Organization.name o' = name))
                    (organizations db) (organizations db')
         /\ audit_logs db'
            = (audit_logs db
               ++ [AuditLog.mk org_id (User.id current_user) "org_updated"
                     (Some "organization")
                     [("name_old", JStr (Organization.name org));
                      ("name_new", JStr name)]])%list).
Proof.
  split; [|split].
  - intros fs db'.
    destruct (update_organization_cases org_id org_data current_user fs db)
      as (Hu & Hm & Ha & Hp & Hi & Ho). fold db' in Hu, Hm, Ha, Hp, Hi, Ho.
    assert (Hfind : forall o,
               is_set (find_organization db' o) = is_set (find_organization db o)).
    { intros o. unfold find_organization.
      destruct Ho as [-> | (name & _ & ->)]; [reflexivity|].
      now apply is_set_find_update_first. }
    split; [now apply check_org_permission_ext|].
    split.
    + intros user account_id required_permission.
      unfold check_account_permission, find_account, find_member, find_account_permission.
      now rewrite Ha, Hm, Hp.
    + destruct Ho as [-> | (name & _ & ->)]; repeat split; trivial;
        now apply map_update_first.
  - intros Hn fs db'.
    destruct (update_organization_unnamed org_id org_data current_user fs db Hn)
      as (Ha & Ho).
    subst db'. now rewrite Ha, Ho.
  - intros name member org Hn Hc Ho Hok db'.
    assert (Hrun : db'
                   = with_audit_logs
                       (add (AuditLog.mk (Organization.id org) (User.id current_user)
                               "org_updated" (Some "organization")
                               [("name_old", JStr (Organization.name org));
                                ("name_new", JStr name)]))
                       (with_organizations
                          (update_first (is_live_organization org_id)
                             (set_organization_name name))
                          db)).
    { subst db'. unfold update_organization. rewrite Hn.
      mstep. rewrite Hc. mstep. rewrite Ho. mstep.
      rewrite constraints_ok_update_organization, Hok by reflexivity. mstep.
      rewrite constraints_ok_with_audit_logs, constraints_ok_update_organization, Hok
        by reflexivity.
      mrun; reflexivity. }
    rewrite Hrun.
    assert (Hid : Organization.id org = org_id).
    { unfold find_organization in Ho. apply find_some in Ho as (_ & H).
      apply andb_true_iff in H as (H & _). now apply N.eqb_eq in H. }
    split; [|split].
    + exists (set_organization_name name org). split; [|reflexivity].
      unfold find_organization. cbn [with_audit_logs with_organizations organizations].
      apply (find_update_first_same (is_live_organization org_id)); [exact Ho|].
      unfold find_organization in Ho. apply find_some in Ho as (_ & H). exact H.
    + cbn [with_audit_logs with_organizations organizations].
      eapply Forall2_impl; [|apply Forall2_update_first].
      intros o o' [-> | (Hp & ->)]; [now left | right; now split].
    + cbn [with_audit_logs audit_logs]. now rewrite Hid.
Qed.

Lemma update_organization_outcome_witness :
  let db' :=
    snd (run (update_organization 10 (OrganizationUpdate.mk (Some "Household"))
                Sample.alice) Sample.db []) in
  (exists org', find_organization db' 10 = Some org' /\ Organization.name org' = "Household")
  /\ map AuditLog.action (audit_logs db')
     = (map AuditLog.action (audit_logs Sample.db) ++ ["org_updated"])%list.
Proof.
  destruct (proj2 (proj2 (update_organization_outcome
                            10 (OrganizationUpdate.mk (Some "Household"))
                            Sample.alice Sample.db))
              "Household" (OrganizationMember.mk 10 1 "owner" "key-alice") Sample.family
              eq_refl eq_refl eq_refl eq_refl)
    as (Hfind & _ & Haudit).
  split; [exact Hfind|].
  cbv zeta. rewrite Haudit, map_app. reflexivity.
Defined.

(** ** The member count *)

Lemma accept_invitation_return (token : string) (accept_data : InvitationAccept.t)
    (now : datetime) (current_user : User.t) (fs : list bool) (db db' : DB)
    (response : InvitationResponse.t) :
  run (accept_invitation token accept_data now current_user) db fs = (Return response, db') ->
  exists invitation,
    verify_invitation_token db token now = Return invitation
    /\ InvitationResponse.organization_id response
       = OrganizationInvitation.organization_id invitation
    /\ find_member db (OrganizationInvitation.organization_id invitation)
                   (User.id current_user) = None
    /\ organization_members db'
       = add (OrganizationMember.mk (OrganizationInvitation.organization_id invitation)
                (User.id current_user) (OrganizationInvitation.role invitation)
                (InvitationAccept.wrapped_org_key accept_data))
             (organization_members db).
Proof.
  unfold accept_invitation.
  mrun; intros [= <- <-];
    match goal with
    | H : is_set ?x = false |- _ =>
      assert (x = None) by (destruct x; [discriminate | reflexivity])
    end;
    eexists; repeat split; try reflexivity; assumption.
Qed.

(** X25: how the requests move [get_org_member_count]: an
    [accept_invitation] that returns raises the count of the invitation's
    organization by one, a [remove_member] that returns lowers the count of
    its organization by one, a [transfer_ownership] that returns changes no
    count; the counts of all other organizations stay. *)
Theorem member_count_changes (db db' : DB) (fs : list bool) :
  (forall token accept_data now current_user response,
      run (accept_invitation token accept_data now current_user) db fs
      = (Return response, db') ->
      forall o,
        get_org_member_count db' o
        = get_org_member_count db o
          + (if (InvitationResponse.organization_id response =? o)%N then 1 else 0))
  /\ (forall org_id user_id current_user,
         run (remove_member org_id user_id current_user) db fs = (Return tt, db') ->
         forall o,
           get_org_member_count db' o
           = get_org_member_count db o - (if (org_id =? o)%N then 1 else 0))
  /\ (forall org_id transfer_data current_user response,
         run (transfer_ownership org_id transfer_data current_user) db fs
         = (Return response, db') ->
         forall o, get_org_member_count db' o = get_org_member_count db o).
Proof.
  split; [|split].
  - intros token accept_data now current_user response H o.
    apply accept_invitation_return in H. destruct H as (invitation & _ & -> & _ & Hm).
    unfold get_org_member_count. rewrite Hm. unfold add.
    rewrite filter_app, length_app. cbn [filter OrganizationMember.organization_id].
    destruct (_ =? o)%N; cbn [length]; lia.
  - intros org_id user_id current_user H o.
    apply remove_member_return in H.
    destruct H as (manager & target & _ & Hf & _ & Hm).
    unfold get_org_member_count. rewrite Hm.
    pose proof (remove_first_count (is_member_row org_id user_id)
                  (fun m => (OrganizationMember.organization_id m =? o)%N)
                  (organization_members db) target Hf) as Hc.
    destruct (find_member_some _ _ _ _ Hf) as (_ & Ho & _). cbv beta in Hc.
    rewrite Ho in Hc.
    destruct (org_id =? o)%N; lia.
  - intros org_id transfer_data current_user response H o.
    apply transfer_ownership_return in H.
    destruct H as (cur & new & _ & _ & _ & _ & Hm).
    unfold get_org_member_count. rewrite Hm.
    now rewrite !update_first_filter_length.
Qed.

Lemma member_count_changes_witness :
  get_org_member_count
    (snd (run (accept_invitation "tok-open" (InvitationAccept.mk "key-carol") 1000
                 Sample.carol) Sample.db [])) 10
  = 3.
Proof.
  exact (proj1 (member_count_changes Sample.db _ [])
               "tok-open" (InvitationAccept.mk "key-carol") 1000 Sample.carol _ eq_refl
               10%N).
Defined.

(** ** Reading an invitation *)

(** X26: [get_invitation_by_token] never changes the database and shows an
    invitation only to its addressee: a response means the token passes
    [verify_invitation_token] and the invitation's email is the caller's (the
    response carries that invitation's wrapped key and has no marker); any
    other caller gets the 403.  A token the gate refuses is refused with the
    same exception by [get_invitation_by_token], [accept_invitation] and
    [reject_invitation], none of which then changes anything. *)
Theorem get_invitation_by_token_discloses (token : string) (now : datetime)
    (current_user : User.t) (db : DB) :
  (forall fs, snd (run (get_invitation_by_token token now current_user) db fs) = db)
  /\ (forall fs response db',
         run (get_invitation_by_token token now current_user) db fs
         = (Return response, db') ->
         exists invitation,
           verify_invitation_token db token now = Return invitation
           /\ OrganizationInvitation.email invitation = User.email current_user
           /\ InvitationResponse.email response = User.email current_user
           /\ InvitationResponse.token response = token
           /\ InvitationResponse.wrapped_org_key response
              = OrganizationInvitation.wrapped_org_key invitation
           /\ InvitationResponse.accepted_at response = None
           /\ InvitationResponse.rejected_at response = None
           /\ now <= InvitationResponse.expires_at response)
  /\ (forall invitation fs,
         verify_invitation_token db token now = Return invitation ->
         OrganizationInvitation.email invitation <> User.email current_user ->
         run (get_invitation_by_token token now current_user) db fs
         = (Raise (HTTPException 403 "This invitation is for a different email address"),
            db))
  /\ (forall e fs,
         verify_invitation_token db token now = Raise e ->
         run (get_invitation_by_token token now current_user) db fs = (Raise e, db)
         /\ (forall accept_data,
                run (accept_invitation token accept_data now current_user) db fs
                = (Raise e, db))
         /\ run (reject_invitation token now current_user) db fs = (Raise e, db)).
Proof.
  split; [|split; [|split]].
  - intros fs. unfold get_invitation_by_token. mrun; reflexivity.
  - intros fs response db'. unfold get_invitation_by_token. mstep.
    destruct (verify_invitation_token db token now) as [invitation|] eqn:Hv; mstep;
      [|discriminate].
    destruct (negb _) eqn:He; mstep; [discriminate|].
    apply negb_false_iff, eqb_true in He.
    destruct (get_organization db _); mstep; [|discriminate].
    destruct (RoleEnum_of _); mstep; [|discriminate].
    destruct (find_user db _); mstep; [|discriminate].
    intros [= <- <-]. exists invitation.
    destruct (verify_invitation_token_return _ _ _ _ Hv) as (Hf & Ha & Hr & Hx).
    unfold find_invitation in Hf. apply find_some in Hf. destruct Hf as [_ Ht].
    apply eqb_true in Ht. cbn. auto 10.
  - intros invitation fs Hv Hne. apply eqb_false in Hne.
    unfold get_invitation_by_token. mstep. rewrite Hv. mstep. rewrite Hne. reflexivity.
  - intros e fs Hv. repeat split; [| intros accept_data |];
      unfold get_invitation_by_token, accept_invitation, reject_invitation; mstep;
      rewrite Hv; reflexivity.
Qed.

Lemma get_invitation_by_token_discloses_witness :
  run (get_invitation_by_token "tok-open" 1000 Sample.bob) Sample.db []
  = (Raise (HTTPException 403 "This invitation is for a different email address"),
     Sample.db).
Proof.
  exact (proj1 (proj2 (proj2 (get_invitation_by_token_discloses "tok-open" 1000 Sample.bob
                                Sample.db)))
               Sample.open_invitation [] eq_refl ltac:(discriminate)).
Defined.

(** ** A role change takes effect *)

Lemma update_member_role_return (org_id user_id : UUID) (role_data : MemberRoleUpdate.t)
    (current_user : User.t) (fs : list bool) (db db' : DB)
    (response : OrganizationMemberResponse.t) :
  run (update_member_role org_id user_id role_data current_user) db fs
  = (Return response, db') ->
  exists manager target,
    check_org_admin db current_user org_id = Return manager
    /\ find_member db org_id user_id = Some target
    /\ OrganizationMemberResponse.role response = MemberRoleUpdate.role role_data
    /\ MemberRoleUpdate.role role_data <> OWNER
    /\ organizations db' = organizations db
    /\ organization_members db' =
         update_first (is_member_row org_id user_id)
           (OrganizationMember.set_role (RoleEnum_value (MemberRoleUpdate.role role_data)))
           (organization_members db).
Proof.
  unfold update_member_role.
  mrun; intros [= <- <-];
    repeat match goal with
           | H : validate_role_transition _ _ _ = Return _ |- _ =>
             apply validate_role_transition_return in H
           | H : RoleEnum_of (RoleEnum_value ?r) = Return ?r' |- _ =>
             rewrite RoleEnum_of_value in H; injection H as <-
           end;
    do 2 eexists; repeat split; try reflexivity; try eassumption;
    intros E; rewrite E in *; discriminate.
Qed.

(** X27: when [update_member_role] returns, the change is in force and
    touches nothing else: the target's membership row carries the new role,
    which is never owner, so a role check of the target passes exactly when
    the new role reaches the role required; the rows of every other pair
    (organization, user) are found as before; no wrapped key changes; the
    response reports the role asked. *)
Theorem update_member_role_effect (org_id user_id : UUID) (role_data : MemberRoleUpdate.t)
    (current_user : User.t) (fs : list bool) (db db' : DB)
    (response : OrganizationMemberResponse.t) :
  run (update_member_role org_id user_id role_data current_user) db fs
  = (Return response, db') ->
  let new_role := RoleEnum_value (MemberRoleUpdate.role role_data) in
  (exists target,
      find_member db org_id user_id = Some target
      /\ find_member db' org_id user_id = Some (OrganizationMember.set_role new_role target))
  /\ (forall user required,
         User.id user = user_id ->
         str_truthy required = true ->
         check_org_permission db' user org_id (Some required)
         = if role_at_least new_role required
           then check_org_permission db' user org_id None
           else Raise (PermissionError
                         ("Insufficient permissions. Required role: " ++ required)))
  /\ (forall o u, o <> org_id \/ u <> user_id ->
                  find_member db' o u = find_member db o u)
  /\ map OrganizationMember.wrapped_org_key (organization_members db')
     = map OrganizationMember.wrapped_org_key (organization_members db)
  /\ new_role <> "owner"
  /\ OrganizationMemberResponse.role response = MemberRoleUpdate.role role_data.
Proof.
  intros H. cbv zeta. apply update_member_role_return in H.
  destruct H as (manager & target & Hc & Hf & Hresp & Hno & Horgs & Hm).
  destruct (check_org_permission_return _ _ _ _ _ Hc) as ((org & Horg) & _ & _).
  assert (Hf' : find_member db' org_id user_id
                = Some (OrganizationMember.set_role
                          (RoleEnum_value (MemberRoleUpdate.role role_data)) target)).
  { unfold find_member. rewrite Hm. apply find_update_first_same; [exact Hf|].
    apply find_some in Hf. apply Hf. }
  split; [eauto|]. split; [|split; [|split; [|split]]].
  - intros user required Hu Ht. unfold check_org_permission, find_organization.
    rewrite Horgs. fold (find_organization db org_id). rewrite Horg.
    rewrite Hu, Hf', Ht. cbv zeta. unfold role_at_least.
    cbn [OrganizationMember.set_role OrganizationMember.role].
    now destruct (_ <? _)%Z.
  - intros o u Hne. unfold find_member. rewrite Hm.
    apply find_update_first_other; [reflexivity|].
    intros y Hy. unfold is_member_row in *. apply andb_true_iff in Hy.
    destruct Hy as [Hy1 Hy2]. apply N.eqb_eq in Hy1, Hy2. rewrite Hy1, Hy2.
    apply andb_false_iff. destruct Hne as [Hne | Hne]; [left | right];
      apply N.eqb_neq; congruence.
  - rewrite Hm. now apply map_update_first.
  - intros E. apply RoleEnum_value_owner in E. contradiction.
  - exact Hresp.
Qed.

Lemma update_member_role_effect_witness :
  check_org_permission
    (snd (run (update_member_role 10 2 (MemberRoleUpdate.mk VIEWER) Sample.alice)
              Sample.db []))
    Sample.bob 10 (Some "member")
  = Raise (PermissionError "Insufficient permissions. Required role: member").
Proof.
  exact (proj1 (proj2 (update_member_role_effect 10 2 (MemberRoleUpdate.mk VIEWER)
                         Sample.alice [] Sample.db _ _ eq_refl))
               Sample.bob "member" eq_refl eq_refl).
Defined.
